(** * Skill-planner: the schedule allocator of [src/lib/scheduler.ts]
      and the page of [src/app/page.tsx]

    A shallow embedding of [generateSchedule] and of the helpers it uses,
    then the vocabulary in which the properties are stated (intervals,
    invariants of the loop, sample runs), then the state of the page with
    the handlers that update it, then the properties themselves.

    Conventions of the embedding.
    - JavaScript numbers are read in exact arithmetic.  Minute quantities
      ([workBlockMins], [breakMins], [lunch.duration], every block length and
      every clock time) are integers ([Z]); hour quantities ([estHours],
      [dailyHours]) and everything derived from them by division are
      rationals ([Q]).
    - [Map]s keyed by skill id are [gmap string _].  The source only looks
      keys up, overwrites them, and folds [+] or [every] over the values, so
      the iteration order of the map is not observable.
    - The block field [id] is a fresh [uuidv4()] and is left out of the
      record: nothing in the allocator reads it.
    - Calendar dates are day numbers ([Z]); [addDays d 1] is [d + 1], the
      date of "now" is an argument, and [format] is the identity.
    - The two [while] loops take a fuel argument; [None] means that the fuel
      ran out, never that the source returned. *)

From Stdlib Require Import ZArith QArith Qround Qminmax Lia Lqa.
From Stdlib Require Import String Ascii List Decimal DecimalString DecimalZ DecimalPos.
From Stdlib Require Import Sorting.Sorted Sorting.Permutation.
From stdpp Require Import gmap strings list fin_maps.

Open Scope Z_scope.

#[local] Arguments String.append !s1 s2.

(** ** Numbers *)

Definition Qltb (x y : Q) : bool :=
  match (x ?= y)%Q with Lt => true | _ => false end.

(** [Math.round]: the nearest integer, halves rounded up. *)
Definition Math_round (x : Q) : Z := Qfloor (x + (1 # 2)).

(** [const roundTo5 = (num) => Math.round(num / 5) * 5] *)
Definition roundTo5 (num : Q) : Z := Math_round (num / 5) * 5.

(** ** Time utilities *)

(** [Number.prototype.toString] on an integer: decimal digits, with a
    leading [-] for a negative one. *)
Definition toString (z : Z) : string := NilEmpty.string_of_int (Z.to_int z).

(** [s.padStart(2, '0')] *)
Definition padStart2 (s : string) : string :=
  String.append
    (string_of_list_ascii (repeat "0"%char (2 - String.length s)%nat)) s.

(** [Math.floor(minutes / 60)] is [Z.div]; the remainder [%] of JavaScript
    takes the sign of the dividend, which is [Z.rem]. *)
Definition minutesToTime (minutes : Z) : string :=
  let h := padStart2 (toString (minutes / 60)) in
  let m := padStart2 (toString (Z.rem minutes 60)) in
  String.append h (String.append ":" m).

(** [time.split(':')] *)
Fixpoint split_colon (acc : string) (time : string) : list string :=
  match time with
  | EmptyString => [acc]
  | String c rest =>
      if Ascii.eqb c ":"%char then acc :: split_colon EmptyString rest
      else split_colon (String.append acc (String c EmptyString)) rest
  end.

(** [Number(s)] on an optionally signed decimal numeral (the empty string
    is [0]).  On any other string the source gets [NaN] (or a value written
    in another notation); the model does not follow such strings and reads
    them as [0].  The settings are validated against [wellFormedTime] before
    the allocator is called, and every other string the allocator parses
    was printed by [minutesToTime]; the model speaks for the source on
    such settings. *)
Definition Number (s : string) : Z :=
  match NilEmpty.int_of_string s with
  | Some d => Z.of_int d
  | None => 0
  end.

(** [const [hours, minutes] = time.split(':').map(Number);
     return hours * 60 + minutes] *)
Definition timeToMinutes (time : string) : Z :=
  match map Number (split_colon EmptyString time) with
  | hours :: minutes :: _ => hours * 60 + minutes
  | _ => 0
  end.

(** The validator of the form layer (page.tsx):
    [/^([01]\d|2[0-3]):([0-5]\d)$/]. *)
Definition isDigitUpTo (hi : nat) (c : ascii) : bool :=
  let n := nat_of_ascii c in
  ((48 <=? n) && (n <=? 48 + hi))%nat.

Definition wellFormedTime (s : string) : bool :=
  match s with
  | String h1 (String h2 (String c (String m1 (String m2 EmptyString)))) =>
      ((isDigitUpTo 1 h1 && isDigitUpTo 9 h2)
       || (Ascii.eqb h1 "2"%char && isDigitUpTo 3 h2))
      && Ascii.eqb c ":"%char
      && isDigitUpTo 5 m1 && isDigitUpTo 9 m2
  | _ => false
  end.

(** ** Data model (types.ts) *)

Inductive Priority := High | Medium | Low.

Module Skill.
Record t := mk {
  id : string;
  name : string;
  priority : Priority;
  estHours : Q
}.
End Skill.

Module Lunch.
Record t := mk {
  start : string;
  duration : Z
}.
End Lunch.

Inductive Mode := Daily | Monthly.

Module Settings.
Record t := mk {
  mode : Mode;
  dailyHours : Q;
  startDate : Z;
  endDate : Z;
  startTime : string;
  endTime : string;
  workBlockMins : Z;
  breakMins : Z;
  lunch : option Lunch.t
}.
End Settings.

Inductive BlockType := work | break | lunch | buffer.

Definition BlockType_eqb (a b : BlockType) : bool :=
  match a, b with
  | work, work | break, break | lunch, lunch | buffer, buffer => true
  | _, _ => false
  end.

Module Block.
Record t := mk {
  start : string;
  end_ : string;
  type : BlockType;
  skillId : option string;
  skillName : option string;
  minutes : Z;
  completed : option bool
}.
End Block.

Module Day.
Record t := mk {
  date : Z;
  blocks : list Block.t
}.
End Day.

Module Summary.
Record t := mk {
  skillId : string;
  skillName : string;
  minutes : Z;
  percent : Q
}.
End Summary.

(** The three [throw new Error(...)] of [generateSchedule], named as the
    specification names them. *)
Inductive Error := InvalidRangeError | InvalidWindowError | EmptyScheduleError.

(** ** Maps *)

(** [new Map(pairs)]: a later pair overwrites an earlier one with the same
    key. *)
Definition newMap {V} (pairs : list (string * V)) : gmap string V :=
  foldl (fun m kv => <[kv.1 := kv.2]> m) ∅ pairs.

(** [Array.from(m.values())] *)
Definition values {V} (m : gmap string V) : list V := (map_to_list m).*2.

(** [xs.reduce((a, b) => a + b, 0)] *)
Definition sumZ (xs : list Z) : Z := foldl Z.add 0 xs.

(** ** The allocator *)

(** [const PRIORITY_WEIGHTS = { High: 3, Medium: 2, Low: 1 }] *)
Definition PRIORITY_WEIGHTS (p : Priority) : Z :=
  match p with High => 3 | Medium => 2 | Low => 1 end.

(** [getDatesInRange]: [while (currentDate <= endDate) { dates.push(...);
    currentDate = addDays(currentDate, 1) }]. *)
Fixpoint getDatesLoop (fuel : nat) (currentDate endDate : Z) (dates : list Z)
  : option (list Z) :=
  if currentDate <=? endDate then
    match fuel with
    | O => None
    | S fuel' => getDatesLoop fuel' (currentDate + 1) endDate (dates ++ [currentDate])
    end
  else Some dates.

Definition getDatesInRange (fuel : nat) (startDate endDate : Z) : option (list Z) :=
  getDatesLoop fuel startDate endDate [].

(** [Array.prototype.sort(cmp)]: a stable sort; [a] stays in front of [b]
    unless [cmp a b > 0]. *)
Section Sort.
Context {A : Type} (cmp : A -> A -> Z).

Fixpoint sort_insert (x : A) (l : list A) : list A :=
  match l with
  | [] => [x]
  | y :: l' => if cmp x y <=? 0 then x :: l else y :: sort_insert x l'
  end.

Fixpoint sort (l : list A) : list A :=
  match l with
  | [] => []
  | x :: l' => sort_insert x (sort l')
  end.
End Sort.

(** [activeSkills]: [skills.filter(s => (remainingHours.get(s.id) ?? 0) > 0)] *)
Definition activeSkillsOf (skills : list Skill.t) (remainingHours : gmap string Q)
  : list Skill.t :=
  List.filter (fun s => Qltb 0 (default 0%Q (remainingHours !! Skill.id s))) skills.

(** [activeSkills.reduce((sum, s) => sum + PRIORITY_WEIGHTS[s.priority], 0)] *)
Definition totalWeightOf (activeSkills : list Skill.t) : Z :=
  foldl (fun sum s => sum + PRIORITY_WEIGHTS (Skill.priority s)) 0 activeSkills.

(** The entry of one active skill in [dailyAllocation]. *)
Definition dailyTarget (allocatableTimeForDay : Q) (totalWeight : Z)
    (remainingHours : gmap string Q) (s : Skill.t) : Z :=
  let proportionalMinutes :=
    (allocatableTimeForDay * inject_Z (PRIORITY_WEIGHTS (Skill.priority s))
     / inject_Z totalWeight)%Q in
  roundTo5 (Qmin proportionalMinutes (default 0%Q (remainingHours !! Skill.id s))).

Definition dailyAllocationOf (allocatableTimeForDay : Q) (totalWeight : Z)
    (remainingHours : gmap string Q) (activeSkills : list Skill.t)
  : gmap string Z :=
  newMap (map (fun s => (Skill.id s,
                         dailyTarget allocatableTimeForDay totalWeight remainingHours s))
              activeSkills).

(** [[...activeSkills].sort((a, b) => W[b.priority] - W[a.priority])],
    rotated left by one from the second scheduled day on. *)
Definition skillQueueOf (activeSkills : list Skill.t) (dayIndex : nat)
  : list Skill.t :=
  let q := sort (fun a b => PRIORITY_WEIGHTS (Skill.priority b)
                            - PRIORITY_WEIGHTS (Skill.priority a)) activeSkills in
  if (0 <? dayIndex)%nat then
    match q with
    | [] => []
    | first :: rest => rest ++ [first]
    end
  else q.

(** The variables the block-emission loop reads and writes. *)
Module Loop.
Record t := mk {
  blocks : list Block.t;
  currentTime : Z;
  queueIndex : nat;
  dailyAllocation : gmap string Z;
  totalAllocatedToday : Z;
  totalMinutesPerSkill : gmap string Z;
  remainingHours : gmap string Q
}.
End Loop.

Definition workBlock (skill : Skill.t) (from len : Z) : Block.t :=
  Block.mk (minutesToTime from) (minutesToTime (from + len)) work
           (Some (Skill.id skill)) (Some (Skill.name skill)) len (Some false).

Definition lunchBlock (lunchStart : Z) (l : Lunch.t) : Block.t :=
  Block.mk (minutesToTime lunchStart) (minutesToTime (lunchStart + Lunch.duration l))
           lunch None None (Lunch.duration l) None.

Definition breakBlock (from len : Z) : Block.t :=
  Block.mk (minutesToTime from) (minutesToTime (from + len)) break None None len None.

Definition bufferBlock (from to : Z) : Block.t :=
  Block.mk (minutesToTime from) (minutesToTime to) buffer None None (to - from) None.

Definition lastIsLunch (blocks : list Block.t) : bool :=
  match last blocks with
  | Some b => BlockType_eqb (Block.type b) lunch
  | None => false
  end.

Section EmissionLoop.
Variable settings : Settings.t.
Variable windowEnd : Z.
Variable skillQueue : list Skill.t.
(** The skill read when the queue is empty; the loop is only entered with
    a queue that is not. *)
Variable noSkill : Skill.t.

(** One pass through the body of
    [while (currentTime < windowEnd && totalAllocatedToday > 0)].
    The boolean tells whether the loop goes on ([continue], or the end of
    the body) or stops ([break]). *)
Definition loopBody (w : Loop.t) : Loop.t * bool :=
  let currentTime := Loop.currentTime w in
  let inLunch :=
    match Settings.lunch settings with
    | Some l =>
        let lunchStart := timeToMinutes (Lunch.start l) in
        let lunchEnd := lunchStart + Lunch.duration l in
        if (lunchStart <=? currentTime) && (currentTime <? lunchEnd)
        then Some (l, lunchStart, lunchEnd) else None
    | None => None
    end in
  match inLunch with
  | Some (l, lunchStart, lunchEnd) =>
      let blocks :=
        if lastIsLunch (Loop.blocks w) then Loop.blocks w
        else Loop.blocks w ++ [lunchBlock lunchStart l] in
      (Loop.mk blocks lunchEnd (Loop.queueIndex w) (Loop.dailyAllocation w)
               (Loop.totalAllocatedToday w) (Loop.totalMinutesPerSkill w)
               (Loop.remainingHours w), true)
  | None =>
      let skill :=
        nth (Loop.queueIndex w mod length skillQueue)%nat skillQueue noSkill in
      let queueIndex := S (Loop.queueIndex w) in
      let sid := Skill.id skill in
      let skip :=
        (Loop.mk (Loop.blocks w) currentTime queueIndex (Loop.dailyAllocation w)
                 (Loop.totalAllocatedToday w) (Loop.totalMinutesPerSkill w)
                 (Loop.remainingHours w),
         negb (forallb (fun t => t <=? 0) (values (Loop.dailyAllocation w)))) in
      match Loop.dailyAllocation w !! sid with
      | Some skillTimeLeft =>
          if 0 <? skillTimeLeft then
            let blockDuration := Z.min (Settings.workBlockMins settings) skillTimeLeft in
            if windowEnd <? currentTime + blockDuration then
              let remainingWindowTime := roundTo5 (inject_Z (windowEnd - currentTime)) in
              if 0 <? remainingWindowTime then
                (Loop.mk
                   (Loop.blocks w ++ [workBlock skill currentTime remainingWindowTime])
                   currentTime queueIndex
                   (<[sid := skillTimeLeft - remainingWindowTime]> (Loop.dailyAllocation w))
                   (Loop.totalAllocatedToday w - remainingWindowTime)
                   (<[sid := default 0 (Loop.totalMinutesPerSkill w !! sid)
                             + remainingWindowTime]> (Loop.totalMinutesPerSkill w))
                   (<[sid := (default 0%Q (Loop.remainingHours w !! sid)
                              - inject_Z remainingWindowTime)%Q]> (Loop.remainingHours w)),
                 false)
              else
                (Loop.mk (Loop.blocks w) currentTime queueIndex (Loop.dailyAllocation w)
                         (Loop.totalAllocatedToday w) (Loop.totalMinutesPerSkill w)
                         (Loop.remainingHours w), false)
            else
              let blocks := Loop.blocks w ++ [workBlock skill currentTime blockDuration] in
              let currentTime := currentTime + blockDuration in
              let totalAllocatedToday := Loop.totalAllocatedToday w - blockDuration in
              let takeBreak :=
                (0 <? Settings.breakMins settings)
                && (currentTime + Settings.breakMins settings <=? windowEnd)
                && (0 <? totalAllocatedToday) in
              (Loop.mk
                 (if takeBreak
                  then blocks ++ [breakBlock currentTime (Settings.breakMins settings)]
                  else blocks)
                 (if takeBreak then currentTime + Settings.breakMins settings
                  else currentTime)
                 queueIndex
                 (<[sid := skillTimeLeft - blockDuration]> (Loop.dailyAllocation w))
                 totalAllocatedToday
                 (<[sid := default 0 (Loop.totalMinutesPerSkill w !! sid)
                           + blockDuration]> (Loop.totalMinutesPerSkill w))
                 (<[sid := (default 0%Q (Loop.remainingHours w !! sid)
                            - inject_Z blockDuration)%Q]> (Loop.remainingHours w)),
               true)
          else skip
      | None => skip
      end
  end.

Definition loopCond (w : Loop.t) : bool :=
  (Loop.currentTime w <? windowEnd) && (0 <? Loop.totalAllocatedToday w).

Fixpoint whileLoop (fuel : nat) (w : Loop.t) : option Loop.t :=
  if loopCond w then
    match fuel with
    | O => None
    | S fuel' =>
        let (w', goOn) := loopBody w in
        if goOn then whileLoop fuel' w' else Some w'
    end
  else Some w.
End EmissionLoop.

(** The lunch block appended after the loop when none was emitted in it. *)
Definition lunchBackfill (settings : Settings.t) (windowStart windowEnd : Z)
    (blocks : list Block.t) : list Block.t :=
  match Settings.lunch settings with
  | Some l =>
      if existsb (fun b => BlockType_eqb (Block.type b) lunch) blocks then blocks
      else
        let lunchStart := timeToMinutes (Lunch.start l) in
        if (windowStart <=? lunchStart) && (lunchStart <? windowEnd)
        then blocks ++ [lunchBlock lunchStart l]
        else blocks
  | None => blocks
  end.

(** [blocks.sort((a, b) => timeToMinutes(a.start) - timeToMinutes(b.start))] *)
Definition sortBlocks (blocks : list Block.t) : list Block.t :=
  sort (fun a b => timeToMinutes (Block.start a) - timeToMinutes (Block.start b)) blocks.

(** The body of [blocks.forEach(block => ...)] over the pair
    [(lastBlockEnd, finalBlocks)]. *)
Definition fillStep (st : Z * list Block.t) (block : Block.t) : Z * list Block.t :=
  let (lastBlockEnd, finalBlocks) := st in
  let blockStart := timeToMinutes (Block.start block) in
  let finalBlocks :=
    if lastBlockEnd <? blockStart then
      if 0 <? blockStart - lastBlockEnd
      then finalBlocks ++ [bufferBlock lastBlockEnd blockStart]
      else finalBlocks
    else finalBlocks in
  (timeToMinutes (Block.end_ block), finalBlocks ++ [block]).

Definition bufferFill (windowStart windowEnd : Z) (blocks : list Block.t)
  : list Block.t :=
  let (lastBlockEnd, finalBlocks) := foldl fillStep (windowStart, []) blocks in
  if lastBlockEnd <? windowEnd then
    if 0 <? windowEnd - lastBlockEnd
    then finalBlocks ++ [bufferBlock lastBlockEnd windowEnd]
    else finalBlocks
  else finalBlocks.

(** The variables that live across the days of the [for] loop. *)
Module Acc.
Record t := mk {
  remainingHours : gmap string Q;
  totalMinutesPerSkill : gmap string Z;
  generatedSchedule : list Day.t;
  dayIndex : nat
}.
End Acc.

(** How one pass through the body of [for (const date of dates)] ends. *)
Inductive DayResult :=
| DayThrows (e : Error)
| DayContinue
| DayBreak
| DayPushed (acc : Acc.t).

Definition allocatableTimeOf (settings : Settings.t) (windowStart windowEnd : Z) : Q :=
  let totalWindowMinutes := windowEnd - windowStart in
  let totalWindowMinutes :=
    match Settings.lunch settings with
    | Some l => totalWindowMinutes - Lunch.duration l
    | None => totalWindowMinutes
    end in
  match Settings.mode settings with
  | Daily => (Settings.dailyHours settings * 60)%Q
  | Monthly => inject_Z totalWindowMinutes
  end.

Definition dayBody (fuel : nat) (skills : list Skill.t) (settings : Settings.t)
    (date : Z) (acc : Acc.t) : option DayResult :=
  let windowStart := timeToMinutes (Settings.startTime settings) in
  let windowEnd := timeToMinutes (Settings.endTime settings) in
  if windowEnd - windowStart <=? 0 then Some (DayThrows InvalidWindowError)
  else
    let allocatableTimeForDay := allocatableTimeOf settings windowStart windowEnd in
    if Qle_bool allocatableTimeForDay 0 then Some DayContinue
    else
      let activeSkills := activeSkillsOf skills (Acc.remainingHours acc) in
      match activeSkills with
      | [] => Some DayBreak
      | firstActive :: _ =>
          let totalWeight := totalWeightOf activeSkills in
          if totalWeight =? 0 then Some DayContinue
          else
            let dailyAllocation :=
              dailyAllocationOf allocatableTimeForDay totalWeight
                                (Acc.remainingHours acc) activeSkills in
            let totalAllocatedToday := sumZ (values dailyAllocation) in
            let skillQueue := skillQueueOf activeSkills (Acc.dayIndex acc) in
            match whileLoop settings windowEnd skillQueue firstActive fuel
                    (Loop.mk [] windowStart 0%nat dailyAllocation totalAllocatedToday
                             (Acc.totalMinutesPerSkill acc) (Acc.remainingHours acc)) with
            | None => None
            | Some w =>
                let blocks := lunchBackfill settings windowStart windowEnd (Loop.blocks w) in
                let finalBlocks := bufferFill windowStart windowEnd (sortBlocks blocks) in
                Some (DayPushed
                        (Acc.mk (Loop.remainingHours w) (Loop.totalMinutesPerSkill w)
                                (Acc.generatedSchedule acc ++ [Day.mk date finalBlocks])
                                (S (Acc.dayIndex acc))))
            end
      end.

Fixpoint forDates (fuel : nat) (skills : list Skill.t) (settings : Settings.t)
    (dates : list Z) (acc : Acc.t) : option (Error + Acc.t) :=
  match dates with
  | [] => Some (inr acc)
  | date :: rest =>
      match dayBody fuel skills settings date acc with
      | None => None
      | Some (DayThrows e) => Some (inl e)
      | Some DayContinue => forDates fuel skills settings rest acc
      | Some DayBreak => Some (inr acc)
      | Some (DayPushed acc') => forDates fuel skills settings rest acc'
      end
  end.

(** The summary entry of one input skill. *)
Definition summaryEntry (totalMinutesPerSkill : gmap string Z) (grandTotalMinutes : Z)
    (skill : Skill.t) : Summary.t :=
  let minutes := default 0 (totalMinutesPerSkill !! Skill.id skill) in
  Summary.mk (Skill.id skill) (Skill.name skill) minutes
             (if 0 <? grandTotalMinutes
              then (inject_Z minutes / inject_Z grandTotalMinutes * 100)%Q
              else 0%Q).

Definition initialAcc (skills : list Skill.t) : Acc.t :=
  Acc.mk (newMap (map (fun s => (Skill.id s, (Skill.estHours s * 60)%Q)) skills))
         (newMap (map (fun s => (Skill.id s, 0)) skills))
         [] 0%nat.

(** The end of [generateSchedule]: the summary is built, and the schedule
    is returned with it unless it is empty. *)
Definition finishRun (skills : list Skill.t) (acc : Acc.t)
  : Error + list Day.t * list Summary.t :=
  let grandTotalMinutes := sumZ (values (Acc.totalMinutesPerSkill acc)) in
  let summary :=
    map (summaryEntry (Acc.totalMinutesPerSkill acc) grandTotalMinutes) skills in
  match Acc.generatedSchedule acc with
  | [] => inl EmptyScheduleError
  | _ => inr (Acc.generatedSchedule acc, summary)
  end.

(** The dates the [for] loop runs over. *)
Definition datesOf (fuel : nat) (today : Z) (settings : Settings.t) : option (list Z) :=
  match Settings.mode settings with
  | Monthly =>
      getDatesInRange fuel (Settings.startDate settings) (Settings.endDate settings)
  | Daily => Some [today]
  end.

(** [generateSchedule(skills, settings)].  [today] is the date [new Date()]
    gives in Daily mode.  The result is [None] when the fuel does not
    suffice, [Some (inl e)] when the source throws, and [Some (inr _)] when
    it returns. *)
Definition generateSchedule (fuel : nat) (today : Z) (skills : list Skill.t)
    (settings : Settings.t)
  : option (Error + list Day.t * list Summary.t) :=
  match datesOf fuel today settings with
  | None => None
  | Some dates =>
      match dates, Settings.mode settings with
      | [], Monthly => Some (inl InvalidRangeError)
      | _, _ =>
          match forDates fuel skills settings dates (initialAcc skills) with
          | None => None
          | Some (inl e) => Some (inl e)
          | Some (inr acc) => Some (finishRun skills acc)
          end
      end
  end.

(** * The vocabulary of the statements *)

(** ** Clock times *)

(** No character of [s] is a colon. *)
Fixpoint no_colon (s : string) : Prop :=
  match s with
  | EmptyString => True
  | String c rest => Ascii.eqb c ":"%char = false /\ no_colon rest
  end.

(** The digits ['0'] to ['0' + hi]. *)
Definition digitsUpTo (hi : nat) : list ascii :=
  map (fun n => ascii_of_nat (48 + n)) (seq 0 (S hi)).

(** The string [h1 h2 : m1 m2]. *)
Definition hhmm (h1 h2 m1 m2 : ascii) : string :=
  String h1 (String h2 (String ":" (String m1 (String m2 EmptyString)))).

(** The strings [wellFormedTime] accepts, listed. *)
Definition acceptedTimes : list string :=
  flat_map (fun h =>
    flat_map (fun m1 => map (fun m2 => hhmm (fst h) (snd h) m1 m2) (digitsUpTo 9))
             (digitsUpTo 5))
    (list_prod (digitsUpTo 1) (digitsUpTo 9)
     ++ list_prod ["2"%char] (digitsUpTo 3)).

(** [s] is what [minutesToTime] prints for the minute of the day it
    parses to. *)
Definition canonicalTime (s : string) : bool :=
  String.eqb (minutesToTime (timeToMinutes s)) s
  && (0 <=? timeToMinutes s) && (timeToMinutes s <? 1440).

(** ** The passes of the block-emission loop *)

Section LoopVocabulary.
Variable settings : Settings.t.
Variable windowEnd : Z.
Variable skillQueue : list Skill.t.
Variable noSkill : Skill.t.

(** [skillQueue[queueIndex % skillQueue.length]] *)
Definition nextSkill (w : Loop.t) : Skill.t :=
  nth (Loop.queueIndex w mod length skillQueue)%nat skillQueue noSkill.

(** The clock is inside the configured lunch [l], which runs from
    [lunchStart] to [lunchEnd]. *)
Definition inLunch (w : Loop.t) (l : Lunch.t) : Prop :=
  Settings.lunch settings = Some l
  /\ timeToMinutes (Lunch.start l) <= Loop.currentTime w
     < timeToMinutes (Lunch.start l) + Lunch.duration l.

(** The state after [queueIndex++] alone. *)
Definition advanced (w : Loop.t) : Loop.t :=
  Loop.mk (Loop.blocks w) (Loop.currentTime w) (S (Loop.queueIndex w))
          (Loop.dailyAllocation w) (Loop.totalAllocatedToday w)
          (Loop.totalMinutesPerSkill w) (Loop.remainingHours w).

(** The state after a work block of [len] minutes for the next skill, of
    which [left] minutes of daily target were left; [brk] tells whether a
    break follows and [moves] whether the clock moves past the block. *)
Definition worked (w : Loop.t) (left len : Z) (moves brk : bool) : Loop.t :=
  let skill := nextSkill w in
  let sid := Skill.id skill in
  let blocks := Loop.blocks w ++ [workBlock skill (Loop.currentTime w) len] in
  let time := if moves then Loop.currentTime w + len else Loop.currentTime w in
  Loop.mk
    (if brk then blocks ++ [breakBlock time (Settings.breakMins settings)] else blocks)
    (if brk then time + Settings.breakMins settings else time)
    (S (Loop.queueIndex w))
    (<[sid := left - len]> (Loop.dailyAllocation w))
    (Loop.totalAllocatedToday w - len)
    (<[sid := default 0 (Loop.totalMinutesPerSkill w !! sid) + len]>
       (Loop.totalMinutesPerSkill w))
    (<[sid := (default 0%Q (Loop.remainingHours w !! sid) - inject_Z len)%Q]>
       (Loop.remainingHours w)).

(** The passes through the body of the loop, by the branch taken:
    [LoopStep w w' goOn] when a pass from [w] ends in [w'] and the loop
    goes on ([goOn]) or is left by [break]. *)
Inductive LoopStep (w : Loop.t) : Loop.t -> bool -> Prop :=
| StepLunch l :
    inLunch w l ->
    LoopStep w
      (Loop.mk (if lastIsLunch (Loop.blocks w) then Loop.blocks w
                else Loop.blocks w
                     ++ [lunchBlock (timeToMinutes (Lunch.start l)) l])
               (timeToMinutes (Lunch.start l) + Lunch.duration l)
               (Loop.queueIndex w) (Loop.dailyAllocation w)
               (Loop.totalAllocatedToday w) (Loop.totalMinutesPerSkill w)
               (Loop.remainingHours w))
      true
| StepSkip :
    (forall l, ~ inLunch w l) ->
    default 0 (Loop.dailyAllocation w !! Skill.id (nextSkill w)) <= 0 ->
    LoopStep w (advanced w)
      (negb (forallb (fun t => t <=? 0) (values (Loop.dailyAllocation w))))
| StepClip left :
    (forall l, ~ inLunch w l) ->
    Loop.dailyAllocation w !! Skill.id (nextSkill w) = Some left ->
    0 < left ->
    windowEnd < Loop.currentTime w + Z.min (Settings.workBlockMins settings) left ->
    0 < roundTo5 (inject_Z (windowEnd - Loop.currentTime w)) ->
    LoopStep w
      (worked w left (roundTo5 (inject_Z (windowEnd - Loop.currentTime w))) false false)
      false
| StepClipNone left :
    (forall l, ~ inLunch w l) ->
    Loop.dailyAllocation w !! Skill.id (nextSkill w) = Some left ->
    0 < left ->
    windowEnd < Loop.currentTime w + Z.min (Settings.workBlockMins settings) left ->
    roundTo5 (inject_Z (windowEnd - Loop.currentTime w)) <= 0 ->
    LoopStep w (advanced w) false
| StepWork left brk :
    (forall l, ~ inLunch w l) ->
    Loop.dailyAllocation w !! Skill.id (nextSkill w) = Some left ->
    0 < left ->
    Loop.currentTime w + Z.min (Settings.workBlockMins settings) left <= windowEnd ->
    brk = ((0 <? Settings.breakMins settings)
           && (Loop.currentTime w + Z.min (Settings.workBlockMins settings) left
               + Settings.breakMins settings <=? windowEnd)
           && (0 <? Loop.totalAllocatedToday w
                    - Z.min (Settings.workBlockMins settings) left)) ->
    LoopStep w
      (worked w left (Z.min (Settings.workBlockMins settings) left) true brk)
      true.

(** The blocks a pass can append when the loop is in state [w]. *)
Inductive Emitted (w : Loop.t) : Block.t -> Prop :=
| EmitLunch l :
    inLunch w l ->
    Emitted w (lunchBlock (timeToMinutes (Lunch.start l)) l)
| EmitWork len :
    0 < len ->
    Emitted w (workBlock (nextSkill w) (Loop.currentTime w) len)
| EmitBreak len :
    0 < len ->
    0 < Settings.breakMins settings ->
    Emitted w (breakBlock (Loop.currentTime w + len) (Settings.breakMins settings)).

(** The skill at position [j] of the round robin still has minutes of its
    daily target left. *)
Definition wanted (dailyAllocation : gmap string Z) (j : nat) : bool :=
  match dailyAllocation
        !! Skill.id (nth (j mod length skillQueue)%nat skillQueue noSkill) with
  | Some target => 0 <? target
  | None => false
  end.

(** The number of skills the round robin passes over, from position [j]
    on and looking at [n] positions, before it reaches one that is
    wanted. *)
Fixpoint skipsFrom (dailyAllocation : gmap string Z) (n j : nat) : nat :=
  match n with
  | O => O
  | S n' =>
      if wanted dailyAllocation j then O
      else S (skipsFrom dailyAllocation n' (S j))
  end.

(** The passes the loop can still make: for every minute left in the
    window a pass that emits a block and the skips in front of it. *)
Definition passesLeft (w : Loop.t) : nat :=
  Z.to_nat (windowEnd - Loop.currentTime w) * S (length skillQueue)
  + skipsFrom (Loop.dailyAllocation w) (length skillQueue) (Loop.queueIndex w).

(** Every key of the daily targets is the id of a skill in the queue. *)
Definition targetsInQueue (w : Loop.t) : Prop :=
  forall sid, is_Some (Loop.dailyAllocation w !! sid) -> In sid (map Skill.id skillQueue).

End LoopVocabulary.

(** While the loop runs no daily target is negative, and the minutes that
    remain of a skill cover what is left of its target up to the two and a
    half minutes the rounding of the target may have added. *)
Definition overrunInv (w : Loop.t) : Prop :=
  forall sid,
    match Loop.dailyAllocation w !! sid with
    | Some target =>
        0 <= target
        /\ (- (5 # 2) <= default 0 (Loop.remainingHours w !! sid) - inject_Z target)%Q
    | None => (- 5 < default 0 (Loop.remainingHours w !! sid))%Q
    end.

(** When the loop is left a skill has overrun what remained of it by
    less than five minutes. *)
Definition overrunEnd (w : Loop.t) : Prop :=
  forall sid, (- 5 < default 0 (Loop.remainingHours w !! sid))%Q.

(** ** Order *)

Section OrderVocabulary.
Context {A : Type} (cmp : A -> A -> Z).

(** Every element of the list and the one after it are in the order in
    which [sort cmp] leaves them. *)
Fixpoint inOrder (l : list A) : Prop :=
  match l with
  | [] => True
  | x :: l' => match l' with [] => True | y :: _ => cmp x y <= 0 end /\ inOrder l'
  end.

End OrderVocabulary.

(** ** Blocks as intervals *)

(** The clock times a block carries, read back as the sort and the buffer
    fill read them. *)
Definition bstart (b : Block.t) : Z := timeToMinutes (Block.start b).

Definition bend (b : Block.t) : Z := timeToMinutes (Block.end_ b).

(** A block whose strings are the times of an interval [bstart, bend) of
    the length the block states. *)
Definition timed (b : Block.t) : Prop :=
  0 <= bstart b /\ bstart b <= bend b /\ Block.minutes b = bend b - bstart b.

(** The buffer fill as a recursion over the sorted blocks, with the end
    of the block in front as its argument. *)
Fixpoint fillFrom (lastBlockEnd : Z) (blocks : list Block.t) (windowEnd : Z)
  : list Block.t :=
  match blocks with
  | [] =>
      if lastBlockEnd <? windowEnd
      then [bufferBlock lastBlockEnd windowEnd] else []
  | block :: rest =>
      (if lastBlockEnd <? bstart block
       then [bufferBlock lastBlockEnd (bstart block)] else [])
      ++ block :: fillFrom (bend block) rest windowEnd
  end.

(** [tiles from bs to]: the blocks, in the order given, are laid end to end
    from [from] to [to]: the first starts at [from], each one starts where
    the one before ends, the last ends at [to]. *)
Fixpoint tiles (from : Z) (bs : list Block.t) (to : Z) : Prop :=
  match bs with
  | [] => from = to
  | b :: bs' => bstart b = from /\ tiles (bend b) bs' to
  end.

(** [covers from bs to]: as [tiles], but a block may start before the one
    in front of it ends, and the last may end after [to]: no minute between
    [from] and [to] is left out. *)
Fixpoint covers (from : Z) (bs : list Block.t) (to : Z) : Prop :=
  match bs with
  | [] => to <= from
  | b :: bs' => bstart b <= from /\ covers (bend b) bs' to
  end.

(** [spaced from bs to]: the blocks follow each other between [from] and
    [to] without overlapping; gaps are allowed. *)
Fixpoint spaced (from : Z) (bs : list Block.t) (to : Z) : Prop :=
  match bs with
  | [] => from <= to
  | b :: bs' => from <= bstart b /\ spaced (bend b) bs' to
  end.

(** [tiles] as a test. *)
Fixpoint tilesb (from : Z) (bs : list Block.t) (to : Z) : bool :=
  match bs with
  | [] => from =? to
  | b :: bs' => (bstart b =? from) && tilesb (bend b) bs' to
  end.

(** ** The days of a run *)

(** [windowStart] and [windowEnd] of the settings. *)
Definition windowStartOf (settings : Settings.t) : Z :=
  timeToMinutes (Settings.startTime settings).

Definition windowEndOf (settings : Settings.t) : Z :=
  timeToMinutes (Settings.endTime settings).

(** The state in which the block-emission loop of a day is entered. *)
Definition loopStart (settings : Settings.t) (skills : list Skill.t) (acc : Acc.t)
  : Loop.t :=
  let windowStart := windowStartOf settings in
  let windowEnd := windowEndOf settings in
  let activeSkills := activeSkillsOf skills (Acc.remainingHours acc) in
  let dailyAllocation :=
    dailyAllocationOf (allocatableTimeOf settings windowStart windowEnd)
                      (totalWeightOf activeSkills)
                      (Acc.remainingHours acc) activeSkills in
  Loop.mk [] windowStart 0%nat dailyAllocation (sumZ (values dailyAllocation))
          (Acc.totalMinutesPerSkill acc) (Acc.remainingHours acc).

(** What the day makes of the blocks the loop emitted. *)
Definition finishDay (settings : Settings.t) (blocks : list Block.t) : list Block.t :=
  bufferFill (windowStartOf settings) (windowEndOf settings)
    (sortBlocks (lunchBackfill settings (windowStartOf settings)
                               (windowEndOf settings) blocks)).

(** A day that reaches [generatedSchedule.push]: the window is not empty,
    there is time to allocate and a skill to allocate it to, and the loop
    ended in [w]. *)
Record DayRun (fuel : nat) (skills : list Skill.t) (settings : Settings.t)
    (acc : Acc.t) (firstActive : Skill.t) (w : Loop.t) : Prop := {
  run_window : windowStartOf settings < windowEndOf settings;
  run_allocatable :
    (0 < allocatableTimeOf settings (windowStartOf settings) (windowEndOf settings))%Q;
  run_active :
    exists rest, activeSkillsOf skills (Acc.remainingHours acc) = firstActive :: rest;
  run_weight : totalWeightOf (activeSkillsOf skills (Acc.remainingHours acc)) <> 0;
  run_loop :
    whileLoop settings (windowEndOf settings)
              (skillQueueOf (activeSkillsOf skills (Acc.remainingHours acc))
                            (Acc.dayIndex acc))
              firstActive fuel (loopStart settings skills acc) = Some w
}.

(** The settings as the form hands them over: clock times in [HH:MM], a
    work block and a lunch that last. *)
Record validTimes (settings : Settings.t) : Prop := {
  valid_startTime : wellFormedTime (Settings.startTime settings) = true;
  valid_endTime : wellFormedTime (Settings.endTime settings) = true;
  valid_workBlockMins : 0 < Settings.workBlockMins settings;
  valid_lunchStart : forall l,
    Settings.lunch settings = Some l -> wellFormedTime (Lunch.start l) = true
}.

(** The blocks of all the days of the run. *)
Definition blocksProduced (acc : Acc.t) : list Block.t :=
  concat (map Day.blocks (Acc.generatedSchedule acc)).

(** ** Invariants of the loop *)

Section WindowVocabulary.
Variables windowStart windowEnd : Z.

(** Every block in the list has well-formed times, and the clock is in
    the window or past it. *)
Definition timingInv (w : Loop.t) : Prop :=
  windowStart <= Loop.currentTime w /\ Forall timed (Loop.blocks w).

(** The blocks emitted so far are laid end to end from the window start
    to the clock, and the rest of the window and every daily target are
    multiples of five minutes. *)
Definition gridInv (w : Loop.t) : Prop :=
  tiles windowStart (Loop.blocks w) (Loop.currentTime w)
  /\ windowStart <= Loop.currentTime w <= windowEnd
  /\ (5 | windowEnd - Loop.currentTime w)
  /\ map_Forall (fun _ t => (5 | t)) (Loop.dailyAllocation w).

(** When the loop is left the blocks are laid end to end from the window
    start to a time inside the window. *)
Definition gridEnd (w : Loop.t) : Prop :=
  exists e, tiles windowStart (Loop.blocks w) e /\ e <= windowEnd.

End WindowVocabulary.

(** [b.type === 'lunch'] *)
Definition isLunch (b : Block.t) : bool := BlockType_eqb (Block.type b) lunch.

Section LunchVocabulary.
Variable l : Lunch.t.

(** The lunch block of the lunch [l]. *)
Definition theLunch : Block.t := lunchBlock (timeToMinutes (Lunch.start l)) l.

(** Either no lunch block was emitted yet, or exactly one was, and the
    clock is past the lunch. *)
Definition lunchInv (w : Loop.t) : Prop :=
  List.filter isLunch (Loop.blocks w) = []
  \/ (List.filter isLunch (Loop.blocks w) = [theLunch]
      /\ timeToMinutes (Lunch.start l) + Lunch.duration l <= Loop.currentTime w).

End LunchVocabulary.

(** ** Minutes of work *)

(** The minutes of the blocks that satisfy [p]. *)
Definition minutesOf (p : Block.t -> bool) (blocks : list Block.t) : Z :=
  sumZ (map Block.minutes (List.filter p blocks)).

(** [b.type === 'work'] *)
Definition isWork (b : Block.t) : bool := BlockType_eqb (Block.type b) work.

(** A work block that carries the skill id [sid]. *)
Definition carries (sid : string) (b : Block.t) : bool :=
  isWork b
  && match Block.skillId b with
     | Some x => String.eqb x sid
     | None => false
     end.

(** Only work blocks count for [p]. *)
Definition workOnly (p : Block.t -> bool) : Prop :=
  forall b, p b = true -> Block.type b = work.

Section AccountingVocabulary.
Variable start : Loop.t.

(** The totals grow with the work blocks, the remaining minutes shrink by
    as much, and no key is added to the totals. *)
Record acctInv (w : Loop.t) : Prop := {
  acct_total : forall sid,
    default 0 (Loop.totalMinutesPerSkill w !! sid)
    = default 0 (Loop.totalMinutesPerSkill start !! sid)
      + minutesOf (carries sid) (Loop.blocks w);
  acct_remaining : forall sid,
    (default 0 (Loop.remainingHours w !! sid)
     == default 0 (Loop.remainingHours start !! sid)
        - inject_Z (minutesOf (carries sid) (Loop.blocks w)))%Q;
  acct_grand :
    sumZ (values (Loop.totalMinutesPerSkill w))
    = sumZ (values (Loop.totalMinutesPerSkill start)) + minutesOf isWork (Loop.blocks w);
  acct_targets : forall sid,
    is_Some (Loop.dailyAllocation w !! sid) ->
    is_Some (Loop.totalMinutesPerSkill start !! sid);
  acct_keys : forall sid,
    is_Some (Loop.totalMinutesPerSkill w !! sid)
    <-> is_Some (Loop.totalMinutesPerSkill start !! sid)
}.

End AccountingVocabulary.

Section TotalsVocabulary.
Variable skills : list Skill.t.

(** What the totals and the remaining minutes are in terms of the blocks
    pushed so far. *)
Record totalsInv (acc : Acc.t) : Prop := {
  totals_skill : forall sid,
    default 0 (Acc.totalMinutesPerSkill acc !! sid)
    = minutesOf (carries sid) (blocksProduced acc);
  totals_remaining : forall sid,
    (default 0 (Acc.remainingHours acc !! sid)
     == default 0 (Acc.remainingHours (initialAcc skills) !! sid)
        - inject_Z (minutesOf (carries sid) (blocksProduced acc)))%Q;
  totals_grand :
    sumZ (values (Acc.totalMinutesPerSkill acc)) = minutesOf isWork (blocksProduced acc);
  totals_keys : forall sid,
    is_Some (Acc.totalMinutesPerSkill acc !! sid) <-> In sid (map Skill.id skills)
}.

End TotalsVocabulary.

(** Between the days no skill has overrun its estimate by five minutes or
    more. *)
Definition overrunAcc (acc : Acc.t) : Prop :=
  forall sid, (- 5 < default 0 (Acc.remainingHours acc !! sid))%Q.

(** [xs.reduce((a, b) => a + b, 0)] on rationals. *)
Definition sumQ (xs : list Q) : Q := fold_right Qplus 0%Q xs.

(** ** Fuel *)

(** Fuel that is enough for the loop of any day. *)
Definition dayFuel (skills : list Skill.t) (settings : Settings.t) : nat :=
  Z.to_nat (windowEndOf settings - windowStartOf settings) * S (length skills)
  + length skills + 1.

(** Fuel that is enough for a call: for the days of the range, and for
    the loop of each day. *)
Definition enoughFuel (skills : list Skill.t) (settings : Settings.t) : nat :=
  Nat.max (Z.to_nat (Settings.endDate settings - Settings.startDate settings + 1))
          (dayFuel skills settings).

(** ** Runs to try the statements on *)

(** Two skills over three days with a lunch at 13:00. *)
Definition demoSkills : list Skill.t :=
  [Skill.mk "py" "Python" High 2; Skill.mk "sql" "SQL" Low (3 # 2)].

Definition demoLunch : Lunch.t := Lunch.mk "13:00" 60.

Definition demoSettings : Settings.t :=
  Settings.mk Monthly 0 0 2 "09:00" "17:00" 50 10 (Some demoLunch).

Definition demoRun : option (Error + list Day.t * list Summary.t) :=
  generateSchedule 64 0 demoSkills demoSettings.

Definition demoSchedule : list Day.t :=
  match demoRun with Some (inr (schedule, _)) => schedule | _ => [] end.

Definition demoSummary : list Summary.t :=
  match demoRun with Some (inr (_, summary)) => summary | _ => [] end.

(** A day on the five-minute grid without a lunch. *)
Definition gridSkills : list Skill.t :=
  [Skill.mk "go" "Go" Medium 3; Skill.mk "c" "C" High 4].

Definition gridSettings : Settings.t :=
  Settings.mk Daily 6 0 0 "09:00" "17:00" 50 10 None.

Definition gridSchedule : list Day.t :=
  match generateSchedule 64 0 gridSkills gridSettings with
  | Some (inr (schedule, _)) => schedule
  | _ => []
  end.

Definition gridSummary : list Summary.t :=
  match generateSchedule 64 0 gridSkills gridSettings with
  | Some (inr (_, summary)) => summary
  | _ => []
  end.

(** The run on which the exact partition fails: one skill of eight hours,
    eight hours a day from 09:00 to 17:00 in blocks of 50 minutes with
    breaks of 10, and a lunch of an hour at 12:30. *)
Definition overlapSkills : list Skill.t := [Skill.mk "rust" "Rust" High 8].

Definition overlapSettings : Settings.t :=
  Settings.mk Daily 8 0 0 "09:00" "17:00" 50 10 (Some (Lunch.mk "12:30" 60)).

(** Scenario A: one skill of one hour, one hour a day, no lunch. *)
Definition scenarioA_settings : Settings.t :=
  Settings.mk Daily 1 0 0 "09:00" "17:00" 50 10 None.

Definition scenarioA_skill (sid nm : string) : Skill.t := Skill.mk sid nm High 1.

(** The states of the loop in scenario A: on entry, after the first pass
    and after the second. *)
Definition scenarioA_w0 (sid : string) : Loop.t :=
  Loop.mk [] 540 0%nat {[sid := 60]} 60 {[sid := 0]} {[sid := (1 * 60)%Q]}.

Definition scenarioA_w1 (sid nm : string) : Loop.t :=
  Loop.mk [workBlock (scenarioA_skill sid nm) 540 50; breakBlock 590 10] 600 1%nat
          {[sid := 10]} 10 {[sid := 50]} {[sid := (1 * 60 - inject_Z 50)%Q]}.

Definition scenarioA_w2 (sid nm : string) : Loop.t :=
  Loop.mk [workBlock (scenarioA_skill sid nm) 540 50; breakBlock 590 10;
           workBlock (scenarioA_skill sid nm) 600 10]
          610 2%nat {[sid := 0]} 0 {[sid := 60]}
          {[sid := (1 * 60 - inject_Z 50 - inject_Z 10)%Q]}.

(** What scenario A is expected to give: a single day, in it a single
    work block, 09:00-09:50 of 50 minutes, and buffer blocks besides. *)
Definition scenarioA_claimed (schedule : list Day.t) : bool :=
  match schedule with
  | [day] =>
      match List.filter (fun b => BlockType_eqb (Block.type b) work) (Day.blocks day) with
      | [b] =>
          String.eqb (Block.start b) "09:00" && String.eqb (Block.end_ b) "09:50"
          && (Block.minutes b =? 50)
      | _ => false
      end
      && forallb (fun b => BlockType_eqb (Block.type b) work
                           || BlockType_eqb (Block.type b) buffer)
                 (Day.blocks day)
  | _ => false
  end.

(** ** The shapes of the blocks of a day *)

Section PlacedVocabulary.
Variable settings : Settings.t.
Variable skills : list Skill.t.

(** The four kinds of block of a day, each with where it can lie: a work
    block of a skill of [skills] that starts inside the window, a break of
    [breakMins] that ends inside it, the configured lunch, and a buffer. *)
Inductive Placed : Block.t -> Prop :=
| PlacedWork skill from len :
    In skill skills ->
    windowStartOf settings <= from < windowEndOf settings ->
    0 < len ->
    from + len <= windowEndOf settings + 2 ->
    (len <= Settings.workBlockMins settings
     \/ (len <= Settings.workBlockMins settings + 1 /\ (5 | len))) ->
    Placed (workBlock skill from len)
| PlacedBreak from :
    0 < Settings.breakMins settings ->
    windowStartOf settings < from ->
    from + Settings.breakMins settings <= windowEndOf settings ->
    Placed (breakBlock from (Settings.breakMins settings))
| PlacedLunch l :
    Settings.lunch settings = Some l ->
    Placed (lunchBlock (timeToMinutes (Lunch.start l)) l)
| PlacedBuffer from to :
    0 <= from < to ->
    Placed (bufferBlock from to).

(** The loop has not moved the clock in front of the window, and every
    block it has emitted is placed. *)
Definition placedInv (w : Loop.t) : Prop :=
  windowStartOf settings <= Loop.currentTime w /\ Forall Placed (Loop.blocks w).

End PlacedVocabulary.

(** * The page ([src/app/page.tsx])

    The state of the page and the functions that update or read it.  A
    handler that calls [setAppState(prev => ...)] is the function from
    [prev] to the new state; the state it reads as [appState] is the same
    [prev] (the handlers run one at a time, each on the state that is
    rendered).  What the handlers do besides (toasts, form resets, the
    clipboard, printing) is left out. *)

(** ** Comparing strings *)

(** [a < b] on two strings compares them code unit by code unit; the other
    comparisons are derived from it as the language defines them: [a > b]
    is [b < a], [a <= b] is [!(b < a)] and [a >= b] is [!(a < b)].  The
    strings the page compares are clock times, which are ASCII. *)
Definition str_lt (a b : string) : bool := String.ltb a b.

Definition str_gt (a b : string) : bool := str_lt b a.

Definition str_le (a b : string) : bool := negb (str_lt b a).

Definition str_ge (a b : string) : bool := negb (str_lt a b).

(** ** The state (types.ts) *)

(** A [ScheduleBlock] with its [id]; [block] holds the other fields. *)
Module ScheduleBlock.
Record t := mk {
  id : string;
  block : Block.t
}.
End ScheduleBlock.

Module ScheduleDay.
Record t := mk {
  date : Z;
  blocks : list ScheduleBlock.t
}.
End ScheduleDay.

Module Live.
Record t := mk {
  time : string;
  date : Z;
  currentStation : string
}.
End Live.

(** [LiveAppState] *)
Module AppState.
Record t := mk {
  skills : list Skill.t;
  settings : Settings.t;
  schedule : option (list ScheduleDay.t);
  summary : option (list Summary.t);
  live : option Live.t
}.
End AppState.

(** [{ ...block, completed: c }] *)
Definition setCompleted (c : bool) (b : ScheduleBlock.t) : ScheduleBlock.t :=
  let f := ScheduleBlock.block b in
  ScheduleBlock.mk (ScheduleBlock.id b)
    (Block.mk (Block.start f) (Block.end_ f) (Block.type f) (Block.skillId f)
              (Block.skillName f) (Block.minutes f) (Some c)).

(** [block.completed] read as a condition: [undefined] counts as [false]. *)
Definition isCompleted (b : ScheduleBlock.t) : bool :=
  default false (Block.completed (ScheduleBlock.block b)).

(** [block.type === 'work'] *)
Definition isWorkBlock (b : ScheduleBlock.t) : bool :=
  BlockType_eqb (Block.type (ScheduleBlock.block b)) work.

(** ** The skill list *)

(** The values of the skill form: a skill without its [id]. *)
Module SkillValues.
Record t := mk {
  name : string;
  priority : Priority;
  estHours : Q
}.
End SkillValues.

(** [skillSchema]: a name of at least one character and at least 0.1
    hours; the priority is one of the three by its type. *)
Definition skillSchema (values : SkillValues.t) : bool :=
  (1 <=? String.length (SkillValues.name values))%nat
  && Qle_bool (1 # 10) (SkillValues.estHours values).

(** [defaultSkills], the popular skills the page offers. *)
Definition defaultSkills : list SkillValues.t :=
  [SkillValues.mk "Python" High 20; SkillValues.mk "Java" High 25;
   SkillValues.mk "C Programming" Medium 15; SkillValues.mk "C++" Medium 20;
   SkillValues.mk "SQL" High 10; SkillValues.mk "Aptitude" Medium 12;
   SkillValues.mk "3D Modeling" Low 18; SkillValues.mk "JavaScript" High 22;
   SkillValues.mk "React" High 16; SkillValues.mk "Node.js" Medium 14;
   SkillValues.mk "HTML/CSS" Medium 10; SkillValues.mk "Data Structures" High 30].

Section SkillList.
(** [String.prototype.toLowerCase] *)
Variable toLowerCase : string -> string.

(** [skills.some(s => s.name.toLowerCase() === name.toLowerCase())] *)
Definition nameTaken (skills : list Skill.t) (name : string) : bool :=
  existsb (fun s => String.eqb (toLowerCase (Skill.name s)) (toLowerCase name)) skills.

(** [addSkill(values)]; [uuid] is what [uuidv4()] returns. *)
Definition addSkill (uuid : string) (values : SkillValues.t) (appState : AppState.t)
  : AppState.t :=
  let newSkill :=
    Skill.mk uuid (SkillValues.name values) (SkillValues.priority values)
             (SkillValues.estHours values) in
  if nameTaken (AppState.skills appState) (Skill.name newSkill) then appState
  else
    AppState.mk (AppState.skills appState ++ [newSkill]) (AppState.settings appState)
                (AppState.schedule appState) (AppState.summary appState)
                (AppState.live appState).

End SkillList.

(** [removeSkill(id)] *)
Definition removeSkill (id : string) (prev : AppState.t) : AppState.t :=
  AppState.mk
    (List.filter (fun s => negb (String.eqb (Skill.id s) id)) (AppState.skills prev))
    (AppState.settings prev) (AppState.schedule prev) (AppState.summary prev)
    (AppState.live prev).

(** ** The settings form *)

(** The values of the settings form ([z.infer<typeof settingsSchema>]);
    an optional field that is [undefined] is [None].  For the two dates
    [None] also stands for the empty string, which the schema treats
    alike. *)
Module FormValues.
Record t := mk {
  mode : Mode;
  dailyHours : option Q;
  startDate : option Z;
  endDate : option Z;
  startTime : string;
  endTime : string;
  workBlockMins : Z;
  breakMins : Z;
  lunchEnabled : bool;
  lunchStart : option string;
  lunchDuration : option Z
}.
End FormValues.

(** The issues the [superRefine] of [settingsSchema] adds. *)
Definition refineDaily (data : FormValues.t) : bool :=
  match FormValues.mode data with
  | Daily =>
      match FormValues.dailyHours data with
      | None => false
      | Some h => negb (Qle_bool h 0)
      end
  | Monthly => true
  end.

Definition refineMonthly (data : FormValues.t) : bool :=
  match FormValues.mode data with
  | Monthly =>
      match FormValues.startDate data, FormValues.endDate data with
      | Some startDate, Some endDate => negb (endDate <? startDate)
      | _, _ => false
      end
  | Daily => true
  end.

Definition refineLunch (data : FormValues.t) : bool :=
  if FormValues.lunchEnabled data then
    match FormValues.lunchStart data with
    | Some (String _ _) => true
    | _ => false
    end
    && match FormValues.lunchDuration data with
       | Some d => negb (d =? 0)
       | None => false
       end
  else true.

(** [settingsSchema]: [true] when the values parse without an issue. *)
Definition settingsSchema (data : FormValues.t) : bool :=
  wellFormedTime (FormValues.startTime data)
  && wellFormedTime (FormValues.endTime data)
  && (25 <=? FormValues.workBlockMins data)
  && (0 <=? FormValues.breakMins data)
  && match FormValues.lunchStart data with
     | Some s => wellFormedTime s
     | None => true
     end
  && match FormValues.lunchDuration data with
     | Some d => 1 <=? d
     | None => true
     end
  && refineDaily data && refineMonthly data && refineLunch data.

(** [const currentSettings = { ...values, lunch: values.lunchEnabled ?
    { start: values.lunchStart!, duration: values.lunchDuration! } : null }].
    A field the form left [undefined] is [0] (the empty string for the
    lunch start) in the record; the schema requires each such field in the
    mode in which the allocator reads it. *)
Definition currentSettingsOf (values : FormValues.t) : Settings.t :=
  Settings.mk (FormValues.mode values)
              (default 0%Q (FormValues.dailyHours values))
              (default 0 (FormValues.startDate values))
              (default 0 (FormValues.endDate values))
              (FormValues.startTime values) (FormValues.endTime values)
              (FormValues.workBlockMins values) (FormValues.breakMins values)
              (if FormValues.lunchEnabled values
               then Some (Lunch.mk (default EmptyString (FormValues.lunchStart values))
                                   (default 0 (FormValues.lunchDuration values)))
               else None).

(** The values the form is reset to from the settings of the state:
    [{ ...settings, lunchEnabled: !!settings.lunch,
       lunchStart: settings.lunch?.start || "13:00",
       lunchDuration: settings.lunch?.duration || 60 }]. *)
Definition formValuesOf (settings : Settings.t) : FormValues.t :=
  FormValues.mk (Settings.mode settings)
                (Some (Settings.dailyHours settings))
                (Some (Settings.startDate settings))
                (Some (Settings.endDate settings))
                (Settings.startTime settings) (Settings.endTime settings)
                (Settings.workBlockMins settings) (Settings.breakMins settings)
                (match Settings.lunch settings with Some _ => true | None => false end)
                (Some match Settings.lunch settings with
                      | Some l =>
                          match Lunch.start l with
                          | EmptyString => "13:00"%string
                          | s => s
                          end
                      | None => "13:00"%string
                      end)
                (Some match Settings.lunch settings with
                      | Some l => if Lunch.duration l =? 0 then 60 else Lunch.duration l
                      | None => 60
                      end).

(** ** Generating *)

(** The schedule the allocator returns, each block with the id it drew:
    [ids d i] is the id of block [i] of day [d]. *)
Definition withIds (ids : nat -> nat -> string) (schedule : list Day.t)
  : list ScheduleDay.t :=
  imap (fun d day =>
          ScheduleDay.mk (Day.date day)
                         (imap (fun i b => ScheduleBlock.mk (ids d i) b) (Day.blocks day)))
       schedule.

(** [handleGenerate(values)].  [None] when the fuel of the allocator does
    not suffice. *)
Definition handleGenerate (fuel : nat) (today : Z) (ids : nat -> nat -> string)
    (values : FormValues.t) (appState : AppState.t) : option AppState.t :=
  match AppState.skills appState with
  | [] => Some appState
  | _ =>
      let currentSettings := currentSettingsOf values in
      match generateSchedule fuel today (AppState.skills appState) currentSettings with
      | None => None
      | Some (inr (newSchedule, newSummary)) =>
          Some (AppState.mk (AppState.skills appState) currentSettings
                            (Some (withIds ids newSchedule)) (Some newSummary)
                            (AppState.live appState))
      | Some (inl _) => Some appState
      end
  end.

(** [defaultAppState]; [today] and [now] are the date and the time at
    which the module is loaded. *)
Definition defaultAppState (today : Z) (now : string) : AppState.t :=
  AppState.mk []
    (Settings.mk Daily 6 today (today + 29) "09:00" "17:00" 50 10
                 (Some (Lunch.mk "13:00" 60)))
    None None (Some (Live.mk now today "Not Started")).

(** ** The clock *)

(** [block.type] as the string it is. *)
Definition typeString (t : BlockType) : string :=
  match t with
  | work => "work"
  | break => "break"
  | lunch => "lunch"
  | buffer => "buffer"
  end.

(** [c.toUpperCase()] on an ASCII character. *)
Definition toUpperCase_ascii (c : ascii) : ascii :=
  let n := nat_of_ascii c in
  if ((97 <=? n) && (n <=? 122))%nat then ascii_of_nat (n - 32) else c.

(** [s.charAt(0).toUpperCase() + s.slice(1)] *)
Definition capitalize (s : string) : string :=
  match s with
  | EmptyString => EmptyString
  | String c rest => String (toUpperCase_ascii c) rest
  end.

(** [block.skillName || capitalize(block.type)]: a name that is undefined
    or empty gives way to the type. *)
Definition stationOf (b : ScheduleBlock.t) : string :=
  match Block.skillName (ScheduleBlock.block b) with
  | Some (String c rest) => String c rest
  | _ => capitalize (typeString (Block.type (ScheduleBlock.block b)))
  end.

(** [liveTime >= block.start && liveTime <= block.end] *)
Definition nowIn (liveTime : string) (b : ScheduleBlock.t) : bool :=
  str_ge liveTime (Block.start (ScheduleBlock.block b))
  && str_le liveTime (Block.end_ (ScheduleBlock.block b)).

(** [block.type === 'work' && !block.completed && block.end <= liveTime] *)
Definition ended (liveTime : string) (b : ScheduleBlock.t) : bool :=
  isWorkBlock b && negb (isCompleted b)
  && str_le (Block.end_ (ScheduleBlock.block b)) liveTime.

(** [xs.map(f)] for an [f] that reads and writes the variable [hasChanged]
    of the enclosing function. *)
Fixpoint mapFlag {A} (f : bool -> A -> A * bool) (hasChanged : bool) (xs : list A)
  : list A * bool :=
  match xs with
  | [] => ([], hasChanged)
  | x :: rest =>
      let (y, hasChanged) := f hasChanged x in
      let (ys, hasChanged) := mapFlag f hasChanged rest in
      (y :: ys, hasChanged)
  end.

Definition tickBlock (liveTime : string) (hasChanged : bool) (b : ScheduleBlock.t)
  : ScheduleBlock.t * bool :=
  if ended liveTime b then (setCompleted true b, true) else (b, hasChanged).

Definition tickDay (liveTime : string) (liveDate : Z) (hasChanged : bool)
    (day : ScheduleDay.t) : ScheduleDay.t * bool :=
  if ScheduleDay.date day =? liveDate then
    let (newBlocks, hasChanged) :=
      mapFlag (tickBlock liveTime) hasChanged (ScheduleDay.blocks day) in
    (if hasChanged then ScheduleDay.mk (ScheduleDay.date day) newBlocks else day,
     hasChanged)
  else (day, hasChanged).

(** The station the clock shows before the start time is looked at. *)
Definition stationAt (liveTime : string) (liveDate : Z) (schedule : list ScheduleDay.t)
  : string :=
  match List.find (fun day => ScheduleDay.date day =? liveDate) schedule with
  | Some currentDaySchedule =>
      match List.find (nowIn liveTime) (ScheduleDay.blocks currentDaySchedule) with
      | Some b => stationOf b
      | None => "Day Ended"
      end
  | None => "Day Ended"
  end.

(** The update the timer makes every second, at the time [liveTime] of the
    day [liveDate]. *)
Definition tick (liveTime : string) (liveDate : Z) (prev : AppState.t) : AppState.t :=
  match AppState.schedule prev with
  | None =>
      AppState.mk (AppState.skills prev) (AppState.settings prev) None
                  (AppState.summary prev)
                  (Some (Live.mk liveTime liveDate "Not Started"))
  | Some schedule =>
      let newCurrentStation := stationAt liveTime liveDate schedule in
      let (newSchedule, hasChanged) := mapFlag (tickDay liveTime liveDate) false schedule in
      let newCurrentStation :=
        if str_lt liveTime (Settings.startTime (AppState.settings prev))
        then "Not Started"%string else newCurrentStation in
      AppState.mk (AppState.skills prev) (AppState.settings prev)
                  (Some (if hasChanged then newSchedule else schedule))
                  (AppState.summary prev)
                  (Some (Live.mk liveTime liveDate newCurrentStation))
  end.

(** ** Ticking off a task *)

Definition toggleBlock (blockId : string) (b : ScheduleBlock.t) : ScheduleBlock.t :=
  if String.eqb (ScheduleBlock.id b) blockId && isWorkBlock b
  then setCompleted (negb (isCompleted b)) b
  else b.

Definition toggleDay (dayDate : Z) (blockId : string) (day : ScheduleDay.t)
  : ScheduleDay.t :=
  if ScheduleDay.date day =? dayDate
  then ScheduleDay.mk (ScheduleDay.date day)
                      (map (toggleBlock blockId) (ScheduleDay.blocks day))
  else day.

(** [toggleTaskCompletion(dayDate, blockId)] *)
Definition toggleTaskCompletion (dayDate : Z) (blockId : string) (prev : AppState.t)
  : AppState.t :=
  match AppState.schedule prev with
  | None => prev
  | Some schedule =>
      AppState.mk (AppState.skills prev) (AppState.settings prev)
                  (Some (map (toggleDay dayDate blockId) schedule))
                  (AppState.summary prev) (AppState.live prev)
  end.

(** ** What the page shows *)

(** The status of a task: its text and the colour classes of the text. *)
Module Status.
Record t := mk {
  text : string;
  color : string
}.
End Status.

Definition statusNone : Status.t := Status.mk "" "".

Definition statusCompleted : Status.t :=
  Status.mk "Completed" "text-green-600 dark:text-green-500".

Definition statusUpcoming : Status.t :=
  Status.mk "Upcoming" "text-gray-500 dark:text-gray-400".

Definition statusInProgress : Status.t :=
  Status.mk "In Progress" "text-blue-600 dark:text-blue-500".

Definition statusPending : Status.t :=
  Status.mk "Pending" "text-yellow-600 dark:text-yellow-500".

(** [getTaskStatus(block, day)] *)
Definition getTaskStatus (isClient : bool) (appState : AppState.t)
    (b : ScheduleBlock.t) (day : ScheduleDay.t) : Status.t :=
  match isClient, AppState.live appState with
  | true, Some live =>
      if negb (isWorkBlock b) then statusNone
      else if isCompleted b then statusCompleted
      else if negb (ScheduleDay.date day =? Live.date live) then
        if ScheduleDay.date day <? Live.date live then statusCompleted
        else statusUpcoming
      else if str_lt (Live.time live) (Block.start (ScheduleBlock.block b))
      then statusUpcoming
      else if str_ge (Live.time live) (Block.start (ScheduleBlock.block b))
              && str_le (Live.time live) (Block.end_ (ScheduleBlock.block b))
      then statusInProgress
      else if str_gt (Live.time live) (Block.end_ (ScheduleBlock.block b))
      then statusCompleted
      else statusPending
  | _, _ => statusNone
  end.

Section Progress.
(** [parse(s, fmt, new Date()).getTime()]: the milliseconds of the clock
    time [s], written in the format [fmt], on the day of the call. *)
Variable parse : string -> string -> Z.

(** [getProgress()] *)
Definition getProgress (isClient : bool) (appState : AppState.t) : Q :=
  match isClient, AppState.live appState with
  | true, Some live =>
      let dayStart := parse (Settings.startTime (AppState.settings appState)) "HH:mm" in
      let dayEnd := parse (Settings.endTime (AppState.settings appState)) "HH:mm" in
      let now := parse (Live.time live) "HH:mm:ss" in
      let totalSeconds := dayEnd - dayStart in
      let elapsedSeconds := now - dayStart in
      if totalSeconds <=? 0 then 0%Q
      else if elapsedSeconds <? 0 then 0%Q
      else if totalSeconds <? elapsedSeconds then 100%Q
      else (inject_Z elapsedSeconds / inject_Z totalSeconds * 100)%Q
  | _, _ => 0%Q
  end.

End Progress.

(** [appState.schedule?.find(d => d.date === todayDateStr)?.date
     || appState.schedule?.[0]?.date]: the tab that is open at first. *)
Definition defaultTab (todayDate : Z) (appState : AppState.t) : option Z :=
  match AppState.schedule appState with
  | Some schedule =>
      match List.find (fun d => ScheduleDay.date d =? todayDate) schedule with
      | Some d => Some (ScheduleDay.date d)
      | None =>
          match schedule with
          | d :: _ => Some (ScheduleDay.date d)
          | [] => None
          end
      end
  | None => None
  end.

(** ** The vocabulary of the statements about the page *)

(** What a tick at [liveTime] makes of a block and, on the day [liveDate],
    of a day. *)
Definition completeBlock (liveTime : string) (b : ScheduleBlock.t) : ScheduleBlock.t :=
  if ended liveTime b then setCompleted true b else b.

Definition completeDay (liveTime : string) (liveDate : Z) (day : ScheduleDay.t)
  : ScheduleDay.t :=
  if ScheduleDay.date day =? liveDate
  then ScheduleDay.mk (ScheduleDay.date day)
                      (map (completeBlock liveTime) (ScheduleDay.blocks day))
  else day.

(** A work block of the day [liveDate] whose end is not after [liveTime]. *)
Definition over (liveTime : string) (liveDate : Z) (day : ScheduleDay.t)
    (b : ScheduleBlock.t) : bool :=
  (ScheduleDay.date day =? liveDate) && isWorkBlock b
  && str_le (Block.end_ (ScheduleBlock.block b)) liveTime.

(** The blocks of a schedule with the day each one is in. *)
Definition blocksOf (schedule : list ScheduleDay.t) : list (ScheduleDay.t * ScheduleBlock.t) :=
  flat_map (fun day => map (fun b => (day, b)) (ScheduleDay.blocks day)) schedule.

(** The day with [g] applied to each of its blocks. *)
Definition onBlocks (g : ScheduleDay.t -> ScheduleBlock.t -> ScheduleBlock.t)
    (day : ScheduleDay.t) : ScheduleDay.t :=
  ScheduleDay.mk (ScheduleDay.date day) (map (g day) (ScheduleDay.blocks day)).

(** [g] leaves a block as it is or sets its field [completed]. *)
Definition onlyCompletes (g : ScheduleBlock.t -> ScheduleBlock.t) : Prop :=
  forall b, g b = b \/ exists c, g b = setCompleted c b.

(** The schedule after a tick: every work block of the day [liveDate]
    that is over at [liveTime] is completed. *)
Definition markOver (liveTime : string) (liveDate : Z) (schedule : list ScheduleDay.t)
  : list ScheduleDay.t :=
  map (onBlocks (fun day b =>
                   if over liveTime liveDate day b then setCompleted true b else b))
      schedule.

(** [g] leaves a block as it is, or sets the field [completed] of a work
    block. *)
Definition completesWork (g : ScheduleBlock.t -> ScheduleBlock.t) : Prop :=
  forall b, g b = b \/ (isWorkBlock b = true /\ exists c, g b = setCompleted c b).

(** ** The page as a machine *)

Section PageMachine.
Variable toLowerCase : string -> string.

(** What the user and the timer can do to the state: add a skill that
    the skill form validated or that is one of the popular skills, under
    an id that is new; remove a skill; generate with values the settings
    form validated; reset; tick a task; let a second pass. *)
Inductive PageStep (s : AppState.t) : AppState.t -> Prop :=
| DoAddSkill uuid values :
    skillSchema values = true \/ In values defaultSkills ->
    ~ In uuid (map Skill.id (AppState.skills s)) ->
    PageStep s (addSkill toLowerCase uuid values s)
| DoRemoveSkill id : PageStep s (removeSkill id s)
| DoGenerate fuel today ids values s' :
    settingsSchema values = true ->
    handleGenerate fuel today ids values s = Some s' ->
    PageStep s s'
| DoReset today now : PageStep s (defaultAppState today now)
| DoToggle dayDate blockId : PageStep s (toggleTaskCompletion dayDate blockId s)
| DoTick liveTime liveDate : PageStep s (tick liveTime liveDate s).

(** The states the page gets into from the default state. *)
Inductive Reachable : AppState.t -> Prop :=
| ReachDefault today now : Reachable (defaultAppState today now)
| ReachStep s s' : Reachable s -> PageStep s s' -> Reachable s'.

(** What holds of the skill list: no id twice, no name twice (whatever
    the case of the letters), and every skill has a name and at least a
    tenth of an hour to learn. *)
Record skillsInv (skills : list Skill.t) : Prop := {
  skills_ids : List.NoDup (map Skill.id skills);
  skills_names : List.NoDup (map (fun s => toLowerCase (Skill.name s)) skills);
  skills_valid : forall s,
    In s skills -> Skill.name s <> EmptyString /\ ((1 # 10) <= Skill.estHours s)%Q
}.

End PageMachine.

(** What holds of a block of the schedule the page shows: it lasts, and
    it has a field [completed] exactly when it is a work block. *)
Definition blockInv (b : Block.t) : Prop :=
  0 < Block.minutes b /\ (Block.type b = work <-> is_Some (Block.completed b)).

(** What holds of a day of the schedule, for the settings held with it:
    the day has blocks, they are in the order of their start times, and
    they leave no minute of the window out. *)
Record dayInv (settings : Settings.t) (blocks : list Block.t) : Prop := {
  day_has_blocks : blocks <> [];
  day_in_order : StronglySorted (fun a b => bstart a <= bstart b) blocks;
  day_covers_window : covers (windowStartOf settings) blocks (windowEndOf settings);
  day_blocks : Forall blockInv blocks
}.

(** What holds of the settings and the schedule of the state. *)
Record scheduleInv (s : AppState.t) : Prop := {
  state_settings : validTimes (AppState.settings s);
  state_lunch : forall l,
    Settings.lunch (AppState.settings s) = Some l -> 1 <= Lunch.duration l;
  state_both : AppState.schedule s = None <-> AppState.summary s = None;
  state_days : forall schedule,
    AppState.schedule s = Some schedule ->
    schedule <> []
    /\ Forall (fun day => dayInv (AppState.settings s)
                                 (map ScheduleBlock.block (ScheduleDay.blocks day)))
              schedule
}.

(** ** States to try the statements on *)

(** A schedule of one day of two blocks, at ten o'clock of that day. *)
Definition tinyDay : ScheduleDay.t :=
  ScheduleDay.mk 0
    [ScheduleBlock.mk "b1" (workBlock (scenarioA_skill "rust" "Rust") 540 50);
     ScheduleBlock.mk "b2" (breakBlock 590 10)].

Definition tinyState : AppState.t :=
  AppState.mk [scenarioA_skill "rust" "Rust"] scenarioA_settings (Some [tinyDay])
              (Some []) None.

(** The page after two skills were added to the default state and a
    schedule was generated. *)
Definition demoPage : AppState.t :=
  addSkill (fun name => name) "sql" (SkillValues.mk "SQL" Low (3 # 2))
    (addSkill (fun name => name) "py" (SkillValues.mk "Python" High 2)
       (defaultAppState 0 "08:00:00")).

Definition demoState : AppState.t :=
  match handleGenerate 1443 0 (fun _ _ => EmptyString) (formValuesOf demoSettings)
                       demoPage with
  | Some s => s
  | None => demoPage
  end.

(** * Properties *)

(** ** Printing and parsing clock times *)

Lemma no_colon_app s1 s2 : no_colon s1 -> no_colon s2 -> no_colon (String.append s1 s2).
Proof. induction s1 as [|c s1 IH]; simpl; [tauto|]. intros [? ?] ?. auto. Qed.

Lemma no_colon_uint d : no_colon (NilEmpty.string_of_uint d).
Proof. induction d; simpl; auto. Qed.

Lemma no_colon_zeros k : no_colon (string_of_list_ascii (repeat "0"%char k)).
Proof. induction k; simpl; auto. Qed.

Lemma append_assoc (s1 s2 s3 : string) :
  String.append (String.append s1 s2) s3 = String.append s1 (String.append s2 s3).
Proof. induction s1; simpl; congruence. Qed.

Lemma append_empty_r (s : string) : String.append s EmptyString = s.
Proof. induction s; simpl; congruence. Qed.

Lemma split_colon_no_colon s : forall acc,
  no_colon s -> split_colon acc s = [String.append acc s].
Proof.
  induction s as [|c s IH]; simpl; intros acc H.
  - by rewrite append_empty_r.
  - destruct H as [-> H]. rewrite IH by assumption. by rewrite append_assoc.
Qed.

Lemma split_colon_app s1 s2 : forall acc,
  no_colon s1 ->
  split_colon acc (String.append s1 (String ":" s2))
  = String.append acc s1 :: split_colon EmptyString s2.
Proof.
  induction s1 as [|c s1 IH]; simpl; intros acc H.
  - by rewrite append_empty_r.
  - destruct H as [-> H]. rewrite IH by assumption. by rewrite append_assoc.
Qed.

Lemma uint_of_string_zeros k d :
  NilEmpty.uint_of_string
    (String.append (string_of_list_ascii (repeat "0"%char k)) (NilEmpty.string_of_uint d))
  = Some (Nat.iter k D0 d).
Proof.
  induction k as [|k IH]; simpl.
  - apply NilEmpty.usu.
  - by rewrite IH.
Qed.

Lemma of_uint_zeros k d : Z.of_uint (Nat.iter k D0 d) = Z.of_uint d.
Proof. induction k as [|k IH]; simpl; [done|]. rewrite <- IH. reflexivity. Qed.

Lemma Number_padded k d :
  Number (String.append (string_of_list_ascii (repeat "0"%char k))
                        (NilEmpty.string_of_uint d))
  = Z.of_uint d.
Proof.
  unfold Number.
  assert (E : NilEmpty.int_of_string
                (String.append (string_of_list_ascii (repeat "0"%char k))
                               (NilEmpty.string_of_uint d))
              = Some (Pos (Nat.iter k D0 d))).
  { pose proof (uint_of_string_zeros k d) as U.
    destruct k as [|k].
    - simpl in *. destruct d; simpl in *; try done;
        rewrite NilEmpty.usu; reflexivity.
    - simpl in *. by rewrite U. }
  rewrite E. simpl. apply of_uint_zeros.
Qed.

Lemma toString_nonneg z :
  0 <= z -> exists d, toString z = NilEmpty.string_of_uint d /\ Z.of_uint d = z.
Proof.
  intros Hz. unfold toString.
  pose proof (DecimalZ.of_to z) as E.
  destruct z as [|p|p]; try lia.
  - exists (D0 Nil). split; reflexivity.
  - exists (Pos.to_uint p). split; [reflexivity|]. exact E.
Qed.

Lemma Number_padStart2_toString z : 0 <= z -> Number (padStart2 (toString z)) = z.
Proof.
  intros Hz. destruct (toString_nonneg z Hz) as (d & -> & <-).
  unfold padStart2. apply Number_padded.
Qed.

Lemma no_colon_padStart2_toString z : 0 <= z -> no_colon (padStart2 (toString z)).
Proof.
  intros Hz. destruct (toString_nonneg z Hz) as (d & -> & _).
  unfold padStart2. apply no_colon_app; [apply no_colon_zeros | apply no_colon_uint].
Qed.

Lemma minutesToTime_unfold z :
  minutesToTime z
  = String.append (padStart2 (toString (z / 60)))
                  (String ":" (padStart2 (toString (Z.rem z 60)))).
Proof. reflexivity. Qed.

(** Parsing what [minutesToTime] printed gives the minutes back. *)
Lemma timeToMinutes_minutesToTime z : 0 <= z -> timeToMinutes (minutesToTime z) = z.
Proof.
  intros Hz. unfold timeToMinutes. rewrite minutesToTime_unfold.
  assert (Hh : 0 <= z / 60) by (apply Z.div_pos; lia).
  assert (Hm : 0 <= Z.rem z 60) by (apply Z.rem_nonneg; lia).
  rewrite split_colon_app by (by apply no_colon_padStart2_toString).
  rewrite split_colon_no_colon by (by apply no_colon_padStart2_toString).
  simpl. rewrite !Number_padStart2_toString by assumption.
  rewrite Z.rem_mod_nonneg by lia.
  pose proof (Z.div_mod z 60). lia.
Qed.

Lemma isDigitUpTo_In hi c : isDigitUpTo hi c = true -> In c (digitsUpTo hi).
Proof.
  unfold isDigitUpTo, digitsUpTo. intros H.
  apply andb_prop in H as [H1 H2].
  apply Nat.leb_le in H1. apply Nat.leb_le in H2.
  apply (proj2 (in_map_iff _ _ _)). exists (nat_of_ascii c - 48)%nat. split.
  - replace (48 + (nat_of_ascii c - 48))%nat with (nat_of_ascii c) by lia.
    apply ascii_nat_embedding.
  - apply in_seq. lia.
Qed.

Lemma wellFormedTime_accepted s : wellFormedTime s = true -> In s acceptedTimes.
Proof.
  intros H.
  destruct s as [|h1 [|h2 [|c [|m1 [|m2 [|? ?]]]]]]; simpl in H; try discriminate.
  apply andb_prop in H as [H Hm2]. apply andb_prop in H as [H Hm1].
  apply andb_prop in H as [Hh Hc].
  apply Ascii.eqb_eq in Hc as ->.
  apply isDigitUpTo_In in Hm1, Hm2.
  unfold acceptedTimes. apply (proj2 (in_flat_map _ _ _)). exists (h1, h2). split.
  - apply in_or_app. apply orb_prop in Hh as [Hh|Hh]; apply andb_prop in Hh as [Ha Hb].
    + left. apply in_prod; by apply isDigitUpTo_In.
    + right. apply Ascii.eqb_eq in Ha as ->.
      apply in_prod; [by left | by apply isDigitUpTo_In].
  - apply (proj2 (in_flat_map _ _ _)). exists m1. split; [done|].
    apply (proj2 (in_map_iff _ _ _)). exists m2. by split.
Qed.

Lemma acceptedTimes_canonical : forallb canonicalTime acceptedTimes = true.
Proof. vm_compute. reflexivity. Qed.

Lemma wellFormedTime_canonical s :
  wellFormedTime s = true ->
  minutesToTime (timeToMinutes s) = s /\ 0 <= timeToMinutes s < 1440.
Proof.
  intros H. apply wellFormedTime_accepted in H.
  pose proof acceptedTimes_canonical as A.
  rewrite forallb_forall in A. specialize (A s H).
  unfold canonicalTime in A.
  apply andb_prop in A as [A A3]. apply andb_prop in A as [A1 A2].
  apply String.eqb_eq in A1. apply Z.leb_le in A2. apply Z.ltb_lt in A3. auto.
Qed.

Lemma wellFormedTime_nonneg s : wellFormedTime s = true -> 0 <= timeToMinutes s.
Proof. intros H. apply wellFormedTime_canonical in H. lia. Qed.

(** ** The block-emission loop, step by step *)

Section LoopSteps.
Variable settings : Settings.t.
Variable windowEnd : Z.
Variable skillQueue : list Skill.t.
Variable noSkill : Skill.t.

#[local] Abbreviation nextSkill := (nextSkill skillQueue noSkill).
#[local] Abbreviation inLunch := (inLunch settings).
#[local] Abbreviation worked := (worked settings skillQueue noSkill).
#[local] Abbreviation LoopStep := (LoopStep settings windowEnd skillQueue noSkill).

Lemma loopBody_step w :
  LoopStep w (loopBody settings windowEnd skillQueue noSkill w).1
             (loopBody settings windowEnd skillQueue noSkill w).2.
Proof.
  unfold loopBody.
  destruct (Settings.lunch settings) as [l|] eqn:El.
  - destruct ((timeToMinutes (Lunch.start l) <=? Loop.currentTime w)
              && (Loop.currentTime w
                  <? timeToMinutes (Lunch.start l) + Lunch.duration l)) eqn:Ein.
    + apply andb_prop in Ein as [H1 H2].
      apply Z.leb_le in H1. apply Z.ltb_lt in H2.
      simpl. apply StepLunch. split; [done | lia].
    + assert (Hno : forall l', ~ inLunch w l').
      { intros l' [E' [H1 H2]]. rewrite El in E'. injection E' as <-.
        apply andb_false_iff in Ein as [H|H];
          [apply Z.leb_gt in H | apply Z.ltb_ge in H]; lia. }
      fold (nextSkill w).
      destruct (Loop.dailyAllocation w !! Skill.id (nextSkill w)) as [left|] eqn:Ea.
      * destruct (0 <? left) eqn:Epos.
        -- apply Z.ltb_lt in Epos.
           destruct (windowEnd <? Loop.currentTime w
                                  + Z.min (Settings.workBlockMins settings) left) eqn:Eclip.
           ++ apply Z.ltb_lt in Eclip.
              destruct (0 <? roundTo5 (inject_Z (windowEnd - Loop.currentTime w))) eqn:Er.
              ** apply Z.ltb_lt in Er. simpl. by apply StepClip.
              ** apply Z.ltb_ge in Er. simpl. by eapply StepClipNone.
           ++ apply Z.ltb_ge in Eclip. simpl.
              by apply StepWork.
        -- apply Z.ltb_ge in Epos. simpl. apply StepSkip; [done|].
           by rewrite Ea.
      * simpl. apply StepSkip; [done|]. by rewrite Ea.
  - assert (Hno : forall l', ~ inLunch w l').
    { intros l' [E' _]. congruence. }
    fold (nextSkill w).
    destruct (Loop.dailyAllocation w !! Skill.id (nextSkill w)) as [left|] eqn:Ea.
    * destruct (0 <? left) eqn:Epos.
      -- apply Z.ltb_lt in Epos.
         destruct (windowEnd <? Loop.currentTime w
                                + Z.min (Settings.workBlockMins settings) left) eqn:Eclip.
         ++ apply Z.ltb_lt in Eclip.
            destruct (0 <? roundTo5 (inject_Z (windowEnd - Loop.currentTime w))) eqn:Er.
            ** apply Z.ltb_lt in Er. simpl. by apply StepClip.
            ** apply Z.ltb_ge in Er. simpl. by eapply StepClipNone.
         ++ apply Z.ltb_ge in Eclip. simpl.
            by apply StepWork.
      -- apply Z.ltb_ge in Epos. simpl. apply StepSkip; [done|].
         by rewrite Ea.
    * simpl. apply StepSkip; [done|]. by rewrite Ea.
Qed.

(** The loop rule: [P] is kept by every pass that goes on, and [Q] holds
    wherever the loop can be left: after a pass that breaks, or when the
    condition fails. *)
Lemma whileLoop_rule (P Q : Loop.t -> Prop) :
  (forall w w', P w -> loopCond windowEnd w = true -> LoopStep w w' true -> P w') ->
  (forall w w', P w -> loopCond windowEnd w = true -> LoopStep w w' false -> Q w') ->
  (forall w, P w -> loopCond windowEnd w = false -> Q w) ->
  forall fuel w w',
    P w -> whileLoop settings windowEnd skillQueue noSkill fuel w = Some w' -> Q w'.
Proof.
  intros Hgo Hbreak Hexit. induction fuel as [|fuel IH]; intros w w' HP; simpl.
  - destruct (loopCond windowEnd w) eqn:Ec; [discriminate|].
    intros [= <-]. by apply Hexit.
  - destruct (loopCond windowEnd w) eqn:Ec; [|intros [= <-]; by apply Hexit].
    pose proof (loopBody_step w) as Hs.
    destruct (loopBody settings windowEnd skillQueue noSkill w) as [w1 goOn].
    simpl in Hs. destruct goOn.
    + apply IH. by eapply Hgo.
    + intros [= <-]. by eapply Hbreak.
Qed.

(** An invariant of every pass holds when the loop is left. *)
Lemma whileLoop_invariant (P : Loop.t -> Prop) :
  (forall w w' goOn,
      P w -> loopCond windowEnd w = true -> LoopStep w w' goOn -> P w') ->
  forall fuel w w',
    P w -> whileLoop settings windowEnd skillQueue noSkill fuel w = Some w' -> P w'.
Proof.
  intros Hstep. apply whileLoop_rule; eauto.
Qed.
End LoopSteps.

(** ** Sorting *)

Section SortFacts.
Context {A : Type} (cmp : A -> A -> Z).

Lemma sort_insert_perm x l : sort_insert cmp x l ≡ₚ x :: l.
Proof.
  induction l as [|y l IH]; simpl; [done|].
  destruct (cmp x y <=? 0); [done|].
  rewrite IH. apply perm_swap.
Qed.

Lemma sort_perm l : sort cmp l ≡ₚ l.
Proof.
  induction l as [|x l IH]; simpl; [done|].
  by rewrite sort_insert_perm, IH.
Qed.

Lemma sort_length l : length (sort cmp l) = length l.
Proof. apply Permutation_length, sort_perm. Qed.

#[local] Abbreviation inOrder := (inOrder cmp).

Lemma sort_inOrder l : inOrder l -> sort cmp l = l.
Proof.
  induction l as [|x l IH]; simpl; [done|].
  intros [Hx Hl]. rewrite IH by assumption.
  destruct l as [|y l]; simpl; [done|].
  apply Z.leb_le in Hx. by rewrite Hx.
Qed.

Variable key : A -> Z.
Hypothesis cmp_key : forall a b, cmp a b <= 0 <-> key a <= key b.

Lemma sort_insert_sorted x l :
  StronglySorted (fun a b => key a <= key b) l ->
  StronglySorted (fun a b => key a <= key b) (sort_insert cmp x l).
Proof.
  induction 1 as [|y l Hl IH Hy]; simpl.
  - repeat constructor.
  - destruct (cmp x y <=? 0) eqn:E.
    + apply Z.leb_le, cmp_key in E. constructor; [by constructor|].
      constructor; [done|]. eapply Forall_impl; [exact Hy|]. simpl. lia.
    + apply Z.leb_gt in E.
      assert (key y <= key x).
      { destruct (Z_le_gt_dec (key x) (key y)) as [L|G]; [|lia].
        apply cmp_key in L. lia. }
      constructor; [done|].
      rewrite sort_insert_perm. by constructor.
Qed.

Lemma sort_sorted l : StronglySorted (fun a b => key a <= key b) (sort cmp l).
Proof.
  induction l as [|x l IH]; simpl; [constructor|]. by apply sort_insert_sorted.
Qed.
End SortFacts.

(** ** Blocks as intervals *)

Lemma timed_workBlock skill from len :
  0 <= from -> 0 <= from + len ->
  bstart (workBlock skill from len) = from
  /\ bend (workBlock skill from len) = from + len.
Proof.
  intros. unfold bstart, bend. simpl.
  by rewrite !timeToMinutes_minutesToTime.
Qed.

Lemma timed_breakBlock from len :
  0 <= from -> 0 <= from + len ->
  bstart (breakBlock from len) = from /\ bend (breakBlock from len) = from + len.
Proof.
  intros. unfold bstart, bend. simpl.
  by rewrite !timeToMinutes_minutesToTime.
Qed.

Lemma timed_lunchBlock from l :
  0 <= from -> 0 <= from + Lunch.duration l ->
  bstart (lunchBlock from l) = from
  /\ bend (lunchBlock from l) = from + Lunch.duration l.
Proof.
  intros. unfold bstart, bend. simpl.
  by rewrite !timeToMinutes_minutesToTime.
Qed.

Lemma timed_bufferBlock from to :
  0 <= from -> 0 <= to ->
  bstart (bufferBlock from to) = from /\ bend (bufferBlock from to) = to.
Proof.
  intros. unfold bstart, bend. simpl.
  by rewrite !timeToMinutes_minutesToTime.
Qed.

(** ** The buffer fill as a recursion over the sorted blocks *)
Lemma bufferFill_fillFrom windowStart windowEnd blocks :
  bufferFill windowStart windowEnd blocks = fillFrom windowStart blocks windowEnd.
Proof.
  unfold bufferFill.
  assert (G : forall e F,
    (let (lastBlockEnd, finalBlocks) := foldl fillStep (e, F) blocks in
     if lastBlockEnd <? windowEnd then
       if 0 <? windowEnd - lastBlockEnd
       then finalBlocks ++ [bufferBlock lastBlockEnd windowEnd]
       else finalBlocks
     else finalBlocks) = F ++ fillFrom e blocks windowEnd).
  { induction blocks as [|b blocks IH]; intros e F; simpl.
    - destruct (e <? windowEnd) eqn:E1.
      + apply Z.ltb_lt in E1.
        destruct (0 <? windowEnd - e) eqn:E2; [done|].
        apply Z.ltb_ge in E2. lia.
      + by rewrite app_nil_r.
    - fold (bstart b). fold (bend b). rewrite IH.
      destruct (e <? bstart b) eqn:E1.
      + apply Z.ltb_lt in E1.
        destruct (0 <? bstart b - e) eqn:E2.
        * by rewrite <- !app_assoc.
        * apply Z.ltb_ge in E2. lia.
      + by rewrite <- !app_assoc. }
  apply (G windowStart []).
Qed.

Lemma tilesb_spec bs : forall from to, tilesb from bs to = true <-> tiles from bs to.
Proof.
  induction bs as [|b bs IH]; simpl; intros from to.
  - apply Z.eqb_eq.
  - rewrite andb_true_iff, Z.eqb_eq, IH. tauto.
Qed.

Lemma tiles_covers bs : forall from to, tiles from bs to -> covers from bs to.
Proof.
  induction bs as [|b bs IH]; simpl; intros from to; [lia|].
  intros [E H]. split; [lia | by apply IH].
Qed.

Lemma tiles_app bs1 bs2 : forall from mid to,
  tiles from bs1 mid -> tiles mid bs2 to -> tiles from (bs1 ++ bs2) to.
Proof.
  induction bs1 as [|b bs1 IH]; simpl; intros from mid to.
  - by intros ->.
  - intros [E H] H2. split; [done|]. by eapply IH.
Qed.

Section FillFacts.
Variable windowEnd : Z.
Hypothesis windowEnd_nonneg : 0 <= windowEnd.

Lemma fillFrom_covers blocks : forall e,
  0 <= e -> Forall timed blocks -> covers e (fillFrom e blocks windowEnd) windowEnd.
Proof.
  induction blocks as [|b blocks IH]; intros e He Ht; simpl.
  - destruct (e <? windowEnd) eqn:E; simpl.
    + destruct (timed_bufferBlock e windowEnd He windowEnd_nonneg) as [-> ->]. lia.
    + apply Z.ltb_ge in E. lia.
  - inversion Ht as [|? ? (Hs & Hse & _) Ht']; subst.
assert (He' : 0 <= bend b) by lia.
    destruct (e <? bstart b) eqn:E; simpl.
    + destruct (timed_bufferBlock e (bstart b) He Hs) as [-> ->].
      repeat split; [lia | lia | by apply IH].
    + apply Z.ltb_ge in E. split; [lia | by apply IH].
Qed.

Lemma fillFrom_tiles blocks : forall e,
  0 <= e -> Forall timed blocks -> spaced e blocks windowEnd ->
  tiles e (fillFrom e blocks windowEnd) windowEnd.
Proof.
  induction blocks as [|b blocks IH]; intros e He Ht Hsp; simpl in *.
  - destruct (e <? windowEnd) eqn:E; simpl.
    + by destruct (timed_bufferBlock e windowEnd He windowEnd_nonneg) as [-> ->].
    + apply Z.ltb_ge in E. lia.
  - inversion Ht as [|? ? (Hs & Hse & _) Ht']; subst.
assert (He' : 0 <= bend b) by lia.
    destruct Hsp as [Hle Hsp].
    destruct (e <? bstart b) eqn:E; simpl.
    + destruct (timed_bufferBlock e (bstart b) He Hs) as [-> ->].
      repeat split; by apply IH.
    + apply Z.ltb_ge in E. split; [lia | by apply IH].
Qed.

Lemma fillFrom_nonempty blocks e :
  blocks <> [] \/ e < windowEnd -> fillFrom e blocks windowEnd <> [].
Proof.
  destruct blocks as [|b blocks]; simpl.
  - intros [H|H]; [done|]. apply Z.ltb_lt in H. by rewrite H.
  - intros _. destruct (e <? bstart b); discriminate.
Qed.

(** The fill keeps every block and adds buffer blocks only. *)
Lemma fillFrom_filter (p : Block.t -> bool) blocks :
  (forall from to, p (bufferBlock from to) = false) ->
  forall e, List.filter p (fillFrom e blocks windowEnd) = List.filter p blocks.
Proof.
  intros Hp. induction blocks as [|b blocks IH]; intros e; simpl.
  - destruct (e <? windowEnd); simpl; [by rewrite Hp | done].
  - destruct (e <? bstart b); simpl; rewrite ?Hp, IH; done.
Qed.

Lemma fillFrom_Forall (P : Block.t -> Prop) blocks :
  (forall from to, 0 <= from < to -> P (bufferBlock from to)) ->
  Forall timed blocks -> Forall P blocks ->
  forall e, 0 <= e -> Forall P (fillFrom e blocks windowEnd).
Proof.
  intros Hbuf. induction blocks as [|b blocks IH]; intros Ht HP e He; simpl.
  - destruct (e <? windowEnd) eqn:E; [|constructor].
    apply Z.ltb_lt in E. constructor; [apply Hbuf; lia | constructor].
  - inversion Ht as [|? ? (Hs & Hse & _) Ht']; subst.
assert (He' : 0 <= bend b) by lia.
    inversion HP; subst.
    destruct (e <? bstart b) eqn:E; simpl.
    + apply Z.ltb_lt in E. constructor; [apply Hbuf; lia|].
      constructor; [done | by apply IH].
    + constructor; [done | by apply IH].
Qed.

Lemma fillFrom_sorted blocks :
  Forall timed blocks ->
  StronglySorted (fun a b => bstart a <= bstart b) blocks ->
  forall e lo, 0 <= e -> lo <= e -> Forall (fun b => lo <= bstart b) blocks ->
  StronglySorted (fun a b => bstart a <= bstart b) (fillFrom e blocks windowEnd)
  /\ Forall (fun b => lo <= bstart b) (fillFrom e blocks windowEnd).
Proof.
  induction blocks as [|b blocks IH]; intros Ht Hs e lo He Hlo Hall; simpl.
  - destruct (e <? windowEnd) eqn:E.
    + destruct (timed_bufferBlock e windowEnd He windowEnd_nonneg) as [Eb _].
      split; repeat constructor. lia.
    + split; constructor.
  - inversion Ht as [|? ? (Hb1 & Hb3 & _) Ht']; subst.
    assert (Hb2 : 0 <= bend b) by lia.
    inversion Hs as [|? ? Hs' Hhd]; subst.
    inversion Hall; subst.
    destruct (IH Ht' Hs' (bend b) (bstart b) Hb2 Hb3 Hhd) as [IH1 IH2].
    assert (S1 : StronglySorted (fun a b0 => bstart a <= bstart b0)
                   (b :: fillFrom (bend b) blocks windowEnd))
      by (by constructor).
    assert (F1 : Forall (fun b0 => lo <= bstart b0)
                   (b :: fillFrom (bend b) blocks windowEnd)).
    { constructor; [done|]. eapply Forall_impl; [exact IH2|]. simpl. lia. }
    destruct (e <? bstart b) eqn:E; simpl; [|done].
    apply Z.ltb_lt in E.
    destruct (timed_bufferBlock e (bstart b) He Hb1) as [Eb _].
    split.
    + constructor; [done|]. rewrite Eb. constructor; [lia|].
      eapply Forall_impl; [exact IH2|]. simpl. lia.
    + constructor; [lia | done].
Qed.
End FillFacts.

(** ** The days of a run *)

Lemma dayBody_pushed fuel skills settings date acc acc' :
  dayBody fuel skills settings date acc = Some (DayPushed acc') ->
  exists firstActive w,
    DayRun fuel skills settings acc firstActive w
    /\ acc' = Acc.mk (Loop.remainingHours w) (Loop.totalMinutesPerSkill w)
                     (Acc.generatedSchedule acc
                      ++ [Day.mk date (finishDay settings (Loop.blocks w))])
                     (S (Acc.dayIndex acc)).
Proof.
  unfold dayBody. fold (windowStartOf settings) (windowEndOf settings).
  destruct (windowEndOf settings - windowStartOf settings <=? 0) eqn:Ew; [discriminate|].
  destruct (Qle_bool _ 0) eqn:Ea; [discriminate|].
  destruct (activeSkillsOf skills (Acc.remainingHours acc)) as [|first rest] eqn:Eact;
    [discriminate|].
  destruct (totalWeightOf (first :: rest) =? 0) eqn:Et; [discriminate|].
  destruct (whileLoop _ _ _ _ _ _) as [w|] eqn:El; [|discriminate].
  intros [= <-]. exists first, w. split; [|reflexivity].
  apply Z.leb_gt in Ew. apply Z.eqb_neq in Et.
  constructor.
  - lia.
  - destruct (Qlt_le_dec 0 (allocatableTimeOf settings (windowStartOf settings)
                                              (windowEndOf settings))) as [H|H]; [done|].
    apply Qle_bool_iff in H. congruence.
  - rewrite Eact. by eexists.
  - by rewrite Eact.
  - unfold loopStart. rewrite Eact. exact El.
Qed.

Lemma forDates_invariant (P : Acc.t -> Prop) fuel skills settings :
  (forall date acc acc',
      P acc -> dayBody fuel skills settings date acc = Some (DayPushed acc') -> P acc') ->
  forall dates acc acc',
    P acc -> forDates fuel skills settings dates acc = Some (inr acc') -> P acc'.
Proof.
  intros Hday. induction dates as [|date dates IH]; intros acc acc' HP; simpl.
  - by intros [= <-].
  - destruct (dayBody fuel skills settings date acc) as [[e| | |acc1]|] eqn:Ed;
      try discriminate.
    + by apply IH.
    + by intros [= <-].
    + apply IH. by eapply Hday.
Qed.

(** How a call that ends went. *)
Lemma generateSchedule_ends fuel today skills settings r :
  generateSchedule fuel today skills settings = Some r ->
  exists dates,
    datesOf fuel today settings = Some dates
    /\ ((dates = [] /\ Settings.mode settings = Monthly /\ r = inl InvalidRangeError)
        \/ ((dates <> [] \/ Settings.mode settings = Daily)
            /\ exists res,
                forDates fuel skills settings dates (initialAcc skills) = Some res
                /\ r = match res with
                       | inl e => inl e
                       | inr acc => finishRun skills acc
                       end)).
Proof.
  unfold generateSchedule.
  destruct (datesOf fuel today settings) as [dates|]; [|discriminate].
  intros H. exists dates. split; [done|].
  destruct dates as [|d ds].
  - destruct (Settings.mode settings).
    + right. split; [by right|].
      destruct (forDates fuel skills settings [] (initialAcc skills)) as [res|];
        [|discriminate].
      exists res. split; [done|]. destruct res; congruence.
    + left. repeat split. congruence.
  - right. split; [by left|].
    destruct (forDates fuel skills settings (d :: ds) (initialAcc skills)) as [res|];
      [|discriminate].
    exists res. split; [done|].
    destruct res; destruct (Settings.mode settings); congruence.
Qed.

Lemma generateSchedule_returns fuel today skills settings schedule summary :
  generateSchedule fuel today skills settings = Some (inr (schedule, summary)) ->
  exists dates acc,
    forDates fuel skills settings dates (initialAcc skills) = Some (inr acc)
    /\ schedule = Acc.generatedSchedule acc
    /\ schedule <> []
    /\ summary = map (summaryEntry (Acc.totalMinutesPerSkill acc)
                                   (sumZ (values (Acc.totalMinutesPerSkill acc))))
                     skills.
Proof.
  intros H. apply generateSchedule_ends in H as (dates & _ & [(_ & _ & ?)|(_ & res & Hf & E)]);
    [discriminate|].
  destruct res as [e|acc]; [discriminate|].
  unfold finishRun in E.
  destruct (Acc.generatedSchedule acc) as [|d ds] eqn:Eg; [discriminate|].
  injection E as -> ->. exists dates, acc. by rewrite Eg.
Qed.

(** ** What one pass of the loop emits *)

Section Emission.
Variable settings : Settings.t.
Variable windowEnd : Z.
Variable skillQueue : list Skill.t.
Variable noSkill : Skill.t.

#[local] Abbreviation LoopStep := (LoopStep settings windowEnd skillQueue noSkill).
#[local] Abbreviation nextSkill := (nextSkill skillQueue noSkill).
#[local] Abbreviation inLunch := (inLunch settings).

Hypothesis workBlockMins_pos : 0 < Settings.workBlockMins settings.

#[local] Abbreviation Emitted := (Emitted settings skillQueue noSkill).

Lemma step_blocks w w' goOn :
  LoopStep w w' goOn ->
  forall b, b ∈ Loop.blocks w' -> b ∈ Loop.blocks w \/ Emitted w b.
Proof.
  intros Hs b. destruct Hs as [l Hl| | left ? ? ? ? Hr| |left brk ? ? Hleft ? ->];
    simpl; try tauto.
  - destruct (lastIsLunch (Loop.blocks w)); [tauto|].
    rewrite elem_of_app, list_elem_of_singleton. intros [?| ->]; [tauto|].
    right. by constructor.
  - rewrite elem_of_app, list_elem_of_singleton. intros [?| ->]; [tauto|].
    right. by constructor.
  - assert (0 < Z.min (Settings.workBlockMins settings) left) by lia.
    destruct (_ && _ && _) eqn:E.
    + rewrite !elem_of_app, !list_elem_of_singleton. intros [[?| ->]| ->]; [tauto| |].
      * right. by constructor.
      * apply andb_prop in E as [E _]. apply andb_prop in E as [E _].
        apply Z.ltb_lt in E. right. by constructor.
    + rewrite elem_of_app, list_elem_of_singleton. intros [?| ->]; [tauto|].
      right. by constructor.
Qed.

(** The clock never moves back. *)
Lemma step_time w w' goOn : LoopStep w w' goOn -> Loop.currentTime w <= Loop.currentTime w'.
Proof.
  intros Hs. destruct Hs as [l [_ Hl]| | | |left brk ? ? Hleft ? ->]; simpl; try lia.
  destruct (_ && _ && _) eqn:E.
  - apply andb_prop in E as [E _]. apply andb_prop in E as [E _].
    apply Z.ltb_lt in E. lia.
  - lia.
Qed.

Variable windowStart : Z.
Hypothesis windowStart_nonneg : 0 <= windowStart.
Hypothesis lunch_nonneg : forall l,
  Settings.lunch settings = Some l ->
  0 <= timeToMinutes (Lunch.start l) /\ 0 <= Lunch.duration l.

Lemma Emitted_timed w b : windowStart <= Loop.currentTime w -> Emitted w b -> timed b.
Proof.
  intros Hw [l [Hl _]|len Hlen|len Hlen Hbrk]; unfold timed.
  - destruct (lunch_nonneg l Hl).
    destruct (timed_lunchBlock (timeToMinutes (Lunch.start l)) l) as [-> ->];
      simpl; lia.
  - destruct (timed_workBlock (nextSkill w) (Loop.currentTime w) len) as [-> ->];
      simpl; lia.
  - destruct (timed_breakBlock (Loop.currentTime w + len)
                               (Settings.breakMins settings)) as [-> ->];
      simpl; lia.
Qed.

#[local] Abbreviation timingInv := (timingInv windowStart).

Lemma timingInv_step w w' goOn : timingInv w -> LoopStep w w' goOn -> timingInv w'.
Proof.
  intros [Ht Hb] Hs. split.
  - pose proof (step_time _ _ _ Hs). lia.
  - apply Forall_forall. intros b Hin.
    destruct (step_blocks _ _ _ Hs b Hin) as [H|H].
    + rewrite Forall_forall in Hb. by apply Hb.
    + by eapply Emitted_timed.
Qed.

Lemma whileLoop_timed fuel w w' :
  timingInv w ->
  whileLoop settings windowEnd skillQueue noSkill fuel w = Some w' ->
  timingInv w'.
Proof.
  apply whileLoop_invariant. intros ? ? ? ? _ ?. by eapply timingInv_step.
Qed.

(** Every block lasts a positive number of minutes, provided the lunch
    does. *)
Hypothesis lunch_pos : forall l,
  Settings.lunch settings = Some l -> 0 < Lunch.duration l.

Lemma Emitted_positive w b : Emitted w b -> 0 < Block.minutes b.
Proof. intros [l [Hl _]|len Hlen|len Hlen Hbrk]; simpl; auto. Qed.

Lemma whileLoop_positive fuel w w' :
  Forall (fun b => 0 < Block.minutes b) (Loop.blocks w) ->
  whileLoop settings windowEnd skillQueue noSkill fuel w = Some w' ->
  Forall (fun b => 0 < Block.minutes b) (Loop.blocks w').
Proof.
  apply (whileLoop_invariant settings windowEnd skillQueue noSkill
           (fun w => Forall (fun b => 0 < Block.minutes b) (Loop.blocks w))).
  intros w0 w1 goOn Hb _ Hs. apply Forall_forall. intros b Hin.
  destruct (step_blocks _ _ _ Hs b Hin) as [H|H].
  - rewrite Forall_forall in Hb. by apply Hb.
  - by eapply Emitted_positive.
Qed.
End Emission.

(** ** The lunch block *)

Lemma filter_app_singleton {A} (p : A -> bool) l x :
  List.filter p (l ++ [x]) = List.filter p l ++ (if p x then [x] else []).
Proof. by rewrite List.filter_app. Qed.

Lemma existsb_filter_nil {A} (p : A -> bool) l :
  existsb p l = false <-> List.filter p l = [].
Proof.
  induction l as [|x l IH]; simpl; [done|].
  destruct (p x); simpl; [split; discriminate | exact IH].
Qed.

Lemma lastIsLunch_filter blocks :
  lastIsLunch blocks = true -> List.filter isLunch blocks <> [].
Proof.
  unfold lastIsLunch. destruct (last blocks) as [b|] eqn:E; [|discriminate].
  intros Hb. apply last_Some in E as [l' ->].
  rewrite filter_app_singleton. fold (isLunch b) in Hb. rewrite Hb.
  by destruct (List.filter isLunch l').
Qed.

Section LunchOnce.
Variable settings : Settings.t.
Variable windowEnd : Z.
Variable skillQueue : list Skill.t.
Variable noSkill : Skill.t.
Variable l : Lunch.t.

#[local] Abbreviation LoopStep := (LoopStep settings windowEnd skillQueue noSkill).

Hypothesis workBlockMins_pos : 0 < Settings.workBlockMins settings.
Hypothesis lunch_configured : Settings.lunch settings = Some l.

#[local] Abbreviation theLunch := (theLunch l).
#[local] Abbreviation lunchInv := (lunchInv l).

Lemma lunchInv_step w w' goOn : lunchInv w -> LoopStep w w' goOn -> lunchInv w'.
Proof.
  intros Hinv Hs.
  pose proof (step_time settings windowEnd skillQueue noSkill workBlockMins_pos
                        _ _ _ Hs) as Ht.
  unfold lunchInv in *.
  destruct Hs as [l' [El' Hl']| | | |left brk ? ? Hleft ? Hbrk]; simpl in *.
  - rewrite lunch_configured in El'. injection El' as <-.
    destruct Hinv as [Hnone|[_ Hone]]; [|lia].
    destruct (lastIsLunch (Loop.blocks w)) eqn:E.
    + by apply lastIsLunch_filter in E.
    + right. rewrite filter_app_singleton, Hnone. split; [reflexivity | lia].
  - exact Hinv.
  - rewrite filter_app_singleton. simpl. rewrite app_nil_r.
    destruct Hinv as [Hnone|[Hone Hpast]]; [by left | right; split; [done | lia]].
  - exact Hinv.
  - clear Hbrk.
    destruct brk; rewrite ?filter_app_singleton; simpl; rewrite ?app_nil_r;
      (destruct Hinv as [Hnone|[Hone Hpast]]; [by left | right; split; [done | lia]]).
Qed.

Lemma whileLoop_lunch fuel w w' :
  lunchInv w ->
  whileLoop settings windowEnd skillQueue noSkill fuel w = Some w' ->
  lunchInv w'.
Proof.
  apply whileLoop_invariant. intros ? ? ? ? _ ?. by eapply lunchInv_step.
Qed.

(** After the backfill a lunch that starts inside the window is in the
    list exactly once. *)
Lemma lunchBackfill_once windowStart w :
  lunchInv w ->
  windowStart <= timeToMinutes (Lunch.start l) < windowEnd ->
  List.filter isLunch (lunchBackfill settings windowStart windowEnd (Loop.blocks w))
  = [theLunch].
Proof.
  intros Hinv Hin. unfold lunchBackfill. rewrite lunch_configured.
  fold isLunch.
  destruct (existsb isLunch (Loop.blocks w)) eqn:E.
  - destruct Hinv as [Hnone|[Hone _]]; [|done].
    apply existsb_filter_nil in Hnone. congruence.
  - apply existsb_filter_nil in E.
    destruct (_ && _) eqn:Ew.
    + by rewrite filter_app_singleton, E.
    + apply andb_false_iff in Ew as [Ew|Ew];
        [apply Z.leb_gt in Ew | apply Z.ltb_ge in Ew]; lia.
Qed.
End LunchOnce.

(** ** From the loop to the days of the schedule *)

Lemma schedule_Forall (P : Day.t -> Prop) fuel today skills settings schedule summary :
  (forall acc firstActive w date,
      DayRun fuel skills settings acc firstActive w ->
      P (Day.mk date (finishDay settings (Loop.blocks w)))) ->
  generateSchedule fuel today skills settings = Some (inr (schedule, summary)) ->
  Forall P schedule.
Proof.
  intros Hday Hrun.
  apply generateSchedule_returns in Hrun as (dates & acc & Hfor & -> & _ & _).
  revert Hfor.
  apply (forDates_invariant (fun acc => Forall P (Acc.generatedSchedule acc))).
  - intros date acc0 acc1 Hacc Hbody.
    apply dayBody_pushed in Hbody as (first & w & Hw & ->). simpl.
    apply Forall_app. split; [done|]. apply Forall_singleton. by eapply Hday.
  - simpl. constructor.
Qed.

Lemma finishDay_fillFrom settings blocks :
  finishDay settings blocks
  = fillFrom (windowStartOf settings)
             (sortBlocks (lunchBackfill settings (windowStartOf settings)
                                        (windowEndOf settings) blocks))
             (windowEndOf settings).
Proof. apply bufferFill_fillFrom. Qed.

Lemma sortBlocks_perm blocks : sortBlocks blocks ≡ₚ blocks.
Proof. apply sort_perm. Qed.

Lemma sortBlocks_sorted blocks :
  StronglySorted (fun a b => bstart a <= bstart b) (sortBlocks blocks).
Proof. apply sort_sorted. intros a b. unfold bstart. lia. Qed.

Section DayFacts.
Variable settings : Settings.t.
Variable fuel : nat.
Variable skills : list Skill.t.
Variable acc : Acc.t.
Variable firstActive : Skill.t.
Variable w : Loop.t.

Hypothesis valid : validTimes settings.
Hypothesis lunch_nonneg : forall l,
  Settings.lunch settings = Some l -> 0 <= Lunch.duration l.
Hypothesis run : DayRun fuel skills settings acc firstActive w.

Lemma windowStart_nonneg : 0 <= windowStartOf settings.
Proof. apply wellFormedTime_nonneg, valid. Qed.

Lemma windowEnd_nonneg : 0 <= windowEndOf settings.
Proof. apply wellFormedTime_nonneg, valid. Qed.

Lemma lunch_times_nonneg l :
  Settings.lunch settings = Some l ->
  0 <= timeToMinutes (Lunch.start l) /\ 0 <= Lunch.duration l.
Proof.
  intros Hl. split; [|by apply lunch_nonneg].
  by apply wellFormedTime_nonneg, valid.
Qed.

Lemma run_timingInv : timingInv (windowStartOf settings) w.
Proof.
  eapply (whileLoop_timed settings (windowEndOf settings) _ firstActive
            (valid_workBlockMins _ valid) (windowStartOf settings)
            windowStart_nonneg lunch_times_nonneg fuel (loopStart settings skills acc) w);
    [|apply run].
  split; simpl; [lia | constructor].
Qed.

Lemma backfill_timed :
  Forall timed (lunchBackfill settings (windowStartOf settings) (windowEndOf settings)
                              (Loop.blocks w)).
Proof.
  destruct run_timingInv as [_ Hb]. unfold lunchBackfill.
  pose proof lunch_times_nonneg as Hln. pose proof windowStart_nonneg as Hws.
  destruct (Settings.lunch settings) as [l|]; [|done].
  destruct (existsb _ _); [done|].
  destruct (_ && _) eqn:E; [|done].
  apply andb_prop in E as [E _]. apply Z.leb_le in E.
  apply Forall_app. split; [done|]. apply Forall_singleton.
  destruct (Hln l eq_refl).
  unfold timed.
  destruct (timed_lunchBlock (timeToMinutes (Lunch.start l)) l) as [-> ->];
    simpl; lia.
Qed.

Lemma sorted_timed :
  Forall timed (sortBlocks (lunchBackfill settings (windowStartOf settings)
                                          (windowEndOf settings) (Loop.blocks w))).
Proof. rewrite sortBlocks_perm. apply backfill_timed. Qed.

Lemma day_timed : Forall timed (finishDay settings (Loop.blocks w)).
Proof.
  rewrite finishDay_fillFrom.
  apply fillFrom_Forall;
    [| apply sorted_timed | apply sorted_timed | apply windowStart_nonneg].
  intros from to H. unfold timed.
  destruct (timed_bufferBlock from to) as [-> ->]; simpl; lia.
Qed.

Lemma day_nonempty : finishDay settings (Loop.blocks w) <> [].
Proof.
  rewrite finishDay_fillFrom. apply fillFrom_nonempty. right. apply run.
Qed.

(** No minute of the window is left out. *)
Lemma day_covers :
  covers (windowStartOf settings) (finishDay settings (Loop.blocks w))
         (windowEndOf settings).
Proof.
  rewrite finishDay_fillFrom.
  apply fillFrom_covers;
    [apply windowEnd_nonneg | apply windowStart_nonneg | apply sorted_timed].
Qed.
Lemma day_sorted :
  StronglySorted (fun a b => bstart a <= bstart b) (finishDay settings (Loop.blocks w)).
Proof.
  rewrite finishDay_fillFrom.
  refine (proj1 (fillFrom_sorted (windowEndOf settings) windowEnd_nonneg
                   _ sorted_timed (sortBlocks_sorted _) (windowStartOf settings) 0
                   windowStart_nonneg windowStart_nonneg _)).
  eapply Forall_impl; [exact sorted_timed|]. by intros b [? _].
Qed.
End DayFacts.

Section DayOrder.
Variable settings : Settings.t.
Variable fuel : nat.
Variable skills : list Skill.t.
Variable acc : Acc.t.
Variable firstActive : Skill.t.
Variable w : Loop.t.

Hypothesis valid : validTimes settings.
Hypothesis lunch_pos : forall l,
  Settings.lunch settings = Some l -> 0 < Lunch.duration l.
Hypothesis run : DayRun fuel skills settings acc firstActive w.

Lemma lunch_pos_nonneg l : Settings.lunch settings = Some l -> 0 <= Lunch.duration l.
Proof. intros H. apply lunch_pos in H. lia. Qed.

Lemma sorted_positive :
  Forall (fun b => 0 < Block.minutes b)
         (sortBlocks (lunchBackfill settings (windowStartOf settings)
                                    (windowEndOf settings) (Loop.blocks w))).
Proof.
  rewrite sortBlocks_perm.
  assert (Hb : Forall (fun b => 0 < Block.minutes b) (Loop.blocks w)).
  { eapply (whileLoop_positive settings (windowEndOf settings) _ firstActive
              (valid_workBlockMins _ valid) lunch_pos fuel
              (loopStart settings skills acc) w); [constructor | apply run]. }
  unfold lunchBackfill. pose proof lunch_pos as Hlp.
  destruct (Settings.lunch settings) as [l|]; [|done].
  destruct (existsb _ _); [done|].
  destruct (_ && _); [|done].
  apply Forall_app. split; [done|]. apply Forall_singleton. simpl. by apply Hlp.
Qed.

Lemma day_positive :
  Forall (fun b => 0 < Block.minutes b) (finishDay settings (Loop.blocks w)).
Proof.
  rewrite finishDay_fillFrom.
  apply fillFrom_Forall.
  - intros from to H. simpl. lia.
  - eapply sorted_timed; [exact valid | exact lunch_pos_nonneg | exact run].
  - apply sorted_positive.
  - by apply windowStart_nonneg.
Qed.

End DayOrder.

(** C9.  Every day of a returned schedule has a block list that is not
    empty and is in ascending order of start time, and every block in it
    lasts a positive number of minutes, the difference of its end and its
    start, provided a configured lunch has a positive duration. *)
Theorem C9_day_blocks_sorted_positive fuel today skills settings schedule summary :
  validTimes settings ->
  (forall l, Settings.lunch settings = Some l -> 0 < Lunch.duration l) ->
  generateSchedule fuel today skills settings = Some (inr (schedule, summary)) ->
  Forall (fun day =>
            Day.blocks day <> []
            /\ StronglySorted
                 (fun a b => timeToMinutes (Block.start a) <= timeToMinutes (Block.start b))
                 (Day.blocks day)
            /\ Forall (fun b =>
                         0 < Block.minutes b
                         /\ Block.minutes b
                            = timeToMinutes (Block.end_ b) - timeToMinutes (Block.start b))
                      (Day.blocks day))
         schedule.
Proof.
  intros Hvalid Hlunch. apply schedule_Forall.
  intros acc first w date Hrun. simpl.
  assert (Hnn : forall l, Settings.lunch settings = Some l -> 0 <= Lunch.duration l)
    by (intros l Hl; apply Hlunch in Hl; lia).
  split; [by eapply day_nonempty|].
  split; [by eapply day_sorted|].
  pose proof (day_timed settings fuel skills acc first w Hvalid Hnn Hrun) as Ht.
  pose proof (day_positive settings fuel skills acc first w Hvalid Hlunch Hrun) as Hp.
  rewrite Forall_forall in Ht, Hp. apply Forall_forall. intros b Hb.
  split; [by apply Hp|]. by destruct (Ht b Hb) as (_ & _ & E).
Qed.

Lemma filter_perm {A} (p : A -> bool) (l l' : list A) :
  l ≡ₚ l' -> List.filter p l ≡ₚ List.filter p l'.
Proof.
  induction 1 as [|x l l' _ IH|x y l|l1 l2 l3 _ IH1 _ IH2]; simpl.
  - done.
  - destruct (p x); [by constructor | done].
  - destruct (p x), (p y); try done. apply perm_swap.
  - by etransitivity.
Qed.

Lemma day_lunch_once settings fuel skills acc firstActive w l :
  0 < Settings.workBlockMins settings ->
  Settings.lunch settings = Some l ->
  windowStartOf settings <= timeToMinutes (Lunch.start l) < windowEndOf settings ->
  DayRun fuel skills settings acc firstActive w ->
  List.filter isLunch (finishDay settings (Loop.blocks w)) = [theLunch l].
Proof.
  intros Hwb Hl Hin Hrun.
  rewrite finishDay_fillFrom, fillFrom_filter by done.
  apply Permutation_singleton_r.
  rewrite (filter_perm _ _ _ (sortBlocks_perm _)).
  erewrite lunchBackfill_once; [done | exact Hl | | exact Hin].
  eapply whileLoop_lunch; [exact Hwb | exact Hl | | apply Hrun].
  by left.
Qed.

(** C7.  When a lunch is configured and starts inside the window, every
    day of a returned schedule holds exactly one lunch block; it starts at
    [lunch.start] and lasts [lunch.duration] minutes. *)
Theorem C7_lunch_exactly_once fuel today skills settings schedule summary l :
  validTimes settings ->
  Settings.lunch settings = Some l ->
  timeToMinutes (Settings.startTime settings) <= timeToMinutes (Lunch.start l)
    < timeToMinutes (Settings.endTime settings) ->
  generateSchedule fuel today skills settings = Some (inr (schedule, summary)) ->
  Forall (fun day =>
            exists b,
              List.filter (fun b => BlockType_eqb (Block.type b) lunch) (Day.blocks day)
              = [b]
              /\ Block.start b = Lunch.start l
              /\ Block.minutes b = Lunch.duration l)
         schedule.
Proof.
  intros Hvalid Hl Hin. apply schedule_Forall.
  intros acc first w date Hrun. simpl.
  exists (theLunch l). split; [|split].
  - eapply day_lunch_once; eauto. apply Hvalid.
  - simpl. by apply wellFormedTime_canonical, Hvalid.
  - reflexivity.
Qed.

(** ** A run to try the statements on *)

Lemma demoRun_returns :
  generateSchedule 64 0 demoSkills demoSettings = Some (inr (demoSchedule, demoSummary)).
Proof. vm_compute. reflexivity. Defined.

Lemma demoSettings_valid : validTimes demoSettings.
Proof.
  constructor; simpl; try reflexivity.
  intros l [= <-]. reflexivity.
Defined.

Lemma demoSettings_lunch_pos l :
  Settings.lunch demoSettings = Some l -> 0 < Lunch.duration l.
Proof. intros [= <-]. reflexivity. Defined.

Lemma C9_day_blocks_sorted_positive_witness :
  Forall (fun day =>
            Day.blocks day <> []
            /\ StronglySorted
                 (fun a b => timeToMinutes (Block.start a) <= timeToMinutes (Block.start b))
                 (Day.blocks day)
            /\ Forall (fun b =>
                         0 < Block.minutes b
                         /\ Block.minutes b
                            = timeToMinutes (Block.end_ b) - timeToMinutes (Block.start b))
                      (Day.blocks day))
         demoSchedule.
Proof.
  exact (C9_day_blocks_sorted_positive 64 0 demoSkills demoSettings demoSchedule
           demoSummary demoSettings_valid demoSettings_lunch_pos demoRun_returns).
Defined.

Lemma C7_lunch_exactly_once_witness :
  Forall (fun day =>
            exists b,
              List.filter (fun b => BlockType_eqb (Block.type b) lunch) (Day.blocks day)
              = [b]
              /\ Block.start b = "13:00"
              /\ Block.minutes b = 60)
         demoSchedule.
Proof.
  apply (C7_lunch_exactly_once 64 0 demoSkills demoSettings demoSchedule demoSummary
           demoLunch demoSettings_valid eq_refl).
  - vm_compute. split; [discriminate | reflexivity].
  - exact demoRun_returns.
Defined.

(** ** Rounding to five minutes *)

Lemma roundTo5_bounds q :
  (inject_Z (roundTo5 q) <= q + (5 # 2))%Q /\ (q - (5 # 2) < inject_Z (roundTo5 q))%Q.
Proof.
  unfold roundTo5, Math_round.
  pose proof (Qfloor_le (q / 5 + (1 # 2))) as H1.
  pose proof (Qlt_floor (q / 5 + (1 # 2))) as H2.
  rewrite inject_Z_plus in H2. rewrite inject_Z_mult.
  change (inject_Z 1) with 1%Q in H2. change (inject_Z 5) with 5%Q.
  set (f := inject_Z (Qfloor (q / 5 + (1 # 2)))) in *.
  assert (E : (q / 5 == q * (1 # 5))%Q) by (unfold Qdiv; reflexivity).
  rewrite E in H1, H2. split; lra.
Qed.

Lemma roundTo5_multiple_of_5 q : (5 | roundTo5 q).
Proof. unfold roundTo5. apply Z.divide_factor_r. Qed.

Lemma roundTo5_nonneg q : (0 <= q)%Q -> 0 <= roundTo5 q.
Proof.
  intros Hq. destruct (roundTo5_bounds q) as [_ H].
  destruct (roundTo5_multiple_of_5 q) as [k Ek]. rewrite Ek in *.
  assert (Hk : (- (5 # 2) < inject_Z (k * 5))%Q) by lra.
  unfold Qlt in Hk. simpl in Hk. lia.
Qed.

(** On an integer, rounding moves by at most two minutes. *)
Lemma roundTo5_Z x : x - 2 <= roundTo5 (inject_Z x) <= x + 2.
Proof.
  destruct (roundTo5_bounds (inject_Z x)) as [H1 H2].
  unfold Qle, Qlt, Qplus, Qminus, Qopp, inject_Z in *. simpl in *. lia.
Qed.

Lemma roundTo5_of_multiple x : (5 | x) -> roundTo5 (inject_Z x) = x.
Proof.
  intros [k ->]. pose proof (roundTo5_Z (k * 5)) as H.
  destruct (roundTo5_multiple_of_5 (inject_Z (k * 5))) as [j Ej]. lia.
Qed.

(** ** Maps built from the skill list *)

Lemma newMap_Forall {V} (P : string -> V -> Prop) (pairs : list (string * V)) :
  Forall (fun kv => P kv.1 kv.2) pairs -> map_Forall P (newMap pairs).
Proof.
  unfold newMap.
  assert (G : forall m : gmap string V,
             map_Forall P m -> Forall (fun kv => P kv.1 kv.2) pairs ->
             map_Forall P (foldl (fun m kv => <[kv.1 := kv.2]> m) m pairs)).
  { induction pairs as [|[k v] pairs IH]; intros m Hm Hp; simpl; [done|].
    inversion Hp; subst. apply IH; [|done]. by apply map_Forall_insert_2. }
  apply G. apply map_Forall_empty.
Qed.

Lemma dailyAllocationOf_multiples a tw rh active :
  map_Forall (fun _ t => (5 | t)) (dailyAllocationOf a tw rh active).
Proof.
  unfold dailyAllocationOf.
  apply (newMap_Forall (fun _ t => (5 | t))).
  apply Forall_forall. intros [k v] Hin.
  apply list_elem_of_In, in_map_iff in Hin as (s & [= <- <-] & _). simpl.
  apply roundTo5_multiple_of_5.
Qed.

(** ** Days without a lunch, on a five-minute grid *)

Section Grid.
Variable settings : Settings.t.
Variable windowStart windowEnd : Z.
Variable skillQueue : list Skill.t.
Variable noSkill : Skill.t.

#[local] Abbreviation LoopStep := (LoopStep settings windowEnd skillQueue noSkill).

Hypothesis workBlockMins_pos : 0 < Settings.workBlockMins settings.
Hypothesis no_lunch : Settings.lunch settings = None.
Hypothesis windowStart_nonneg : 0 <= windowStart.
Hypothesis grid_work : (5 | Settings.workBlockMins settings).
Hypothesis grid_break : (5 | Settings.breakMins settings).

#[local] Abbreviation gridInv := (gridInv windowStart windowEnd).
#[local] Abbreviation gridEnd := (gridEnd windowStart windowEnd).

Lemma tiles_snoc_work from bs skill at_ len :
  tiles from bs at_ -> 0 <= at_ -> 0 <= at_ + len ->
  tiles from (bs ++ [workBlock skill at_ len]) (at_ + len).
Proof.
  intros Ht H1 H2. eapply tiles_app; [exact Ht|]. simpl.
  by destruct (timed_workBlock skill at_ len H1 H2) as [-> ->].
Qed.

Lemma tiles_snoc_break from bs at_ len :
  tiles from bs at_ -> 0 <= at_ -> 0 <= at_ + len ->
  tiles from (bs ++ [breakBlock at_ len]) (at_ + len).
Proof.
  intros Ht H1 H2. eapply tiles_app; [exact Ht|]. simpl.
  by destruct (timed_breakBlock at_ len H1 H2) as [-> ->].
Qed.

Lemma gridInv_step w w' :
  gridInv w -> loopCond windowEnd w = true -> LoopStep w w' true -> gridInv w'.
Proof.
  intros (Ht & Hw & Hg & Ha) Hc Hs. unfold gridInv.
  inversion Hs as [l [Hl _]|Hno Hle Ew|?|?|left brk Hno Hleft Hpos Hfit Hbrk Ew];
    subst; simpl.
  - congruence.
  - done.
  - pose proof (Ha _ _ Hleft) as Hg5. simpl in Hg5.
    set (d := Z.min (Settings.workBlockMins settings) left) in *.
    assert (Hd : 0 < d) by (unfold d; lia).
    assert (Hd5 : (5 | d)).
    { unfold d. destruct (Z.min_spec (Settings.workBlockMins settings) left)
        as [[_ ->]|[_ ->]]; done. }
    assert (Htw : tiles windowStart
                    (Loop.blocks w
                     ++ [workBlock (nextSkill skillQueue noSkill w) (Loop.currentTime w) d])
                    (Loop.currentTime w + d))
      by (apply tiles_snoc_work; [done | lia | lia]).
    assert (Hins : map_Forall (fun _ t => (5 | t))
                     (<[Skill.id (nextSkill skillQueue noSkill w) := left - d]>
                        (Loop.dailyAllocation w))).
    { apply map_Forall_insert_2; [|done]. by apply Z.divide_sub_r. }
    destruct (_ && _ && _) eqn:E.
    + apply andb_prop in E as [E _]. apply andb_prop in E as [E1 E2].
      apply Z.ltb_lt in E1. apply Z.leb_le in E2.
      repeat split; try done; try lia.
      * apply tiles_snoc_break; [done | lia | lia].
      * replace (windowEnd - (Loop.currentTime w + d + Settings.breakMins settings))
          with (windowEnd - Loop.currentTime w - d - Settings.breakMins settings) by lia.
        apply Z.divide_sub_r; [apply Z.divide_sub_r|]; done.
    + repeat split; try done; try lia.
      replace (windowEnd - (Loop.currentTime w + d))
        with (windowEnd - Loop.currentTime w - d) by lia.
      by apply Z.divide_sub_r.
Qed.

Lemma gridInv_break w w' :
  gridInv w -> loopCond windowEnd w = true -> LoopStep w w' false -> gridEnd w'.
Proof.
  intros (Ht & Hw & Hg & Ha) Hc Hs. unfold gridEnd.
  inversion Hs as [?|Hno Hle Ew|left Hno Hleft Hpos Hclip Hr Ew|? ? ? ? ? ? Ew|?];
    subst; simpl.
  - exists (Loop.currentTime w). split; [done | lia].
  - rewrite roundTo5_of_multiple in * by done.
    exists (Loop.currentTime w + (windowEnd - Loop.currentTime w)). split; [|lia].
    apply tiles_snoc_work; [done | lia | lia].
  - exists (Loop.currentTime w). split; [done | lia].
Qed.

Lemma whileLoop_grid fuel w w' :
  gridInv w ->
  whileLoop settings windowEnd skillQueue noSkill fuel w = Some w' ->
  gridEnd w'.
Proof.
  apply whileLoop_rule.
  - apply gridInv_step.
  - apply gridInv_break.
  - intros w0 (Ht & Hw & _) _. exists (Loop.currentTime w0). split; [done | lia].
Qed.
End Grid.

Lemma tiles_spaced_le bs : forall from e to,
  tiles from bs e -> e <= to -> spaced from bs to.
Proof.
  induction bs as [|b bs IH]; simpl; intros from e to.
  - lia.
  - intros [E H] Hle. split; [lia | by eapply IH].
Qed.

Lemma tiles_inOrder bs : forall from to,
  Forall timed bs -> tiles from bs to ->
  inOrder (fun a b => bstart a - bstart b) bs.
Proof.
  induction bs as [|b bs IH]; simpl; intros from to Ht; [done|].
  inversion Ht as [|? ? (_ & Hb & _) Ht']; subst.
  intros [_ H]. split; [|by eapply IH].
  destruct bs as [|b' bs]; [done|]. simpl in H. lia.
Qed.

Lemma sorted_inOrder bs :
  StronglySorted (fun a b => bstart a <= bstart b) bs ->
  inOrder (fun a b => bstart a - bstart b) bs.
Proof.
  induction 1 as [|b bs _ IH Hb]; simpl; [done|].
  split; [|done]. destruct bs as [|b' bs]; [done|].
  inversion Hb; subst. lia.
Qed.

(** A day's blocks are already in the order the sort would put them in. *)
Lemma day_sortBlocks_id settings fuel skills acc firstActive w :
  validTimes settings ->
  (forall l, Settings.lunch settings = Some l -> 0 <= Lunch.duration l) ->
  DayRun fuel skills settings acc firstActive w ->
  sortBlocks (finishDay settings (Loop.blocks w)) = finishDay settings (Loop.blocks w).
Proof.
  intros Hv Hl Hrun. apply sort_inOrder, sorted_inOrder. by eapply day_sorted.
Qed.

Lemma day_tiles settings fuel skills acc firstActive w :
  validTimes settings ->
  Settings.lunch settings = None ->
  (5 | windowEndOf settings - windowStartOf settings) ->
  (5 | Settings.workBlockMins settings) -> (5 | Settings.breakMins settings) ->
  DayRun fuel skills settings acc firstActive w ->
  tiles (windowStartOf settings) (finishDay settings (Loop.blocks w))
        (windowEndOf settings).
Proof.
  intros Hv Hno G2 G3 G4 Hrun.
  assert (Hnn : forall l, Settings.lunch settings = Some l -> 0 <= Lunch.duration l)
    by (intros l Hl; congruence).
  pose proof (run_timingInv settings fuel skills acc firstActive w Hv Hnn Hrun)
    as [_ Htimed].
  assert (Hend : gridEnd (windowStartOf settings) (windowEndOf settings) w).
  { eapply (whileLoop_grid settings (windowStartOf settings) (windowEndOf settings)
              _ firstActive (valid_workBlockMins _ Hv) Hno
              (windowStart_nonneg _ Hv) G3 G4 fuel
              (loopStart settings skills acc) w); [|apply Hrun].
    pose proof (run_window _ _ _ _ _ _ Hrun).
    repeat split; simpl; try done; try lia.
    apply dailyAllocationOf_multiples. }
  destruct Hend as (e & Ht & He).
  rewrite finishDay_fillFrom.
  assert (Eb : lunchBackfill settings (windowStartOf settings) (windowEndOf settings)
                             (Loop.blocks w) = Loop.blocks w)
    by (unfold lunchBackfill; by rewrite Hno).
  rewrite Eb.
  assert (Es : sortBlocks (Loop.blocks w) = Loop.blocks w)
    by (eapply sort_inOrder, tiles_inOrder; eauto).
  rewrite Es.
  apply fillFrom_tiles;
    [apply (windowEnd_nonneg _ Hv) | apply (windowStart_nonneg _ Hv) | done |].
  by eapply tiles_spaced_le.
Qed.




(** ** Scenario A: one skill of one hour, one hour a day *)

Lemma newMap_singleton {V} k (v : V) : newMap [(k, v)] = {[k := v]}.
Proof. reflexivity. Qed.

Lemma values_singleton {V} k (v : V) : values ({[k := v]} : gmap string V) = [v].
Proof. unfold values. by rewrite map_to_list_singleton. Qed.

Section ScenarioA.
Variables (today : Z) (sid nm : string).

#[local] Abbreviation skill := (scenarioA_skill sid nm).
#[local] Abbreviation w0 := (scenarioA_w0 sid).
#[local] Abbreviation w1 := (scenarioA_w1 sid nm).
#[local] Abbreviation w2 := (scenarioA_w2 sid nm).

Lemma scenarioA_pass1 :
  loopBody scenarioA_settings 1020 [skill] skill w0 = (w1, true).
Proof.
  unfold loopBody, scenarioA_w0, scenarioA_w1. simpl. rewrite lookup_singleton_eq. simpl.
  rewrite !lookup_singleton_eq, !insert_singleton_eq. reflexivity.
Qed.

Lemma scenarioA_pass2 :
  loopBody scenarioA_settings 1020 [skill] skill w1 = (w2, true).
Proof.
  unfold loopBody, scenarioA_w1, scenarioA_w2. simpl. rewrite lookup_singleton_eq. simpl.
  rewrite !lookup_singleton_eq, !insert_singleton_eq. reflexivity.
Qed.

Lemma scenarioA_loop fuel :
  whileLoop scenarioA_settings 1020 [skill] skill (S (S fuel)) w0 = Some w2.
Proof.
  simpl. change (loopCond 1020 w0) with true. cbv iota.
  rewrite scenarioA_pass1. change (loopCond 1020 w1) with true. cbv iota.
  rewrite scenarioA_pass2. destruct fuel; reflexivity.
Qed.

Lemma scenarioA_run fuel : exists summary,
  generateSchedule (S (S fuel)) today [skill] scenarioA_settings
  = Some (inr ([Day.mk today
                  [workBlock skill 540 50; breakBlock 590 10; workBlock skill 600 10;
                   bufferBlock 610 1020]], summary)).
Proof.
  eexists. unfold generateSchedule, datesOf. simpl Settings.mode. cbv iota beta.
  unfold forDates, dayBody.
  change (timeToMinutes (Settings.startTime scenarioA_settings)) with 540.
  change (timeToMinutes (Settings.endTime scenarioA_settings)) with 1020.
  change (1020 - 540 <=? 0) with false. cbv iota.
  change (Qle_bool (allocatableTimeOf scenarioA_settings 540 1020) 0) with false.
  cbv iota.
  unfold initialAcc. simpl map. rewrite !newMap_singleton.
  simpl Acc.remainingHours. unfold activeSkillsOf. simpl List.filter.
  rewrite lookup_singleton_eq.
  change (Qltb 0 (default 0%Q (Some (1 * 60)%Q))) with true. cbv iota.
  change (totalWeightOf [scenarioA_skill sid nm] =? 0) with false. cbv iota.
  unfold dailyAllocationOf. simpl map. rewrite newMap_singleton.
  unfold dailyTarget. simpl Skill.id. rewrite lookup_singleton_eq.
  rewrite values_singleton.
  match goal with |- context [roundTo5 ?q] => change (roundTo5 q) with 60 end.
  change (sumZ [60]) with 60.
  change (skillQueueOf [scenarioA_skill sid nm] (Acc.dayIndex _)) with [skill].
  simpl Acc.totalMinutesPerSkill.
  fold (scenarioA_w0 sid). rewrite scenarioA_loop. cbv iota beta zeta.
  unfold finishRun. simpl Acc.generatedSchedule. cbv iota. reflexivity.
Qed.
End ScenarioA.

(** C3, amended.  In scenario A the single day holds the work block
    09:00-09:50, a break 09:50-10:00, a second work block 10:00-10:10 that
    uses up the rest of the hour, and one buffer block 10:10-17:00. *)
Theorem C3_scenarioA_schedule fuel today sid nm :
  exists summary,
    generateSchedule (S (S fuel)) today [Skill.mk sid nm High 1]
                     (Settings.mk Daily 1 0 0 "09:00" "17:00" 50 10 None)
    = Some (inr ([Day.mk today
                    [Block.mk "09:00" "09:50" work (Some sid) (Some nm) 50 (Some false);
                     Block.mk "09:50" "10:00" break None None 10 None;
                     Block.mk "10:00" "10:10" work (Some sid) (Some nm) 10 (Some false);
                     Block.mk "10:10" "17:00" buffer None None 410 None]],
                 summary)).
Proof. exact (scenarioA_run today sid nm fuel). Qed.

Lemma C3_scenarioA_counterexample :
  exists schedule summary,
    generateSchedule 64 0 [Skill.mk "rust" "Rust" High 1]
                     (Settings.mk Daily 1 0 0 "09:00" "17:00" 50 10 None)
    = Some (inr (schedule, summary))
    /\ scenarioA_claimed schedule = false.
Proof. eexists. eexists. split; vm_compute; reflexivity. Qed.

(** ** Sums and lookups *)

Lemma Qltb_lt x y : Qltb x y = true <-> (x < y)%Q.
Proof.
  unfold Qltb. rewrite Qlt_alt.
  destruct (Qcompare x y); split; congruence.
Qed.

Lemma foldl_add_start (xs : list Z) (a : Z) : foldl Z.add a xs = a + foldl Z.add 0 xs.
Proof.
  revert a. induction xs as [|x xs IH]; intros a; simpl; [lia|].
  rewrite (IH (a + x)), (IH (0 + x)). lia.
Qed.

Lemma sumZ_cons x xs : sumZ (x :: xs) = x + sumZ xs.
Proof. unfold sumZ. simpl. apply foldl_add_start. Qed.

Lemma sumZ_app xs ys : sumZ (xs ++ ys) = sumZ xs + sumZ ys.
Proof.
  induction xs as [|x xs IH]; simpl; [done|]. rewrite !sumZ_cons, IH. lia.
Qed.

Lemma sumZ_perm xs ys : xs ≡ₚ ys -> sumZ xs = sumZ ys.
Proof.
  induction 1; rewrite ?sumZ_cons; lia.
Qed.

Lemma totalWeightOf_sum activeSkills :
  totalWeightOf activeSkills
  = sumZ (map (fun s => PRIORITY_WEIGHTS (Skill.priority s)) activeSkills).
Proof.
  unfold totalWeightOf, sumZ. generalize 0.
  induction activeSkills as [|s l IH]; intros a; simpl; [done|]. apply IH.
Qed.

Lemma newMap_foldl_notin {V} (pairs : list (string * V)) k : forall m : gmap string V,
  ~ In k (map fst pairs) ->
  foldl (fun m kv => <[kv.1 := kv.2]> m) m pairs !! k = m !! k.
Proof.
  induction pairs as [|[k' v'] pairs IH]; intros m Hk; simpl in *; [done|].
  rewrite IH by tauto. apply lookup_insert_ne. tauto.
Qed.

Lemma newMap_lookup_notin {V} (pairs : list (string * V)) k :
  ~ In k (map fst pairs) -> newMap pairs !! k = None.
Proof. intros H. unfold newMap. by rewrite newMap_foldl_notin. Qed.

(** With keys that are all different the map holds every pair. *)
Lemma newMap_lookup {V} (pairs : list (string * V)) k v :
  List.NoDup (map fst pairs) -> In (k, v) pairs -> newMap pairs !! k = Some v.
Proof.
  unfold newMap. generalize (∅ : gmap string V).
  induction pairs as [|[k' v'] pairs IH]; intros m Hnd Hin; simpl in *; [done|].
  inversion Hnd as [|? ? Hk' Hnd']; subst.
  destruct Hin as [[= -> ->]|Hin].
  - rewrite newMap_foldl_notin by done. apply lookup_insert_eq.
  - by apply IH.
Qed.

Lemma NoDup_map_filter {A B} (f : A -> B) (p : A -> bool) (l : list A) :
  List.NoDup (map f l) -> List.NoDup (map f (List.filter p l)).
Proof.
  induction l as [|x l IH]; simpl; [done|].
  intros Hnd. inversion Hnd as [|? ? Hx Hnd']; subst.
  destruct (p x); simpl; [|by apply IH].
  constructor; [|by apply IH].
  intros Hin. apply Hx. apply in_map_iff in Hin as (y & E & Hy).
  apply filter_In in Hy as [Hy _]. apply in_map_iff. eauto.
Qed.



(** ** The date sequence and the errors *)

Lemma getDatesLoop_empty fuel currentDate endDate dates :
  endDate < currentDate -> getDatesLoop fuel currentDate endDate dates = Some dates.
Proof.
  intros H. apply Z.leb_gt in H. destruct fuel; simpl; by rewrite H.
Qed.

Lemma getDatesLoop_prefix fuel : forall currentDate endDate dates result,
  getDatesLoop fuel currentDate endDate dates = Some result ->
  exists more, result = dates ++ more /\ (currentDate <= endDate -> more <> []).
Proof.
  induction fuel as [|fuel IH]; intros c e dates result; simpl.
  - destruct (c <=? e) eqn:E; [discriminate|]. apply Z.leb_gt in E.
    intros [= <-]. exists []. split; [by rewrite app_nil_r | lia].
  - destruct (c <=? e) eqn:E.
    + intros H. apply IH in H as (more & -> & _).
      exists (c :: more). split; [by rewrite <- app_assoc | done].
    + apply Z.leb_gt in E. intros [= <-]. exists []. split; [by rewrite app_nil_r | lia].
Qed.

(** The loop has gone through the whole range once the fuel reaches the
    number of days in it. *)
Lemma getDatesLoop_terminates fuel : forall currentDate endDate dates,
  (Z.to_nat (endDate - currentDate + 1) <= fuel)%nat ->
  exists result, getDatesLoop fuel currentDate endDate dates = Some result.
Proof.
  induction fuel as [|fuel IH]; intros c e dates Hf; simpl.
  - destruct (c <=? e) eqn:E; [|by eexists]. apply Z.leb_le in E. lia.
  - destruct (c <=? e) eqn:E; [|by eexists]. apply Z.leb_le in E.
    apply IH. lia.
Qed.

(** The first pass of the [for] loop throws when the window is empty. *)
Lemma forDates_invalid_window fuel skills settings date dates acc :
  windowEndOf settings <= windowStartOf settings ->
  forDates fuel skills settings (date :: dates) acc = Some (inl InvalidWindowError).
Proof.
  intros H. simpl. unfold dayBody. fold (windowStartOf settings) (windowEndOf settings).
  assert (E : (windowEndOf settings - windowStartOf settings <=? 0) = true)
    by (apply Z.leb_le; lia).
  by rewrite E.
Qed.

(** With a window that is not empty the [for] loop does not throw. *)
Lemma forDates_no_throw fuel skills settings dates : forall acc e,
  windowStartOf settings < windowEndOf settings ->
  forDates fuel skills settings dates acc <> Some (inl e).
Proof.
  induction dates as [|date dates IH]; intros acc e Hw; simpl; [discriminate|].
  destruct (dayBody fuel skills settings date acc) as [[e'| | |acc1]|] eqn:Ed;
    try discriminate; try by apply IH.
  exfalso. revert Ed. unfold dayBody.
  fold (windowStartOf settings) (windowEndOf settings).
  assert (E : (windowEndOf settings - windowStartOf settings <=? 0) = false)
    by (apply Z.leb_gt; lia).
  rewrite E.
  destruct (Qle_bool _ 0); [discriminate|].
  destruct (activeSkillsOf skills (Acc.remainingHours acc)); [discriminate|].
  destruct (_ =? 0); [discriminate|].
  destruct (whileLoop _ _ _ _ _ _); discriminate.
Qed.

(** Every day the [for] loop pushes has blocks. *)
Lemma forDates_days_nonempty fuel skills settings dates acc acc' :
  Forall (fun day => Day.blocks day <> []) (Acc.generatedSchedule acc) ->
  forDates fuel skills settings dates acc = Some (inr acc') ->
  Forall (fun day => Day.blocks day <> []) (Acc.generatedSchedule acc').
Proof.
  apply (forDates_invariant
           (fun acc => Forall (fun day => Day.blocks day <> []) (Acc.generatedSchedule acc))).
  intros date acc0 acc1 Hacc Hbody.
  apply dayBody_pushed in Hbody as (first & w & Hw & ->). simpl.
  apply Forall_app. split; [done|]. apply Forall_singleton. simpl.
  by eapply day_nonempty.
Qed.



(** ** More on the maps *)

Lemma newMap_lookup_Some_inv {V} (pairs : list (string * V)) k v :
  newMap pairs !! k = Some v -> In (k, v) pairs.
Proof.
  unfold newMap.
  assert (G : forall m : gmap string V,
             foldl (fun m kv => <[kv.1 := kv.2]> m) m pairs !! k = Some v ->
             In (k, v) pairs \/ m !! k = Some v).
  { induction pairs as [|[k' v'] pairs IH]; intros m; simpl; [tauto|].
    intros H. apply IH in H as [H|H]; [tauto|].
    destruct (decide (k' = k)) as [->|Hne].
    - rewrite lookup_insert_eq in H. injection H as ->. tauto.
    - rewrite lookup_insert_ne in H by done. tauto. }
  intros H. apply G in H as [H|H]; [done|]. by rewrite lookup_empty in H.
Qed.

Lemma newMap_is_Some {V} (pairs : list (string * V)) k :
  is_Some (newMap pairs !! k) <-> In k (map fst pairs).
Proof.
  split.
  - intros [v Hv]. apply newMap_lookup_Some_inv in Hv.
    apply in_map_iff. by exists (k, v).
  - intros Hin. destruct (newMap pairs !! k) eqn:E; [by eexists|].
    exfalso. revert E. unfold newMap. generalize (∅ : gmap string V).
    induction pairs as [|[k' v'] pairs IH]; intros m; simpl in *; [done|].
    destruct (in_dec string_dec k (map fst pairs)) as [Hin'|Hout].
    + by apply IH.
    + destruct Hin as [->|?]; [|done].
      rewrite newMap_foldl_notin by done. by rewrite lookup_insert_eq.
Qed.

(** Overwriting a key changes the sum of the values by the difference. *)
Lemma sumZ_values_insert (m : gmap string Z) k v :
  sumZ (values (<[k := v]> m)) = sumZ (values m) - default 0 (m !! k) + v.
Proof.
  unfold values.
  destruct (m !! k) as [old|] eqn:E; simpl.
  - rewrite <- (insert_delete_eq m k v).
    rewrite (sumZ_perm _ _ (fmap_Permutation snd _ _
               (map_to_list_insert (delete k m) k v (lookup_delete_eq m k)))).
    rewrite <- (sumZ_perm _ _ (fmap_Permutation snd _ _ (map_to_list_delete m k old E))).
    rewrite !fmap_cons, !sumZ_cons. simpl. lia.
  - rewrite (sumZ_perm _ _ (fmap_Permutation snd _ _ (map_to_list_insert m k v E))).
    rewrite fmap_cons, sumZ_cons. simpl. lia.
Qed.

(** With keys that are all different, summing the lookups of the keys is
    summing the values. *)
Lemma sumZ_over_keys (keys : list string) : forall m : gmap string Z,
  List.NoDup keys ->
  (forall k, is_Some (m !! k) <-> In k keys) ->
  sumZ (map (fun k => default 0 (m !! k)) keys) = sumZ (values m).
Proof.
  induction keys as [|k keys IH]; intros m Hnd Hdom; simpl.
  - assert (m = ∅) as ->.
    { apply map_empty. intros i. destruct (m !! i) eqn:E; [|done].
      exfalso. apply (Hdom i). by eexists. }
    unfold values. by rewrite map_to_list_empty.
  - inversion Hnd as [|? ? Hk Hnd']; subst.
    destruct (proj2 (Hdom k) (or_introl eq_refl)) as [v Hv].
    rewrite sumZ_cons, Hv. simpl.
    unfold values at 1.
    rewrite <- (sumZ_perm _ _ (fmap_Permutation snd _ _ (map_to_list_delete m k v Hv))).
    rewrite fmap_cons, sumZ_cons. simpl. f_equal.
    change ((map_to_list (delete k m)).*2) with (values (delete k m)).
    rewrite <- (IH (delete k m) Hnd').
    + f_equal. apply map_ext_in. intros k' Hk'.
      rewrite lookup_delete_ne; [done|]. intros ->. done.
    + intros k'. destruct (decide (k = k')) as [<-|Hne].
      * rewrite lookup_delete_eq. split; [by intros [? ?] | done].
      * rewrite lookup_delete_ne by done. rewrite Hdom. simpl. tauto.
Qed.

(** ** Counting the minutes of work *)

Lemma minutesOf_app p bs1 bs2 : minutesOf p (bs1 ++ bs2) = minutesOf p bs1 + minutesOf p bs2.
Proof. unfold minutesOf. by rewrite List.filter_app, map_app, sumZ_app. Qed.

Lemma minutesOf_perm p bs1 bs2 : bs1 ≡ₚ bs2 -> minutesOf p bs1 = minutesOf p bs2.
Proof.
  intros H. unfold minutesOf. apply sumZ_perm.
  apply Permutation_map. by apply filter_perm.
Qed.

Lemma minutesOf_nil p : minutesOf p [] = 0.
Proof. reflexivity. Qed.

Lemma minutesOf_single p b : minutesOf p [b] = if p b then Block.minutes b else 0.
Proof. unfold minutesOf. simpl. destruct (p b); reflexivity. Qed.

Lemma workOnly_isWork : workOnly isWork.
Proof. intros b. unfold isWork. by destruct (Block.type b). Qed.

Lemma workOnly_carries sid : workOnly (carries sid).
Proof. intros b H. apply andb_prop in H as [H _]. by apply workOnly_isWork. Qed.

Lemma workOnly_false p b : workOnly p -> Block.type b <> work -> p b = false.
Proof. intros Hp Hb. destruct (p b) eqn:E; [|done]. by apply Hp in E. Qed.

(** Backfill, sort and buffer fill leave the minutes of work as the loop
    emitted them. *)
Lemma minutesOf_finishDay p settings blocks :
  workOnly p -> minutesOf p (finishDay settings blocks) = minutesOf p blocks.
Proof.
  intros Hp. rewrite finishDay_fillFrom. unfold minutesOf at 1.
  rewrite fillFrom_filter by (intros; by apply workOnly_false).
  fold (minutesOf p (sortBlocks (lunchBackfill settings (windowStartOf settings)
                                               (windowEndOf settings) blocks))).
  rewrite (minutesOf_perm _ _ _ (sortBlocks_perm _)).
  unfold lunchBackfill.
  destruct (Settings.lunch settings) as [l|]; [|done].
  destruct (existsb _ _); [done|]. destruct (_ && _); [|done].
  rewrite minutesOf_app, minutesOf_single.
  rewrite (workOnly_false p) by done. lia.
Qed.

Lemma lookup_insert_default (m : gmap string Z) k d x :
  default 0 (<[k := default 0 (m !! k) + d]> m !! x)
  = default 0 (m !! x) + (if String.eqb k x then d else 0).
Proof.
  destruct (String.eqb k x) eqn:E.
  - apply String.eqb_eq in E as ->. by rewrite lookup_insert_eq.
  - apply String.eqb_neq in E. rewrite lookup_insert_ne by done. lia.
Qed.

Lemma lookup_insert_defaultQ (m : gmap string Q) k d x :
  (default 0 (<[k := default 0 (m !! k) - inject_Z d]> m !! x)
   == default 0 (m !! x) - inject_Z (if String.eqb k x then d else 0))%Q.
Proof.
  destruct (String.eqb k x) eqn:E.
  - apply String.eqb_eq in E as ->. rewrite lookup_insert_eq. simpl. reflexivity.
  - apply String.eqb_neq in E. rewrite lookup_insert_ne by done.
    change (inject_Z 0) with 0%Q. lra.
Qed.

Section Accounting.
Variable settings : Settings.t.
Variable windowEnd : Z.
Variable skillQueue : list Skill.t.
Variable noSkill : Skill.t.
Variable start : Loop.t.

#[local] Abbreviation LoopStep := (LoopStep settings windowEnd skillQueue noSkill).
#[local] Abbreviation nextSkill := (nextSkill skillQueue noSkill).
#[local] Abbreviation acctInv := (acctInv start).

Lemma carries_workBlock sid skill from len :
  carries sid (workBlock skill from len) = String.eqb (Skill.id skill) sid.
Proof. reflexivity. Qed.

Lemma minutesOf_worked p w left len moves brk :
  workOnly p ->
  minutesOf p (Loop.blocks (worked settings skillQueue noSkill w left len moves brk))
  = minutesOf p (Loop.blocks w)
    + (if p (workBlock (nextSkill w) (Loop.currentTime w) len) then len else 0).
Proof.
  intros Hp. unfold worked. simpl.
  destruct brk; rewrite ?minutesOf_app, !minutesOf_single; simpl.
  - rewrite (workOnly_false p (breakBlock _ _)) by done.
    destruct (p _); simpl; lia.
  - destruct (p _); simpl; lia.
Qed.

Lemma acctInv_worked w left len moves brk :
  acctInv w ->
  Loop.dailyAllocation w !! Skill.id (nextSkill w) = Some left ->
  acctInv (worked settings skillQueue noSkill w left len moves brk).
Proof.
  intros [H1 H2 H3 H4 H5] Hleft.
  assert (Hkey : is_Some (Loop.totalMinutesPerSkill w !! Skill.id (nextSkill w))).
  { apply H5, H4. by eexists. }
  constructor.
  - intros sid. rewrite minutesOf_worked by apply workOnly_carries.
    rewrite carries_workBlock. unfold worked. simpl.
    rewrite lookup_insert_default, H1. lia.
  - intros sid. rewrite minutesOf_worked by apply workOnly_carries.
    rewrite carries_workBlock. unfold worked. simpl.
    rewrite lookup_insert_defaultQ, H2, inject_Z_plus.
    destruct (String.eqb _ _); change (inject_Z 0) with 0%Q; lra.
  - rewrite minutesOf_worked by apply workOnly_isWork.
    unfold worked. simpl Loop.totalMinutesPerSkill.
    rewrite sumZ_values_insert, H3.
    change (isWork (workBlock (nextSkill w) (Loop.currentTime w) len)) with true.
    cbv iota. lia.
  - intros sid. unfold worked. simpl.
    destruct (decide (Skill.id (nextSkill w) = sid)) as [<-|Hne].
    + intros _. apply H4. by eexists.
    + rewrite lookup_insert_ne by done. apply H4.
  - intros sid. unfold worked. simpl.
    destruct (decide (Skill.id (nextSkill w) = sid)) as [<-|Hne].
    + rewrite lookup_insert_eq. split; [intros _; by apply H5 | by eexists].
    + rewrite lookup_insert_ne by done. apply H5.
Qed.

Lemma acctInv_step w w' goOn : acctInv w -> LoopStep w w' goOn -> acctInv w'.
Proof.
  intros Hinv Hs.
  destruct Hs as [l Hl| |left ? Hleft|? |left brk ? Hleft].
  - destruct Hinv as [H1 H2 H3 H4 H5].
    assert (E : forall p, workOnly p ->
              minutesOf p (if lastIsLunch (Loop.blocks w) then Loop.blocks w
                           else Loop.blocks w
                                ++ [lunchBlock (timeToMinutes (Lunch.start l)) l])
              = minutesOf p (Loop.blocks w)).
    { intros p Hp. destruct (lastIsLunch _); [done|].
      rewrite minutesOf_app, minutesOf_single, (workOnly_false p) by done. lia. }
    constructor; simpl; intros; rewrite ?E; auto using workOnly_carries, workOnly_isWork.
  - destruct Hinv. by constructor.
  - by apply acctInv_worked.
  - destruct Hinv. by constructor.
  - by apply acctInv_worked.
Qed.

Lemma whileLoop_acct fuel w w' :
  acctInv w ->
  whileLoop settings windowEnd skillQueue noSkill fuel w = Some w' ->
  acctInv w'.
Proof.
  apply whileLoop_invariant. intros ? ? ? ? _ ?. by eapply acctInv_step.
Qed.
End Accounting.

(** ** How far a skill can overrun its estimate *)

Lemma inject_Z_sub x y : (inject_Z (x - y) == inject_Z x - inject_Z y)%Q.
Proof. unfold Z.sub. rewrite inject_Z_plus, inject_Z_opp. reflexivity. Qed.

Section Overrun.
Variable settings : Settings.t.
Variable windowEnd : Z.
Variable skillQueue : list Skill.t.
Variable noSkill : Skill.t.

#[local] Abbreviation LoopStep := (LoopStep settings windowEnd skillQueue noSkill).
#[local] Abbreviation nextSkill := (nextSkill skillQueue noSkill).

Lemma overrunInv_end w : overrunInv w -> overrunEnd w.
Proof.
  intros H sid. specialize (H sid).
  destruct (Loop.dailyAllocation w !! sid) as [left|]; [|done].
  destruct H as [H1 H2].
  assert (0 <= inject_Z left)%Q by (change 0%Q with (inject_Z 0); by rewrite <- Zle_Qle).
  lra.
Qed.

Lemma overrunInv_step w w' :
  overrunInv w -> LoopStep w w' true -> overrunInv w'.
Proof.
  intros Hinv Hs.
  inversion Hs as [l Hl Ew|Hno Hle Ew|?|?|left brk Hno Hleft Hpos Hfit Hbrk Ew]; subst.
  - exact Hinv.
  - exact Hinv.
  - intros sid. unfold worked. simpl.
    pose proof (Hinv (Skill.id (nextSkill w))) as H0. rewrite Hleft in H0.
    destruct H0 as [H01 H02].
    destruct (decide (Skill.id (nextSkill w) = sid)) as [<-|Hne].
    + rewrite !lookup_insert_eq. simpl. split; [lia|].
      rewrite inject_Z_sub. lra.
    + rewrite !lookup_insert_ne by done. apply Hinv.
Qed.

Lemma overrunInv_break w w' :
  overrunInv w -> LoopStep w w' false -> overrunEnd w'.
Proof.
  intros Hinv Hs.
  inversion Hs as [?|Hno Hle Ew|left Hno Hleft Hpos Hclip Hr Ew|? ? ? ? ? ? Ew|?]; subst.
  - by apply overrunInv_end.
  - intros sid. unfold worked. simpl.
    destruct (decide (Skill.id (nextSkill w) = sid)) as [<-|Hne].
    + rewrite lookup_insert_eq. simpl.
      pose proof (Hinv (Skill.id (nextSkill w))) as H0. rewrite Hleft in H0.
      destruct H0 as [H01 H02].
      pose proof (roundTo5_Z (windowEnd - Loop.currentTime w)) as [_ Hup].
      set (rw := roundTo5 (inject_Z (windowEnd - Loop.currentTime w))) in *.
      assert (Hrw : rw <= left + 1) by lia.
      rewrite Zle_Qle, inject_Z_plus in Hrw.
      change (inject_Z 1) with 1%Q in Hrw. lra.
    + rewrite lookup_insert_ne by done. by apply overrunInv_end.
  - by apply overrunInv_end.
Qed.

Lemma whileLoop_overrun fuel w w' :
  overrunInv w ->
  whileLoop settings windowEnd skillQueue noSkill fuel w = Some w' ->
  overrunEnd w'.
Proof.
  apply whileLoop_rule.
  - intros ? ? ? _ ?. by eapply overrunInv_step.
  - intros ? ? ? _ ?. by eapply overrunInv_break.
  - intros ? ? _. by apply overrunInv_end.
Qed.

(** No total is negative. *)
Hypothesis workBlockMins_pos : 0 < Settings.workBlockMins settings.

Lemma whileLoop_totals_nonneg fuel w w' :
  map_Forall (fun _ v => 0 <= v) (Loop.totalMinutesPerSkill w) ->
  whileLoop settings windowEnd skillQueue noSkill fuel w = Some w' ->
  map_Forall (fun _ v => 0 <= v) (Loop.totalMinutesPerSkill w').
Proof.
  apply (whileLoop_invariant settings windowEnd skillQueue noSkill
           (fun w => map_Forall (fun _ v => 0 <= v) (Loop.totalMinutesPerSkill w))).
  intros w0 w1 goOn Hinv _ Hs.
  assert (Hins : forall len, 0 < len ->
            map_Forall (fun _ v => 0 <= v)
              (<[Skill.id (nextSkill w0) :=
                   default 0 (Loop.totalMinutesPerSkill w0 !! Skill.id (nextSkill w0))
                   + len]> (Loop.totalMinutesPerSkill w0))).
  { intros len Hlen. apply map_Forall_insert_2; [|done].
    destruct (Loop.totalMinutesPerSkill w0 !! Skill.id (nextSkill w0)) as [v|] eqn:E;
      simpl; [|lia].
    apply Hinv in E. simpl in E. lia. }
  destruct Hs as [l Hl| |left ? Hleft ? ?|? |left brk ? Hleft]; simpl; try done.
  - by apply Hins.
  - apply Hins. lia.
Qed.
End Overrun.

(** ** The totals of a run *)

Lemma sumZ_zeros (xs : list Z) : Forall (fun x => x = 0) xs -> sumZ xs = 0.
Proof. induction 1 as [|x xs -> _ IH]; [done|]. by rewrite sumZ_cons, IH. Qed.

Lemma blocksProduced_push acc rh tm day n :
  blocksProduced (Acc.mk rh tm (Acc.generatedSchedule acc ++ [day]) n)
  = blocksProduced acc ++ Day.blocks day.
Proof.
  unfold blocksProduced. simpl. rewrite map_app, concat_app. simpl.
  by rewrite app_nil_r.
Qed.

Section Totals.
Variable skills : list Skill.t.
Variable settings : Settings.t.
Variable fuel : nat.

#[local] Abbreviation totalsInv := (totalsInv skills).

Lemma totalsInv_initial : totalsInv (initialAcc skills).
Proof.
  constructor; simpl.
  - intros sid.
    destruct (newMap _ !! sid) as [v|] eqn:E; [|done].
    apply newMap_lookup_Some_inv, in_map_iff in E as (s & [= _ <-] & _). done.
  - intros sid. change (inject_Z (minutesOf _ _)) with 0%Q. lra.
  - apply sumZ_zeros. apply Forall_forall. intros v Hv.
    apply list_elem_of_fmap in Hv as ([k v'] & -> & Hkv).
    apply elem_of_map_to_list in Hkv.
    apply newMap_lookup_Some_inv, in_map_iff in Hkv as (s & [= _ <-] & _). done.
  - intros sid. rewrite newMap_is_Some, map_map. simpl. done.
Qed.

Lemma activeSkills_subset rh s : In s (activeSkillsOf skills rh) -> In s skills.
Proof. unfold activeSkillsOf. intros H. by apply filter_In in H as [? _]. Qed.

Lemma loopStart_acct acc :
  totalsInv acc -> acctInv (loopStart settings skills acc) (loopStart settings skills acc).
Proof.
  intros Hinv. constructor; simpl.
  - intros sid. rewrite minutesOf_nil. lia.
  - intros sid. rewrite minutesOf_nil. change (inject_Z 0) with 0%Q. lra.
  - rewrite minutesOf_nil. lia.
  - intros sid Hsome. apply (totals_keys _ _ Hinv).
    unfold dailyAllocationOf in Hsome.
    apply newMap_is_Some in Hsome. rewrite map_map in Hsome. simpl in Hsome.
    apply in_map_iff in Hsome as (s & <- & Hs).
    apply in_map. by eapply activeSkills_subset.
  - done.
Qed.

Lemma totalsInv_day date acc acc' :
  totalsInv acc ->
  dayBody fuel skills settings date acc = Some (DayPushed acc') ->
  totalsInv acc'.
Proof.
  intros Hinv Hbody.
  apply dayBody_pushed in Hbody as (first & w & Hrun & ->).
  pose proof (whileLoop_acct _ _ _ _ _ _ _ _ (loopStart_acct acc Hinv)
                (run_loop _ _ _ _ _ _ Hrun)) as [H1 H2 H3 H4 H5].
  destruct Hinv as [G1 G2 G3 G4]. simpl in *.
  constructor; simpl; intros; rewrite ?blocksProduced_push; simpl;
    rewrite ?minutesOf_app, ?minutesOf_finishDay
      by auto using workOnly_carries, workOnly_isWork.
  - rewrite H1, G1. done.
  - rewrite H2, G2, inject_Z_plus. lra.
  - rewrite H3, G3. done.
  - rewrite H5. apply G4.
Qed.

Lemma forDates_totals dates acc :
  forDates fuel skills settings dates (initialAcc skills) = Some (inr acc) ->
  totalsInv acc.
Proof.
  apply (forDates_invariant totalsInv); [|apply totalsInv_initial].
  intros date acc0 acc1. apply totalsInv_day.
Qed.
End Totals.

Lemma sumZ_nonneg (xs : list Z) : Forall (fun x => 0 <= x) xs -> 0 <= sumZ xs.
Proof. induction 1 as [|x xs Hx _ IH]; [done|]. rewrite sumZ_cons. lia. Qed.

Lemma totalWeightOf_pos activeSkills :
  totalWeightOf activeSkills <> 0 -> 0 < totalWeightOf activeSkills.
Proof.
  rewrite totalWeightOf_sum. intros Hne.
  assert (0 <= sumZ (map (fun s => PRIORITY_WEIGHTS (Skill.priority s)) activeSkills)).
  { apply sumZ_nonneg, Forall_forall. intros x Hx.
    apply list_elem_of_In, in_map_iff in Hx as (s & <- & _).
    destruct (Skill.priority s); simpl; lia. }
  lia.
Qed.

(** The daily target is not negative and exceeds the minutes that remain
    by the rounding at most. *)
Lemma dailyTarget_bounds allocatable totalWeight rh s :
  (0 < allocatable)%Q -> 0 < totalWeight ->
  (0 < default 0 (rh !! Skill.id s))%Q ->
  0 <= dailyTarget allocatable totalWeight rh s
  /\ (inject_Z (dailyTarget allocatable totalWeight rh s)
      <= default 0 (rh !! Skill.id s) + (5 # 2))%Q.
Proof.
  intros Ha Htw Hrem. unfold dailyTarget.
  set (prop := (allocatable * inject_Z (PRIORITY_WEIGHTS (Skill.priority s))
                / inject_Z totalWeight)%Q).
  set (rem := default 0%Q (rh !! Skill.id s)) in *.
  assert (Hprop : (0 <= prop)%Q).
  { unfold prop. apply Qle_shift_div_l.
    - change 0%Q with (inject_Z 0). by rewrite <- Zlt_Qlt.
    - rewrite Qmult_0_l. apply Qmult_le_0_compat; [lra|].
      change 0%Q with (inject_Z 0). rewrite <- Zle_Qle.
      destruct (Skill.priority s); simpl; lia. }
  split.
  - apply roundTo5_nonneg. apply Q.min_glb; lra.
  - destruct (roundTo5_bounds (Qmin prop rem)) as [H _].
    pose proof (Q.le_min_r prop rem). lra.
Qed.

Section RunBounds.
Variable skills : list Skill.t.
Variable settings : Settings.t.
Variable fuel : nat.

Hypothesis estHours_nonneg : forall s, In s skills -> (0 <= Skill.estHours s)%Q.

Lemma overrunAcc_initial : overrunAcc (initialAcc skills).
Proof.
  intros sid. simpl.
  destruct (newMap _ !! sid) as [v|] eqn:E; simpl; [|lra].
  apply newMap_lookup_Some_inv, in_map_iff in E as (s & [= _ <-] & Hs).
  apply estHours_nonneg in Hs. lra.
Qed.

Lemma loopStart_overrun acc firstActive w :
  overrunAcc acc ->
  DayRun fuel skills settings acc firstActive w ->
  overrunInv (loopStart settings skills acc).
Proof.
  intros Hacc Hrun sid. simpl.
  destruct (dailyAllocationOf _ _ _ _ !! sid) as [t|] eqn:E; [|apply Hacc].
  unfold dailyAllocationOf in E.
  apply newMap_lookup_Some_inv, in_map_iff in E as (s & [= <- <-] & Hs).
  unfold activeSkillsOf in Hs. apply filter_In in Hs as [_ Hpos].
  apply Qltb_lt in Hpos.
  destruct (dailyTarget_bounds _ _ _ s (run_allocatable _ _ _ _ _ _ Hrun)
              (totalWeightOf_pos _ (run_weight _ _ _ _ _ _ Hrun)) Hpos) as [H1 H2].
  split; [done | lra].
Qed.

Lemma forDates_overrun dates acc :
  forDates fuel skills settings dates (initialAcc skills) = Some (inr acc) ->
  overrunAcc acc.
Proof.
  apply (forDates_invariant overrunAcc); [|apply overrunAcc_initial].
  intros date acc0 acc1 Hacc Hbody.
  apply dayBody_pushed in Hbody as (first & w & Hrun & ->).
  intros sid. simpl.
  by apply (whileLoop_overrun _ _ _ _ _ _ _ (loopStart_overrun _ _ _ Hacc Hrun)
              (run_loop _ _ _ _ _ _ Hrun)).
Qed.
End RunBounds.

Lemma forDates_totals_nonneg fuel skills settings dates acc :
  0 < Settings.workBlockMins settings ->
  forDates fuel skills settings dates (initialAcc skills) = Some (inr acc) ->
  map_Forall (fun _ v => 0 <= v) (Acc.totalMinutesPerSkill acc).
Proof.
  intros Hwb.
  apply (forDates_invariant
           (fun acc => map_Forall (fun _ v => 0 <= v) (Acc.totalMinutesPerSkill acc))).
  - intros date acc0 acc1 Hacc Hbody.
    apply dayBody_pushed in Hbody as (first & w & Hrun & ->). simpl.
    eapply (whileLoop_totals_nonneg _ _ _ _ Hwb); [|apply (run_loop _ _ _ _ _ _ Hrun)].
    exact Hacc.
  - simpl. apply (newMap_Forall (fun _ v => 0 <= v)).
    apply Forall_forall. intros [k v] Hin.
    apply list_elem_of_In, in_map_iff in Hin as (s & [= <- <-] & _). simpl. lia.
Qed.

(** C2.  For every skill the minutes of the work blocks that carry its
    id, over all the days of a returned schedule, exceed [estHours * 60]
    by less than five minutes. *)
Theorem C2_work_minutes_bounded fuel today skills settings schedule summary s :
  List.NoDup (map Skill.id skills) ->
  (forall x, In x skills -> (0 <= Skill.estHours x)%Q) ->
  generateSchedule fuel today skills settings = Some (inr (schedule, summary)) ->
  In s skills ->
  (inject_Z (sumZ (map Block.minutes
                       (List.filter (carries (Skill.id s))
                                    (concat (map Day.blocks schedule)))))
   <= Skill.estHours s * 60 + 5)%Q.
Proof.
  intros Hnd Hest Hrun Hs.
  apply generateSchedule_returns in Hrun as (dates & acc & Hfor & -> & _ & _).
  pose proof (forDates_totals _ _ _ _ _ Hfor) as [_ Hrem _ _].
  pose proof (forDates_overrun _ _ _ Hest _ _ Hfor (Skill.id s)) as Hb.
  specialize (Hrem (Skill.id s)). simpl in Hrem.
  rewrite (newMap_lookup _ (Skill.id s) (Skill.estHours s * 60)%Q) in Hrem.
  - simpl in Hrem. unfold minutesOf, blocksProduced in Hrem. lra.
  - by rewrite map_map.
  - apply in_map_iff. by exists s.
Qed.

Lemma demoSkills_NoDup : List.NoDup (map Skill.id demoSkills).
Proof. repeat constructor; simpl; intuition discriminate. Defined.

Lemma demoSkills_estHours x : In x demoSkills -> (0 <= Skill.estHours x)%Q.
Proof. simpl. intros [<-|[<-|[]]]; discriminate. Defined.

Lemma C2_work_minutes_bounded_witness :
  (inject_Z (sumZ (map Block.minutes
                       (List.filter (carries "sql")
                                    (concat (map Day.blocks demoSchedule)))))
   <= (3 # 2) * 60 + 5)%Q.
Proof.
  exact (C2_work_minutes_bounded 64 0 demoSkills demoSettings demoSchedule demoSummary
           (Skill.mk "sql" "SQL" Low (3 # 2))
           demoSkills_NoDup demoSkills_estHours demoRun_returns
           (or_intror (or_introl eq_refl))).
Defined.

(** ** The summary *)

Lemma values_nonneg (m : gmap string Z) :
  map_Forall (fun _ v => 0 <= v) m -> Forall (fun v => 0 <= v) (values m).
Proof.
  intros H. apply Forall_forall. intros v Hv.
  apply list_elem_of_fmap in Hv as ([k v'] & -> & Hkv).
  apply elem_of_map_to_list in Hkv. by apply H in Hkv.
Qed.

(** C6.  The summary has one entry for every input skill, in the order of
    the input; its minutes are the minutes of the work blocks of the
    schedule that carry the id of the skill, and its percent is
    [minutes / grandTotalMinutes * 100], or 0 when the grand total is 0. *)
Theorem C6_summary_per_skill fuel today skills settings schedule summary :
  0 < Settings.workBlockMins settings ->
  generateSchedule fuel today skills settings = Some (inr (schedule, summary)) ->
  let allBlocks := concat (map Day.blocks schedule) in
  let grandTotalMinutes := minutesOf isWork allBlocks in
  Forall2 (fun skill entry =>
             Summary.skillId entry = Skill.id skill
             /\ Summary.skillName entry = Skill.name skill
             /\ Summary.minutes entry = minutesOf (carries (Skill.id skill)) allBlocks
             /\ (grandTotalMinutes <> 0 ->
                 (Summary.percent entry
                  == inject_Z (Summary.minutes entry) / inject_Z grandTotalMinutes * 100)%Q)
             /\ (grandTotalMinutes = 0 -> Summary.percent entry = 0%Q))
          skills summary.
Proof.
  intros Hwb Hrun allBlocks grandTotalMinutes.
  apply generateSchedule_returns in Hrun as (dates & acc & Hfor & -> & _ & ->).
  pose proof (forDates_totals _ _ _ _ _ Hfor) as [Htot _ Hgrand _].
  pose proof (sumZ_nonneg _ (values_nonneg _ (forDates_totals_nonneg _ _ _ _ _ Hwb Hfor)))
    as Hnn.
  fold (blocksProduced acc) in allBlocks. subst allBlocks grandTotalMinutes.
  rewrite <- Hgrand.
  apply Forall2_fmap_r, Forall_Forall2_diag, Forall_forall. intros skill _. simpl.
  repeat split; try done.
  - intros Hne.
    destruct (0 <? sumZ (values (Acc.totalMinutesPerSkill acc))) eqn:E; [reflexivity|].
    apply Z.ltb_ge in E. lia.
  - intros ->. reflexivity.
Qed.

Lemma C6_summary_per_skill_witness :
  Forall2 (fun skill entry =>
             Summary.skillId entry = Skill.id skill
             /\ Summary.skillName entry = Skill.name skill
             /\ Summary.minutes entry
                = minutesOf (carries (Skill.id skill)) (concat (map Day.blocks demoSchedule))
             /\ (minutesOf isWork (concat (map Day.blocks demoSchedule)) <> 0 ->
                 (Summary.percent entry
                  == inject_Z (Summary.minutes entry)
                     / inject_Z (minutesOf isWork (concat (map Day.blocks demoSchedule)))
                     * 100)%Q)
             /\ (minutesOf isWork (concat (map Day.blocks demoSchedule)) = 0 ->
                 Summary.percent entry = 0%Q))
          demoSkills demoSummary.
Proof.
  exact (C6_summary_per_skill 64 0 demoSkills demoSettings demoSchedule demoSummary
           eq_refl demoRun_returns).
Defined.

Lemma sumQ_percent (ms : list Z) (g : Z) :
  (sumQ (map (fun m => inject_Z m / inject_Z g * 100) ms)
   == inject_Z (sumZ ms) / inject_Z g * 100)%Q.
Proof.
  induction ms as [|m ms IH]; simpl.
  - unfold Qdiv. change (inject_Z (sumZ [])) with 0%Q. ring.
  - rewrite IH, sumZ_cons, inject_Z_plus. unfold Qdiv. ring.
Qed.

(** C10.  No entry of the summary has negative minutes; the percents add
    up to 100 when some work was scheduled, and are all 0 when none
    was. *)
Theorem C10_summary_percent_total fuel today skills settings schedule summary :
  List.NoDup (map Skill.id skills) ->
  0 < Settings.workBlockMins settings ->
  generateSchedule fuel today skills settings = Some (inr (schedule, summary)) ->
  let grandTotalMinutes := minutesOf isWork (concat (map Day.blocks schedule)) in
  Forall (fun entry => 0 <= Summary.minutes entry) summary
  /\ (0 < grandTotalMinutes -> (sumQ (map Summary.percent summary) == 100)%Q)
  /\ (grandTotalMinutes = 0 -> Forall (fun entry => Summary.percent entry = 0%Q) summary).
Proof.
  intros Hnd Hwb Hrun grandTotalMinutes.
  apply generateSchedule_returns in Hrun as (dates & acc & Hfor & -> & _ & ->).
  pose proof (forDates_totals _ _ _ _ _ Hfor) as [_ _ Hgrand Hkeys].
  pose proof (forDates_totals_nonneg _ _ _ _ _ Hwb Hfor) as Hnn.
  fold (blocksProduced acc) in grandTotalMinutes. subst grandTotalMinutes.
  rewrite <- Hgrand.
  set (g := sumZ (values (Acc.totalMinutesPerSkill acc))).
  split; [|split].
  - apply Forall_forall. intros entry Hin.
    apply list_elem_of_In, in_map_iff in Hin as (s & <- & _). simpl.
    destruct (Acc.totalMinutesPerSkill acc !! Skill.id s) as [v|] eqn:E; simpl; [|lia].
    by apply Hnn in E.
  - intros Hg. rewrite map_map.
    assert (Eg : (0 <? g) = true) by by apply Z.ltb_lt.
    unfold summaryEntry. simpl. rewrite Eg.
    rewrite <- (map_map (fun s => default 0 (Acc.totalMinutesPerSkill acc !! Skill.id s))
                        (fun m => (inject_Z m / inject_Z g * 100)%Q)).
    rewrite sumQ_percent.
    rewrite <- (map_map Skill.id
                        (fun k => default 0 (Acc.totalMinutesPerSkill acc !! k))).
    rewrite (sumZ_over_keys _ _ Hnd Hkeys). fold g.
    field. change 0%Q with (inject_Z 0). rewrite inject_Z_injective. lia.
  - intros Hg. apply Forall_forall. intros entry Hin.
    apply list_elem_of_In, in_map_iff in Hin as (s & <- & _). simpl.
    by rewrite Hg.
Qed.

Lemma C10_summary_percent_total_witness :
  Forall (fun entry => 0 <= Summary.minutes entry) demoSummary
  /\ (0 < minutesOf isWork (concat (map Day.blocks demoSchedule)) ->
      (sumQ (map Summary.percent demoSummary) == 100)%Q)
  /\ (minutesOf isWork (concat (map Day.blocks demoSchedule)) = 0 ->
      Forall (fun entry => Summary.percent entry = 0%Q) demoSummary).
Proof.
  exact (C10_summary_percent_total 64 0 demoSkills demoSettings demoSchedule demoSummary
           demoSkills_NoDup eq_refl demoRun_returns).
Defined.

(** ** Termination of the block-emission loop *)

Lemma mod_reach (len j i : nat) :
  (i < len)%nat -> exists k, (k < len)%nat /\ ((j + k) mod len)%nat = i.
Proof.
  intros Hi.
  pose proof (Nat.div_mod_eq j len) as Ej.
  pose proof (Nat.mod_upper_bound j len ltac:(lia)) as Hr.
  set (q := (j / len)%nat) in *. set (r := (j mod len)%nat) in *.
  destruct (le_lt_dec r i) as [Hle|Hlt].
  - exists (i - r)%nat. split; [lia|].
    replace (j + (i - r))%nat with (i + q * len)%nat by lia.
    rewrite Nat.Div0.mod_add. by apply Nat.mod_small.
  - exists (len - r + i)%nat. split; [lia|].
    replace (j + (len - r + i))%nat with (i + (q + 1) * len)%nat by lia.
    rewrite Nat.Div0.mod_add. by apply Nat.mod_small.
Qed.

Section Termination.
Variable settings : Settings.t.
Variable windowEnd : Z.
Variable skillQueue : list Skill.t.
Variable noSkill : Skill.t.

#[local] Abbreviation LoopStep := (LoopStep settings windowEnd skillQueue noSkill).
#[local] Abbreviation nextSkill := (nextSkill skillQueue noSkill).

Hypothesis workBlockMins_pos : 0 < Settings.workBlockMins settings.

#[local] Abbreviation wanted := (wanted skillQueue noSkill).
#[local] Abbreviation skipsFrom := (skipsFrom skillQueue noSkill).
#[local] Abbreviation passesLeft := (passesLeft windowEnd skillQueue noSkill).

Lemma skipsFrom_le a n : forall j, (skipsFrom a n j <= n)%nat.
Proof.
  induction n as [|n IH]; intros j; simpl; [lia|].
  destruct (wanted a j); [lia|]. specialize (IH (S j)). lia.
Qed.

Lemma skipsFrom_found a n : forall j,
  (exists k, (k < n)%nat /\ wanted a (j + k) = true) ->
  skipsFrom a (S n) j = skipsFrom a n j.
Proof.
  induction n as [|n IH]; intros j (k & Hk & Hw); [lia|].
  change (skipsFrom a (S (S n)) j)
    with (if wanted a j then O else S (skipsFrom a (S n) (S j))).
  change (skipsFrom a (S n) j)
    with (if wanted a j then O else S (skipsFrom a n (S j))).
  destruct (wanted a j) eqn:E; [done|].
  f_equal. apply IH.
  destruct k as [|k]; [rewrite Nat.add_0_r in Hw; congruence|].
  exists k. split; [lia|]. by rewrite Nat.add_succ_comm.
Qed.

#[local] Abbreviation targetsInQueue := (targetsInQueue skillQueue).

Lemma wanted_somewhere w j :
  targetsInQueue w ->
  forallb (fun t => t <=? 0) (values (Loop.dailyAllocation w)) = false ->
  exists k, (k < length skillQueue)%nat /\ wanted (Loop.dailyAllocation w) (j + k) = true.
Proof.
  intros Hdom Hsome.
  assert (Hex : exists sid t, Loop.dailyAllocation w !! sid = Some t /\ 0 < t).
  { destruct (forallb_forall (fun t => t <=? 0) (values (Loop.dailyAllocation w)))
      as [_ Hall].
    destruct (existsb (fun t => negb (t <=? 0)) (values (Loop.dailyAllocation w))) eqn:E.
    - apply existsb_exists in E as (t & Hin & Ht).
      apply list_elem_of_In, list_elem_of_fmap in Hin as ([sid t'] & -> & Hin).
      apply elem_of_map_to_list in Hin. exists sid, t'. split; [done|].
      simpl in Ht. apply negb_true_iff, Z.leb_gt in Ht. lia.
    - rewrite Hall in Hsome; [done|]. intros t Hin.
      destruct (t <=? 0) eqn:Et; [done|].
      assert (existsb (fun t => negb (t <=? 0)) (values (Loop.dailyAllocation w)) = true);
        [|congruence].
      apply existsb_exists. exists t. by rewrite Et. }
  destruct Hex as (sid & t & Ht & Hpos).
  assert (Hin : In sid (map Skill.id skillQueue)) by (apply Hdom; by eexists).
  apply in_map_iff in Hin as (s & <- & Hs).
  apply (In_nth _ _ noSkill) in Hs as (i & Hi & Ei).
  destruct (mod_reach (length skillQueue) j i Hi) as (k & Hk & Ek).
  exists k. split; [done|]. unfold wanted. rewrite Ek, Ei, Ht.
  by apply Z.ltb_lt.
Qed.

Lemma targetsInQueue_step w w' goOn :
  targetsInQueue w -> LoopStep w w' goOn -> targetsInQueue w'.
Proof.
  intros Hdom Hs.
  assert (Hins : forall left v,
            Loop.dailyAllocation w !! Skill.id (nextSkill w) = Some left ->
            forall sid,
              is_Some (<[Skill.id (nextSkill w) := v]> (Loop.dailyAllocation w) !! sid) ->
              In sid (map Skill.id skillQueue)).
  { intros left v Hleft sid.
    destruct (decide (Skill.id (nextSkill w) = sid)) as [<-|Hne].
    - intros _. apply Hdom. by eexists.
    - rewrite lookup_insert_ne by done. apply Hdom. }
  destruct Hs as [l Hl| |left ? Hleft|? |left brk ? Hleft]; try exact Hdom.
  - exact (Hins left _ Hleft).
  - exact (Hins left _ Hleft).
Qed.

(** A pass after which the loop goes on leaves fewer passes. *)
Lemma passesLeft_step w w' :
  targetsInQueue w ->
  loopCond windowEnd w = true ->
  LoopStep w w' true ->
  (passesLeft w' < passesLeft w)%nat.
Proof.
  intros Hdom Hc Hs.
  apply andb_prop in Hc as [Hc _]. apply Z.ltb_lt in Hc.
  assert (Hclock : Loop.currentTime w < Loop.currentTime w' ->
                   (passesLeft w' < passesLeft w)%nat).
  { intros Hlt. unfold passesLeft.
    pose proof (skipsFrom_le (Loop.dailyAllocation w') (length skillQueue)
                             (Loop.queueIndex w')).
    assert (Z.to_nat (windowEnd - Loop.currentTime w') + 1
            <= Z.to_nat (windowEnd - Loop.currentTime w))%nat by lia.
    nia. }
  inversion Hs as [l [Hl Hin] Ew|Hno Hle Ew Eg|?|?|left brk Hno Hleft Hpos Hfit Hbrk Ew];
    subst.
  - apply Hclock. simpl. lia.
  - unfold passesLeft, advanced. simpl.
    apply Nat.add_lt_mono_l.
    rename Eg into Ew. apply negb_true_iff in Ew.
    destruct (wanted_somewhere w (Loop.queueIndex w) Hdom Ew) as (k & Hk & Hw).
    assert (Hnot : wanted (Loop.dailyAllocation w) (Loop.queueIndex w) = false).
    { unfold wanted. fold (nextSkill w).
      destruct (Loop.dailyAllocation w !! Skill.id (nextSkill w)) as [t|]; [|done].
      simpl in Hle. by apply Z.ltb_ge. }
    destruct (length skillQueue) as [|n] eqn:En; [lia|].
    change (skipsFrom (Loop.dailyAllocation w) (S n) (Loop.queueIndex w))
      with (if wanted (Loop.dailyAllocation w) (Loop.queueIndex w) then O
            else S (skipsFrom (Loop.dailyAllocation w) n (S (Loop.queueIndex w)))).
    rewrite Hnot. rewrite skipsFrom_found; [lia|].
    destruct k as [|k]; [rewrite Nat.add_0_r in Hw; congruence|].
    exists k. split; [lia|]. by rewrite Nat.add_succ_comm.
  - apply Hclock. unfold worked. simpl.
    destruct (_ && _ && _) eqn:E; [|lia].
    apply andb_prop in E as [E _]. apply andb_prop in E as [E _].
    apply Z.ltb_lt in E. lia.
Qed.

(** With more fuel than passes left the loop comes to its end. *)
Lemma whileLoop_terminates fuel : forall w,
  targetsInQueue w -> (passesLeft w < fuel)%nat ->
  exists w', whileLoop settings windowEnd skillQueue noSkill fuel w = Some w'.
Proof.
  induction fuel as [|fuel IH]; intros w Hdom Hfuel; [lia|]. simpl.
  destruct (loopCond windowEnd w) eqn:Ec; [|by eexists].
  pose proof (loopBody_step settings windowEnd skillQueue noSkill w) as Hs.
  destruct (loopBody settings windowEnd skillQueue noSkill w) as [w1 goOn].
  simpl in Hs. destruct goOn; [|by eexists].
  apply IH.
  - by eapply targetsInQueue_step.
  - pose proof (passesLeft_step w w1 Hdom Ec Hs). lia.
Qed.
End Termination.

(** ** Termination of a call *)

Lemma skillQueueOf_perm activeSkills dayIndex :
  skillQueueOf activeSkills dayIndex ≡ₚ activeSkills.
Proof.
  unfold skillQueueOf.
  set (q := sort _ activeSkills).
  assert (Hq : q ≡ₚ activeSkills) by apply sort_perm.
  destruct (0 <? dayIndex)%nat; [|done].
  destruct q as [|first rest]; [done|].
  rewrite <- Hq. symmetry. apply Permutation_cons_append.
Qed.

Lemma activeSkillsOf_length skills rh :
  (length (activeSkillsOf skills rh) <= length skills)%nat.
Proof. apply List.filter_length_le. Qed.

Lemma dayBody_terminates fuel skills settings date acc :
  0 < Settings.workBlockMins settings ->
  (dayFuel skills settings <= fuel)%nat ->
  exists r, dayBody fuel skills settings date acc = Some r.
Proof.
  intros Hwb Hfuel. unfold dayBody.
  fold (windowStartOf settings) (windowEndOf settings).
  destruct (_ <=? 0); [by eexists|].
  destruct (Qle_bool _ 0); [by eexists|].
  destruct (activeSkillsOf skills (Acc.remainingHours acc)) as [|first rest] eqn:Eact;
    [by eexists|].
  destruct (_ =? 0); [by eexists|].
  set (queue := skillQueueOf (first :: rest) (Acc.dayIndex acc)).
  assert (Hperm : queue ≡ₚ first :: rest) by apply skillQueueOf_perm.
  assert (Hlen : (length queue <= length skills)%nat).
  { rewrite (Permutation_length Hperm), <- Eact. apply activeSkillsOf_length. }
  match goal with
  | |- exists r, match whileLoop _ _ _ _ _ ?w with _ => _ end = _ =>
      destruct (whileLoop_terminates settings (windowEndOf settings) queue first
                  Hwb fuel w) as [w' ->]; [| |by eexists]
  end.
  - intros sid Hsome. simpl in Hsome. unfold dailyAllocationOf in Hsome.
    apply newMap_is_Some in Hsome. rewrite map_map in Hsome. simpl in Hsome.
    apply list_elem_of_In. rewrite Hperm. by apply list_elem_of_In.
  - unfold passesLeft. simpl.
    match goal with
    | |- (_ + skipsFrom ?q ?n ?a ?len ?j < _)%nat =>
        pose proof (skipsFrom_le q n a len j)
    end.
    unfold dayFuel in Hfuel.
    assert (Z.to_nat (windowEndOf settings - windowStartOf settings) * S (length queue)
            <= Z.to_nat (windowEndOf settings - windowStartOf settings)
               * S (length skills))%nat
      by (apply Nat.mul_le_mono_l; lia).
    lia.
Qed.

Lemma forDates_terminates fuel skills settings dates :
  0 < Settings.workBlockMins settings ->
  (dayFuel skills settings <= fuel)%nat ->
  forall acc, exists r, forDates fuel skills settings dates acc = Some r.
Proof.
  intros Hwb Hfuel. induction dates as [|date dates IH]; intros acc; simpl.
  - by eexists.
  - destruct (dayBody_terminates fuel skills settings date acc Hwb Hfuel) as [r ->].
    destruct r as [e| | |acc']; [by eexists | apply IH | by eexists | apply IH].
Qed.

(** C8.  With clock times in [HH:MM] and a work block that lasts, the
    call ends: the date loop goes through the finite range and the
    block-emission loop of each day makes at most [dayFuel] passes, so
    with [enoughFuel] or more the call returns a result or throws. *)
Theorem C8_generateSchedule_terminates today skills settings fuel :
  validTimes settings ->
  (enoughFuel skills settings <= fuel)%nat ->
  exists r, generateSchedule fuel today skills settings = Some r.
Proof.
  intros Hv Hfuel. unfold enoughFuel in Hfuel.
  assert (Hday : (dayFuel skills settings <= fuel)%nat) by lia.
  unfold generateSchedule.
  assert (Hdates : exists dates, datesOf fuel today settings = Some dates).
  { unfold datesOf, getDatesInRange. destruct (Settings.mode settings); [by eexists|].
    apply getDatesLoop_terminates. lia. }
  destruct Hdates as [dates ->].
  destruct (forDates_terminates fuel skills settings dates (valid_workBlockMins _ Hv)
              Hday (initialAcc skills)) as [res Hres].
  rewrite Hres.
  destruct dates; destruct (Settings.mode settings); destruct res; by eexists.
Qed.

Lemma C8_generateSchedule_terminates_witness :
  exists r, generateSchedule 1443 0 demoSkills demoSettings = Some r.
Proof.
  apply (C8_generateSchedule_terminates 0 demoSkills demoSettings 1443
           demoSettings_valid).
  apply Nat.leb_le. vm_compute. reflexivity.
Defined.

(** ** The shapes of the blocks of a day *)

Lemma Placed_mono settings skills skills' b :
  (forall s, In s skills -> In s skills') ->
  Placed settings skills b -> Placed settings skills' b.
Proof. intros Hsub [skill from len Hin| | |]; constructor; auto. Qed.

Section PlacedLoop.
Variable settings : Settings.t.
Variable skillQueue : list Skill.t.
Variable noSkill : Skill.t.

#[local] Abbreviation windowEnd := (windowEndOf settings).
#[local] Abbreviation LoopStep := (LoopStep settings windowEnd skillQueue noSkill).
#[local] Abbreviation Placed := (Placed settings skillQueue).
#[local] Abbreviation placedInv := (placedInv settings skillQueue).

Hypothesis workBlockMins_pos : 0 < Settings.workBlockMins settings.
Hypothesis queue_nonempty : skillQueue <> [].

Lemma nextSkill_In w : In (nextSkill skillQueue noSkill w) skillQueue.
Proof.
  unfold nextSkill. apply nth_In. apply Nat.mod_upper_bound.
  destruct skillQueue; [done|simpl; lia].
Qed.

Lemma placedInv_step w w' goOn :
  placedInv w -> loopCond windowEnd w = true -> LoopStep w w' goOn -> placedInv w'.
Proof.
  intros [Ht Hb] Hc Hs.
  pose proof (step_time settings windowEnd skillQueue noSkill workBlockMins_pos
                        _ _ _ Hs) as Htime.
  split; [lia|]. clear Htime.
  apply andb_prop in Hc as [Hc _]. apply Z.ltb_lt in Hc.
  destruct Hs as [l [Hl _]| |left Hno Hleft Hpos Hover Hr| |left brk Hno Hleft Hpos Hfit ->];
    simpl; try done.
  - destruct (lastIsLunch (Loop.blocks w)); [done|].
    apply Forall_app. split; [done|]. apply Forall_singleton. by constructor.
  - apply Forall_app. split; [done|]. apply Forall_singleton.
    pose proof (roundTo5_Z (windowEnd - Loop.currentTime w)) as Hr5.
    pose proof (roundTo5_multiple_of_5 (inject_Z (windowEnd - Loop.currentTime w))).
    constructor; [apply nextSkill_In|lia|done|lia|right; split; [lia|done]].
  - assert (Forall Placed
              (Loop.blocks w ++ [workBlock (nextSkill skillQueue noSkill w) (Loop.currentTime w)
                                   (Z.min (Settings.workBlockMins settings) left)])) as Hw.
    { apply Forall_app. split; [done|]. apply Forall_singleton.
      constructor; [apply nextSkill_In|lia|lia|lia|left; lia]. }
    destruct (_ && _ && _) eqn:E; [|done].
    apply andb_prop in E as [E _]. apply andb_prop in E as [E1 E2].
    apply Z.ltb_lt in E1. apply Z.leb_le in E2.
    apply Forall_app. split; [done|]. apply Forall_singleton. constructor; lia.
Qed.

Lemma whileLoop_placed fuel w w' :
  placedInv w ->
  whileLoop settings windowEnd skillQueue noSkill fuel w = Some w' ->
  placedInv w'.
Proof. apply whileLoop_invariant. intros ? ? ?. apply placedInv_step. Qed.

End PlacedLoop.

Lemma day_placed settings fuel skills acc firstActive w :
  validTimes settings ->
  (forall l, Settings.lunch settings = Some l -> 0 <= Lunch.duration l) ->
  DayRun fuel skills settings acc firstActive w ->
  Forall (Placed settings skills) (finishDay settings (Loop.blocks w)).
Proof.
  intros Hv Hl Hrun.
  pose proof (run_window _ _ _ _ _ _ Hrun) as Hwin.
  destruct (run_active _ _ _ _ _ _ Hrun) as [rest Hact].
  pose proof (run_loop _ _ _ _ _ _ Hrun) as Hloop.
  set (active := activeSkillsOf skills (Acc.remainingHours acc)) in *.
  set (queue := skillQueueOf active (Acc.dayIndex acc)) in *.
  assert (Hperm : queue ≡ₚ active) by apply skillQueueOf_perm.
  assert (Hq : queue <> []).
  { intros E. apply Permutation_length in Hperm. rewrite E in Hperm.
    rewrite Hact in Hperm. discriminate. }
  assert (Hsub : forall s, In s queue -> In s skills).
  { intros s Hs. apply (activeSkills_subset skills (Acc.remainingHours acc)).
    change (In s active). apply list_elem_of_In. rewrite <- Hperm.
    by apply list_elem_of_In. }
  apply (whileLoop_placed settings queue firstActive (valid_workBlockMins _ Hv) Hq)
    in Hloop; [|split; [simpl; lia|constructor]].
  destruct Hloop as [_ Hb].
  assert (Hb' : Forall (Placed settings skills) (Loop.blocks w)).
  { eapply Forall_impl; [exact Hb|]. intros b. by apply Placed_mono. }
  rewrite finishDay_fillFrom.
  apply fillFrom_Forall.
  - intros from to H. by constructor.
  - exact (sorted_timed settings fuel skills acc firstActive w Hv Hl Hrun).
  - apply Forall_forall. intros b Hin. apply list_elem_of_In in Hin.
    rewrite sortBlocks_perm in Hin. apply list_elem_of_In in Hin.
    revert b Hin. apply Forall_forall.
    unfold lunchBackfill. destruct (Settings.lunch settings) as [l|] eqn:El; [|done].
    destruct (existsb _ _); [done|]. destruct (_ && _); [|done].
    apply Forall_app. split; [done|]. apply Forall_singleton. by constructor.
  - by apply windowStart_nonneg.
Qed.

Lemma schedule_placed fuel today skills settings schedule summary :
  validTimes settings ->
  (forall l, Settings.lunch settings = Some l -> 0 <= Lunch.duration l) ->
  generateSchedule fuel today skills settings = Some (inr (schedule, summary)) ->
  Forall (fun day => Forall (Placed settings skills) (Day.blocks day)) schedule.
Proof.
  intros Hv Hl. apply schedule_Forall. intros acc firstActive w date Hrun. simpl.
  by eapply day_placed.
Qed.

Lemma Forall_days_impl (P Q : Block.t -> Prop) (schedule : list Day.t) :
  (forall b, P b -> Q b) ->
  Forall (fun day => Forall P (Day.blocks day)) schedule ->
  Forall (fun day => Forall Q (Day.blocks day)) schedule.
Proof.
  intros H Hs. eapply Forall_impl; [exact Hs|]. intros day Hd. simpl in *.
  eapply Forall_impl; [exact Hd|]. exact H.
Qed.

Lemma demoSettings_lunch_nonneg l :
  Settings.lunch demoSettings = Some l -> 0 <= Lunch.duration l.
Proof. intros [= <-]. discriminate. Defined.

(** X8. In the schedule [generateSchedule] returns every work block
    carries the id and the name of one of the input skills and
    [completed: false]; breaks, the lunch and buffers carry no skill and no
    [completed] field. *)
Theorem X8_blocks_skill_fields fuel today skills settings schedule summary :
  validTimes settings ->
  (forall l, Settings.lunch settings = Some l -> 0 <= Lunch.duration l) ->
  generateSchedule fuel today skills settings = Some (inr (schedule, summary)) ->
  Forall (fun day =>
            Forall (fun b =>
                      match Block.type b with
                      | work =>
                          exists skill,
                            In skill skills
                            /\ Block.skillId b = Some (Skill.id skill)
                            /\ Block.skillName b = Some (Skill.name skill)
                            /\ Block.completed b = Some false
                      | _ =>
                          Block.skillId b = None /\ Block.skillName b = None
                          /\ Block.completed b = None
                      end)
                   (Day.blocks day))
         schedule.
Proof.
  intros Hv Hl Hrun. eapply Forall_days_impl; [|by eapply schedule_placed].
  intros b [skill from len Hin _ _ _ _| | |]; simpl; [|done..]. by exists skill.
Qed.

Lemma X8_blocks_skill_fields_witness :
  Forall (fun day =>
            Forall (fun b =>
                      match Block.type b with
                      | work =>
                          exists skill,
                            In skill demoSkills
                            /\ Block.skillId b = Some (Skill.id skill)
                            /\ Block.skillName b = Some (Skill.name skill)
                            /\ Block.completed b = Some false
                      | _ =>
                          Block.skillId b = None /\ Block.skillName b = None
                          /\ Block.completed b = None
                      end)
                   (Day.blocks day))
         demoSchedule.
Proof.
  exact (X8_blocks_skill_fields 64 0 demoSkills demoSettings demoSchedule demoSummary
           demoSettings_valid demoSettings_lunch_nonneg demoRun_returns).
Defined.





(** ** Clock times, also outside the day *)

Lemma Number_toString z : Number (toString z) = z.
Proof. unfold Number, toString. rewrite NilEmpty.isi. apply DecimalZ.of_to. Qed.

Lemma padStart2_long s : (2 <= String.length s)%nat -> padStart2 s = s.
Proof.
  intros H. unfold padStart2. replace (2 - String.length s)%nat with 0%nat by lia.
  reflexivity.
Qed.

Lemma toString_neg p :
  toString (Z.neg p) = String "-" (NilEmpty.string_of_uint (Pos.to_uint p)).
Proof. reflexivity. Qed.

Lemma string_of_uint_length d : d <> Nil -> (1 <= String.length (NilEmpty.string_of_uint d))%nat.
Proof. destruct d; simpl; try lia. congruence. Qed.

Lemma padStart2_toString_neg z : z < 0 -> padStart2 (toString z) = toString z.
Proof.
  intros Hz. destruct z as [|p|p]; try lia. apply padStart2_long.
  rewrite toString_neg. simpl.
  pose proof (string_of_uint_length _ (Unsigned.to_uint_nonnil p)). lia.
Qed.

Lemma Number_padStart2_toString_all z : Number (padStart2 (toString z)) = z.
Proof.
  destruct (Z.lt_ge_cases z 0) as [Hz|Hz].
  - rewrite padStart2_toString_neg by done. apply Number_toString.
  - by apply Number_padStart2_toString.
Qed.

Lemma no_colon_padStart2_toString_all z : no_colon (padStart2 (toString z)).
Proof.
  destruct (Z.lt_ge_cases z 0) as [Hz|Hz].
  - rewrite padStart2_toString_neg by done. destruct z as [|p|p]; try lia.
    rewrite toString_neg. simpl. split; [reflexivity|apply no_colon_uint].
  - by apply no_colon_padStart2_toString.
Qed.

Lemma timeToMinutes_minutesToTime_all z :
  timeToMinutes (minutesToTime z) = z / 60 * 60 + Z.rem z 60.
Proof.
  unfold timeToMinutes. rewrite minutesToTime_unfold.
  rewrite split_colon_app by apply no_colon_padStart2_toString_all.
  rewrite split_colon_no_colon by apply no_colon_padStart2_toString_all.
  simpl. by rewrite !Number_padStart2_toString_all.
Qed.

(** X11. Parsing the clock time [minutesToTime] prints gives the minutes
    back for every non-negative number of minutes and for every whole
    number of hours; for a negative number of minutes that is not a whole
    number of hours it gives an hour less ([Math.floor] rounds the hours
    down while [%] keeps the sign of the minutes). *)
Theorem X11_timeToMinutes_minutesToTime z :
  timeToMinutes (minutesToTime z)
  = if (0 <=? z) || (z mod 60 =? 0) then z else z - 60.
Proof.
  rewrite timeToMinutes_minutesToTime_all.
  pose proof (Z.div_mod z 60 ltac:(lia)) as Hd.
  pose proof (Z.mod_pos_bound z 60 ltac:(lia)) as Hm.
  pose proof (Z.quot_rem' z 60) as Hq.
  destruct (Z.leb_spec 0 z) as [Hz|Hz]; simpl.
  - rewrite Z.rem_mod_nonneg by lia. lia.
  - assert (- 60 < Z.rem z 60 <= 0) as Hr.
    { pose proof (Z.rem_bound_pos (- z) 60 ltac:(lia) ltac:(lia)) as Hr.
      rewrite Z.rem_opp_l' in Hr. lia. }
    destruct (Z.eqb_spec (z mod 60) 0) as [E|E]; lia.
Qed.

(** X12. A clock time the form accepts ([HH:MM], 00:00 to 23:59) is a
    minute of the day, and [minutesToTime] prints that minute as the same
    string. *)
Theorem X12_validated_time_round_trip s :
  wellFormedTime s = true ->
  minutesToTime (timeToMinutes s) = s /\ 0 <= timeToMinutes s < 1440.
Proof. apply wellFormedTime_canonical. Qed.

Lemma X12_validated_time_round_trip_witness :
  minutesToTime (timeToMinutes "09:30") = "09:30"%string
  /\ 0 <= timeToMinutes "09:30" < 1440.
Proof. apply (X12_validated_time_round_trip "09:30"). reflexivity. Defined.

(** ** Rounding to five minutes, characterised *)

(** X13. [roundTo5] gives the multiple of five nearest to its argument,
    the upper one when two are equally near: [roundTo5 q = m] exactly when
    [m] is a multiple of 5 with [q - 2.5 < m <= q + 2.5]. *)
Theorem X13_roundTo5_nearest q m :
  roundTo5 q = m <-> (5 | m) /\ (q - (5 # 2) < inject_Z m)%Q /\ (inject_Z m <= q + (5 # 2))%Q.
Proof.
  pose proof (roundTo5_bounds q) as [Hhi Hlo].
  pose proof (roundTo5_multiple_of_5 q) as [b Hb].
  split.
  - intros <-. split; [by exists b|]. by split.
  - intros [[a Ha] [Hlo' Hhi']].
    assert (inject_Z m < inject_Z (roundTo5 q) + inject_Z 5)%Q as H1
      by (change (inject_Z 5) with 5%Q; lra).
    assert (inject_Z (roundTo5 q) < inject_Z m + inject_Z 5)%Q as H2
      by (change (inject_Z 5) with 5%Q; lra).
    rewrite <- inject_Z_plus, <- Zlt_Qlt in H1, H2. lia.
Qed.

(** ** The dates of a range *)

Lemma getDatesLoop_exact fuel : forall currentDate endDate dates,
  (Z.to_nat (endDate - currentDate + 1) <= fuel)%nat ->
  getDatesLoop fuel currentDate endDate dates
  = Some (dates ++ map (fun i => currentDate + Z.of_nat i)
                       (seq 0 (Z.to_nat (endDate - currentDate + 1)))).
Proof.
  induction fuel as [|fuel IH]; intros c e dates Hf; simpl.
  - destruct (Z.leb_spec c e); [lia|].
    replace (Z.to_nat (e - c + 1)) with 0%nat by lia. simpl. by rewrite app_nil_r.
  - destruct (Z.leb_spec c e) as [Hle|Hgt].
    + rewrite IH by lia.
      replace (Z.to_nat (e - c + 1)) with (S (Z.to_nat (e - (c + 1) + 1))) by lia.
      simpl. rewrite <- app_assoc. simpl. rewrite Z.add_0_r. do 3 f_equal.
      rewrite <- seq_shift, map_map. apply map_ext. intros i. lia.
    + replace (Z.to_nat (e - c + 1)) with 0%nat by lia. simpl. by rewrite app_nil_r.
Qed.

(** X14. [getDatesInRange] returns the dates from the start date to the
    end date, both included, one day apart and in ascending order; the
    list is empty when the end date is before the start date. *)
Theorem X14_getDatesInRange_exact fuel startDate endDate :
  (Z.to_nat (endDate - startDate + 1) <= fuel)%nat ->
  getDatesInRange fuel startDate endDate
  = Some (map (fun i => startDate + Z.of_nat i)
              (seq 0 (Z.to_nat (endDate - startDate + 1)))).
Proof. intros Hf. unfold getDatesInRange. by rewrite getDatesLoop_exact. Qed.

Lemma X14_getDatesInRange_exact_witness :
  getDatesInRange 5 10 12
  = Some (map (fun i => 10 + Z.of_nat i) (seq 0 (Z.to_nat (12 - 10 + 1)))).
Proof. apply (X14_getDatesInRange_exact 5 10 12). simpl. lia. Defined.

(** ** Nothing to allocate *)

Lemma initial_remaining_nonpos skills s :
  (forall x, In x skills -> (Skill.estHours x <= 0)%Q) ->
  Qltb 0 (default 0%Q (Acc.remainingHours (initialAcc skills) !! Skill.id s)) = false.
Proof.
  intros Hall. simpl.
  destruct (newMap _ !! Skill.id s) as [v|] eqn:E; simpl; [|done].
  apply newMap_lookup_Some_inv in E. apply in_map_iff in E as (x & [= _ <-] & Hx).
  specialize (Hall x Hx). destruct (Qltb 0 _) eqn:El; [|done].
  apply Qltb_lt in El. lra.
Qed.

Lemma initial_active_none skills :
  (forall x, In x skills -> (Skill.estHours x <= 0)%Q) ->
  activeSkillsOf skills (Acc.remainingHours (initialAcc skills)) = [].
Proof.
  intros Hall. unfold activeSkillsOf.
  assert (forall l, List.filter
            (fun s => Qltb 0 (default 0%Q (Acc.remainingHours (initialAcc skills)
                                           !! Skill.id s))) l = []) as H.
  { induction l as [|s l IH]; simpl; [done|].
    change (newMap _) with (Acc.remainingHours (initialAcc skills)).
    by rewrite initial_remaining_nonpos. }
  apply H.
Qed.

Lemma forDates_nothing fuel skills settings dates acc :
  windowStartOf settings < windowEndOf settings ->
  (allocatableTimeOf settings (windowStartOf settings) (windowEndOf settings) <= 0)%Q
  \/ activeSkillsOf skills (Acc.remainingHours acc) = [] ->
  forDates fuel skills settings dates acc = Some (inr acc).
Proof.
  intros Hw Hn. induction dates as [|date dates IH]; simpl; [done|].
  unfold dayBody. fold (windowStartOf settings) (windowEndOf settings).
  destruct (Z.leb_spec (windowEndOf settings - windowStartOf settings) 0); [lia|].
  destruct (Qle_bool _ 0) eqn:Ea; [exact IH|].
  destruct Hn as [Hn|Hn]; [apply Qle_bool_iff in Hn; congruence|].
  by rewrite Hn.
Qed.

Lemma datesOf_nonempty fuel today settings dates :
  Settings.mode settings = Daily
  \/ Settings.startDate settings <= Settings.endDate settings ->
  datesOf fuel today settings = Some dates -> dates <> [].
Proof.
  unfold datesOf, getDatesInRange. intros Hr.
  destruct (Settings.mode settings); [by intros [= <-]|].
  destruct Hr as [?|Hr]; [done|]. intros H.
  apply getDatesLoop_prefix in H as (more & -> & Hm). simpl. by apply Hm.
Qed.

Lemma datesOf_terminates fuel today settings :
  (Settings.mode settings = Monthly ->
   (Z.to_nat (Settings.endDate settings - Settings.startDate settings + 1) <= fuel)%nat) ->
  exists dates, datesOf fuel today settings = Some dates.
Proof.
  unfold datesOf, getDatesInRange. destruct (Settings.mode settings); [by eexists|].
  intros H. apply getDatesLoop_terminates. by apply H.
Qed.

(** X15. When there is nothing to allocate, [generateSchedule] throws the
    error of the empty schedule: with a window that is not empty and a
    date range that is not empty, a call in which no skill has hours to
    learn (an empty skill list is one) or no minute can be allocated (the
    lunch takes the whole window, or [dailyHours] is not positive) ends in
    [EmptyScheduleError], without entering the block-emission loop. *)
Theorem X15_nothing_to_allocate fuel today skills settings :
  timeToMinutes (Settings.startTime settings) < timeToMinutes (Settings.endTime settings) ->
  Settings.mode settings = Daily
  \/ Settings.startDate settings <= Settings.endDate settings ->
  (Settings.mode settings = Monthly ->
   (Z.to_nat (Settings.endDate settings - Settings.startDate settings + 1) <= fuel)%nat) ->
  (forall s, In s skills -> (Skill.estHours s <= 0)%Q)
  \/ (allocatableTimeOf settings (timeToMinutes (Settings.startTime settings))
                        (timeToMinutes (Settings.endTime settings)) <= 0)%Q ->
  generateSchedule fuel today skills settings = Some (inl EmptyScheduleError).
Proof.
  intros Hw Hr Hf Hn. unfold generateSchedule.
  destruct (datesOf_terminates fuel today settings Hf) as [dates Hd]. rewrite Hd.
  pose proof (datesOf_nonempty _ _ _ _ Hr Hd) as Hne.
  rewrite (forDates_nothing fuel skills settings dates (initialAcc skills) Hw).
  - destruct dates; [done|]. by destruct (Settings.mode settings).
  - destruct Hn as [Hn|Hn]; [right; by apply initial_active_none|by left].
Qed.

Lemma X15_nothing_to_allocate_witness :
  generateSchedule 0 0 [] scenarioA_settings = Some (inl EmptyScheduleError).
Proof.
  apply (X15_nothing_to_allocate 0 0 [] scenarioA_settings).
  - reflexivity.
  - left. reflexivity.
  - discriminate.
  - left. intros s [].
Defined.

(** ** The dates of the schedule *)

Lemma forDates_sublist fuel skills settings dates : forall acc acc',
  forDates fuel skills settings dates acc = Some (inr acc') ->
  exists more,
    Acc.generatedSchedule acc' = Acc.generatedSchedule acc ++ more
    /\ map Day.date more `sublist_of` dates.
Proof.
  induction dates as [|date dates IH]; intros acc acc'; simpl.
  - intros [= <-]. exists []. split; [by rewrite app_nil_r|constructor].
  - destruct (dayBody fuel skills settings date acc) as [[e| | |acc1]|] eqn:Eb;
      try discriminate.
    + intros H. apply IH in H as (more & -> & Hs). exists more.
      split; [done|by apply sublist_cons].
    + intros [= <-]. exists []. split; [by rewrite app_nil_r|apply sublist_nil_l].
    + intros H. apply IH in H as (more & -> & Hs).
      apply dayBody_pushed in Eb as (first & w & _ & ->). simpl.
      eexists (_ :: more). split; [by rewrite <- app_assoc|]. simpl.
      by apply sublist_skip.
Qed.

Lemma getDatesLoop_Some fuel : forall currentDate endDate dates result,
  getDatesLoop fuel currentDate endDate dates = Some result ->
  result = dates ++ map (fun i => currentDate + Z.of_nat i)
                        (seq 0 (Z.to_nat (endDate - currentDate + 1))).
Proof.
  induction fuel as [|fuel IH]; intros c e dates result; simpl.
  - destruct (Z.leb_spec c e); [discriminate|]. intros [= <-].
    replace (Z.to_nat (e - c + 1)) with 0%nat by lia. simpl. by rewrite app_nil_r.
  - destruct (Z.leb_spec c e) as [Hle|Hgt].
    + intros H. apply IH in H as ->.
      replace (Z.to_nat (e - c + 1)) with (S (Z.to_nat (e - (c + 1) + 1))) by lia.
      simpl. rewrite <- app_assoc. simpl. rewrite Z.add_0_r. do 2 f_equal.
      rewrite <- seq_shift, map_map. apply map_ext. intros i. lia.
    + intros [= <-]. replace (Z.to_nat (e - c + 1)) with 0%nat by lia. simpl.
      by rewrite app_nil_r.
Qed.

Lemma range_sorted (s : Z) (n : nat) : forall a : nat,
  StronglySorted Z.lt (map (fun i => s + Z.of_nat i) (seq a n))
  /\ Forall (fun d => s + Z.of_nat a <= d < s + Z.of_nat (a + n))
            (map (fun i => s + Z.of_nat i) (seq a n)).
Proof.
  induction n as [|n IH]; intros a; simpl; [split; constructor|].
  destruct (IH (S a)) as [IH1 IH2]. split.
  - constructor; [done|]. eapply Forall_impl; [exact IH2|]. simpl. intros d. lia.
  - constructor; [lia|]. eapply Forall_impl; [exact IH2|]. simpl. intros d. lia.
Qed.

Lemma sublist_sorted (l1 l2 : list Z) :
  l1 `sublist_of` l2 -> StronglySorted Z.lt l2 -> StronglySorted Z.lt l1.
Proof.
  induction 1 as [|x l1 l2 Hs IH|x l1 l2 Hs IH]; intros Hsorted; [constructor| |].
  - apply StronglySorted_inv in Hsorted as [H1 H2]. constructor; [by apply IH|].
    apply Forall_forall. intros y Hy. rewrite Forall_forall in H2. apply H2.
    by eapply elem_of_sublist.
  - apply StronglySorted_inv in Hsorted as [H1 H2]. by apply IH.
Qed.



(** ** The shares of the summary *)

Lemma ratio_bounds e t : 0 <= e -> e <= t -> 0 < t ->
  (0 <= inject_Z e / inject_Z t * 100 <= 100)%Q.
Proof.
  intros He Het Ht.
  assert (0 < inject_Z t)%Q as Hq
    by (change 0%Q with (inject_Z 0); rewrite <- Zlt_Qlt; exact Ht).
  assert (0 <= inject_Z e / inject_Z t)%Q as H0.
  { apply Qle_shift_div_l; [exact Hq|]. rewrite Qmult_0_l.
    change 0%Q with (inject_Z 0). now rewrite <- Zle_Qle. }
  assert (inject_Z e / inject_Z t <= 1)%Q as H1.
  { apply Qle_shift_div_r; [exact Hq|]. rewrite Qmult_1_l. now rewrite <- Zle_Qle. }
  split; lra.
Qed.

Lemma lookup_le_sum (m : gmap string Z) k :
  map_Forall (fun _ v => 0 <= v) m ->
  0 <= default 0 (m !! k) <= sumZ (values m).
Proof.
  intros Hm. pose proof (sumZ_nonneg _ (values_nonneg _ Hm)) as Hs.
  destruct (m !! k) as [v|] eqn:E; simpl; [|lia].
  pose proof (Hm k v E) as Hv. simpl in Hv.
  rewrite <- (insert_delete_id m k v E). rewrite sumZ_values_insert, lookup_delete_eq.
  simpl.
  assert (0 <= sumZ (values (delete k m))).
  { apply sumZ_nonneg, values_nonneg. intros k' v' Hk'.
    apply lookup_delete_Some in Hk' as [_ Hk']. by apply (Hm k' v'). }
  lia.
Qed.

(** X17. Every share of the summary is a percentage: the [percent] of a
    summary entry lies between 0 and 100. *)
Theorem X17_summary_percent_bounds fuel today skills settings schedule summary :
  0 < Settings.workBlockMins settings ->
  generateSchedule fuel today skills settings = Some (inr (schedule, summary)) ->
  Forall (fun entry => (0 <= Summary.percent entry <= 100)%Q) summary.
Proof.
  intros Hwb Hrun.
  apply generateSchedule_returns in Hrun as (dates & acc & Hfor & _ & _ & ->).
  apply forDates_totals_nonneg in Hfor; [|done].
  apply Forall_forall. intros entry Hin. apply list_elem_of_In in Hin.
  apply in_map_iff in Hin as (skill & <- & _). unfold summaryEntry. simpl.
  pose proof (lookup_le_sum (Acc.totalMinutesPerSkill acc) (Skill.id skill) Hfor).
  destruct (Z.ltb_spec 0 (sumZ (values (Acc.totalMinutesPerSkill acc)))); [|split; done].
  apply ratio_bounds; lia.
Qed.

Lemma X17_summary_percent_bounds_witness :
  Forall (fun entry => (0 <= Summary.percent entry <= 100)%Q) demoSummary.
Proof.
  exact (X17_summary_percent_bounds 64 0 demoSkills demoSettings demoSchedule demoSummary
           eq_refl demoRun_returns).
Defined.

(** ** A first day is scheduled *)

Lemma totalWeightOf_lower activeSkills :
  Z.of_nat (length activeSkills) <= totalWeightOf activeSkills.
Proof.
  rewrite totalWeightOf_sum. induction activeSkills as [|s l IH]; [done|].
  rewrite map_cons, sumZ_cons. simpl length.
  assert (1 <= PRIORITY_WEIGHTS (Skill.priority s)) by (by destruct (Skill.priority s)).
  lia.
Qed.

Lemma dayBody_pushes fuel skills settings date acc r :
  dayBody fuel skills settings date acc = Some r ->
  windowStartOf settings < windowEndOf settings ->
  (0 < allocatableTimeOf settings (windowStartOf settings) (windowEndOf settings))%Q ->
  activeSkillsOf skills (Acc.remainingHours acc) <> [] ->
  exists acc', r = DayPushed acc'.
Proof.
  unfold dayBody. fold (windowStartOf settings) (windowEndOf settings).
  intros Hr Hw Ha Hact.
  destruct (Z.leb_spec (windowEndOf settings - windowStartOf settings) 0); [lia|].
  destruct (Qle_bool _ 0) eqn:Ea; [apply Qle_bool_iff in Ea; lra|].
  destruct (activeSkillsOf skills (Acc.remainingHours acc)) as [|first rest]; [done|].
  pose proof (totalWeightOf_lower (first :: rest)) as Hlow. simpl length in Hlow.
  destruct (Z.eqb_spec (totalWeightOf (first :: rest)) 0); [lia|].
  destruct (whileLoop _ _ _ _ _ _); [|discriminate].
  injection Hr as <-. by eexists.
Qed.

Lemma initial_active_all skills s :
  (forall x, In x skills -> (0 < Skill.estHours x)%Q) ->
  In s skills ->
  In s (activeSkillsOf skills (Acc.remainingHours (initialAcc skills))).
Proof.
  intros Hall Hs. unfold activeSkillsOf. apply filter_In. split; [done|].
  apply Qltb_lt. simpl.
  destruct (newMap_is_Some (map (fun s => (Skill.id s, (Skill.estHours s * 60)%Q)) skills)
              (Skill.id s)) as [_ [v Hv]].
  { rewrite map_map. simpl. apply in_map_iff. by exists s. }
  rewrite Hv. simpl.
  apply newMap_lookup_Some_inv in Hv. apply in_map_iff in Hv as (x & [= _ <-] & Hx).
  specialize (Hall x Hx). lra.
Qed.

Lemma generateSchedule_first_day fuel today skills settings :
  validTimes settings ->
  windowStartOf settings < windowEndOf settings ->
  (0 < allocatableTimeOf settings (windowStartOf settings) (windowEndOf settings))%Q ->
  Settings.mode settings = Daily
  \/ Settings.startDate settings <= Settings.endDate settings ->
  skills <> [] ->
  (forall s, In s skills -> (0 < Skill.estHours s)%Q) ->
  (enoughFuel skills settings <= fuel)%nat ->
  exists day rest summary,
    generateSchedule fuel today skills settings = Some (inr (day :: rest, summary))
    /\ Day.date day = match Settings.mode settings with
                      | Daily => today
                      | Monthly => Settings.startDate settings
                      end.
Proof.
  intros Hv Hw Ha Hr Hne Hpos Hfuel. unfold enoughFuel in Hfuel.
  assert (Hday : (dayFuel skills settings <= fuel)%nat) by lia.
  pose proof (valid_workBlockMins _ Hv) as Hwb.
  destruct (datesOf_terminates fuel today settings ltac:(lia)) as [dates Hd].
  pose proof (datesOf_nonempty _ _ _ _ Hr Hd) as Hdne.
  assert (exists rest, dates = match Settings.mode settings with
                               | Daily => today
                               | Monthly => Settings.startDate settings
                               end :: rest) as [dates' ->].
  { unfold datesOf, getDatesInRange in Hd. destruct (Settings.mode settings).
    - injection Hd as <-. by eexists.
    - destruct Hr as [?|Hr]; [done|]. apply getDatesLoop_Some in Hd. simpl in Hd.
      replace (Z.to_nat (Settings.endDate settings - Settings.startDate settings + 1))
        with (S (Z.to_nat (Settings.endDate settings - Settings.startDate settings)))
        in Hd by lia.
      simpl in Hd. rewrite Z.add_0_r in Hd. by eexists. }
  unfold generateSchedule. rewrite Hd.
  set (d0 := match Settings.mode settings with
             | Daily => today
             | Monthly => Settings.startDate settings
             end) in *.
  destruct (dayBody_terminates fuel skills settings d0 (initialAcc skills) Hwb Hday)
    as [r Hbody].
  destruct (dayBody_pushes _ _ _ _ _ _ Hbody Hw Ha) as [acc1 ->].
  { destruct skills as [|s0 skills']; [done|]. intros E.
    pose proof (initial_active_all (s0 :: skills') s0 Hpos (or_introl eq_refl)) as Hin.
    rewrite E in Hin. destruct Hin. }
  destruct (forDates_terminates fuel skills settings dates' Hwb Hday acc1) as [res Hres].
  assert (forDates fuel skills settings (d0 :: dates') (initialAcc skills) = Some res)
    as Hfor by (simpl; by rewrite Hbody).
  rewrite Hfor. destruct res as [e|acc2]; [by apply forDates_no_throw in Hfor|].
  apply forDates_sublist in Hres as (more & Hmore & _).
  apply dayBody_pushed in Hbody as (first & w & _ & ->). simpl in Hmore.
  unfold finishRun. rewrite Hmore. simpl.
  destruct (Settings.mode settings); by eexists _, _, _.
Qed.

(** ** Strings in order *)

Lemma str_lt_asym a b : str_lt a b = true -> str_lt b a = false.
Proof.
  unfold str_lt, String.ltb. rewrite (String.compare_antisym b a).
  destruct (String.compare a b); simpl; congruence.
Qed.

(** ** The tick of the clock *)

Lemma setCompleted_same c b :
  Block.completed (ScheduleBlock.block b) = Some c -> setCompleted c b = b.
Proof. destruct b as [i []]; simpl; intros ->; reflexivity. Qed.

Lemma isCompleted_true b :
  isCompleted b = true -> Block.completed (ScheduleBlock.block b) = Some true.
Proof.
  unfold isCompleted. destruct (Block.completed (ScheduleBlock.block b)) as [[]|];
    simpl; congruence.
Qed.

Lemma tickBlock_eq t h b : tickBlock t h b = (completeBlock t b, h || ended t b).
Proof.
  unfold tickBlock, completeBlock. destruct (ended t b); [|now rewrite orb_false_r].
  now rewrite orb_true_r.
Qed.

Lemma mapFlag_tickBlock t bs : forall h,
  mapFlag (tickBlock t) h bs = (map (completeBlock t) bs, h || existsb (ended t) bs).
Proof.
  induction bs as [|b bs IH]; intros h; simpl; [now rewrite orb_false_r|].
  rewrite tickBlock_eq, IH. now rewrite orb_assoc.
Qed.

Lemma completeBlock_none t bs :
  existsb (ended t) bs = false -> map (completeBlock t) bs = bs.
Proof.
  induction bs as [|b bs IH]; simpl; [easy|]. intros [E1 E2]%orb_false_iff.
  unfold completeBlock at 1. now rewrite E1, IH.
Qed.

Lemma day_eta day : ScheduleDay.mk (ScheduleDay.date day) (ScheduleDay.blocks day) = day.
Proof. now destruct day. Qed.

Lemma tickDay_eq t d h day :
  tickDay t d h day
  = (completeDay t d day,
     h || ((ScheduleDay.date day =? d) && existsb (ended t) (ScheduleDay.blocks day))).
Proof.
  unfold tickDay, completeDay. destruct (ScheduleDay.date day =? d); simpl;
    [|now rewrite orb_false_r].
  rewrite mapFlag_tickBlock. destruct h; simpl; [easy|].
  destruct (existsb (ended t) (ScheduleDay.blocks day)) eqn:E; [easy|].
  now rewrite completeBlock_none, day_eta.
Qed.

Lemma mapFlag_tickDay t d days : forall h,
  mapFlag (tickDay t d) h days
  = (map (completeDay t d) days,
     h || existsb (fun day => (ScheduleDay.date day =? d)
                              && existsb (ended t) (ScheduleDay.blocks day)) days).
Proof.
  induction days as [|day days IH]; intros h; simpl; [now rewrite orb_false_r|].
  rewrite tickDay_eq, IH. now rewrite orb_assoc.
Qed.

Lemma completeDay_none t d days :
  existsb (fun day => (ScheduleDay.date day =? d)
                      && existsb (ended t) (ScheduleDay.blocks day)) days = false ->
  map (completeDay t d) days = days.
Proof.
  induction days as [|day days IH]; simpl; [easy|]. intros [E1 E2]%orb_false_iff.
  rewrite IH by easy. f_equal. unfold completeDay.
  destruct (ScheduleDay.date day =? d); [|easy]. simpl in E1.
  now rewrite completeBlock_none, day_eta.
Qed.

Lemma tick_schedule t d prev :
  AppState.schedule (tick t d prev)
  = option_map (map (completeDay t d)) (AppState.schedule prev).
Proof.
  unfold tick. destruct (AppState.schedule prev) as [schedule|]; [|easy].
  rewrite mapFlag_tickDay. simpl.
  destruct (existsb _ schedule) eqn:E; [easy|]. now rewrite completeDay_none.
Qed.

Lemma completeBlock_over t d day b :
  (ScheduleDay.date day =? d) = true ->
  completeBlock t b = if over t d day b then setCompleted true b else b.
Proof.
  intros Hd. unfold completeBlock, ended, over. rewrite Hd. simpl.
  destruct (isWorkBlock b); simpl; [|easy].
  destruct (isCompleted b) eqn:Ec; simpl; [|easy].
  apply isCompleted_true in Ec. rewrite (setCompleted_same _ _ Ec).
  now destruct (str_le _ _).
Qed.

Lemma completeDay_onBlocks t d day :
  completeDay t d day
  = onBlocks (fun day b => if over t d day b then setCompleted true b else b) day.
Proof.
  unfold completeDay, onBlocks. destruct (ScheduleDay.date day =? d) eqn:Hd.
  - f_equal. apply map_ext. intros b. now apply completeBlock_over.
  - rewrite <- (day_eta day) at 1. f_equal. rewrite <- (map_id (ScheduleDay.blocks day)) at 1.
    apply map_ext. intros b. unfold over. now rewrite Hd.
Qed.

Lemma tick_schedule_markOver liveTime liveDate prev :
  AppState.schedule (tick liveTime liveDate prev)
  = option_map (markOver liveTime liveDate) (AppState.schedule prev).
Proof.
  rewrite tick_schedule. destruct (AppState.schedule prev) as [schedule|]; [|easy].
  simpl. f_equal. unfold markOver. apply map_ext. intros day. apply completeDay_onBlocks.
Qed.

Lemma find_map {A B} (p : B -> bool) (f : A -> B) (l : list A) :
  List.find p (map f l) = option_map f (List.find (fun x => p (f x)) l).
Proof. induction l as [|x l IH]; simpl; [easy|]. now destruct (p (f x)). Qed.

Lemma find_ext {A} (p q : A -> bool) (l : list A) :
  (forall x, p x = q x) -> List.find p l = List.find q l.
Proof. intros H. induction l as [|x l IH]; simpl; [easy|]. now rewrite H, IH. Qed.

Lemma nowIn_setCompleted t c b : nowIn t (setCompleted c b) = nowIn t b.
Proof. reflexivity. Qed.

Lemma stationOf_setCompleted c b : stationOf (setCompleted c b) = stationOf b.
Proof. reflexivity. Qed.

Lemma onlyCompletes_nowIn g t b : onlyCompletes g -> nowIn t (g b) = nowIn t b.
Proof. intros H. destruct (H b) as [->|[c ->]]; reflexivity. Qed.

Lemma onlyCompletes_stationOf g b : onlyCompletes g -> stationOf (g b) = stationOf b.
Proof. intros H. destruct (H b) as [->|[c ->]]; reflexivity. Qed.

(** The station does not depend on what is completed. *)
Lemma stationAt_onBlocks g t d schedule :
  (forall day, onlyCompletes (g day)) ->
  stationAt t d (map (onBlocks g) schedule) = stationAt t d schedule.
Proof.
  intros Hg. unfold stationAt. rewrite find_map. simpl.
  destruct (List.find _ schedule) as [day|]; simpl; [|easy].
  rewrite find_map. rewrite (find_ext _ (nowIn t)) by (intros b; now apply onlyCompletes_nowIn).
  destruct (List.find (nowIn t) (ScheduleDay.blocks day)) as [b|]; simpl; [|easy].
  now apply onlyCompletes_stationOf.
Qed.

Lemma onlyCompletes_over t d day :
  onlyCompletes (fun b => if over t d day b then setCompleted true b else b).
Proof. intros b. destruct (over t d day b); [right; now exists true|now left]. Qed.

Lemma over_setCompleted t d day c b : over t d day (setCompleted c b) = over t d day b.
Proof. reflexivity. Qed.

Lemma markOver_idem t d schedule : markOver t d (markOver t d schedule) = markOver t d schedule.
Proof.
  unfold markOver. rewrite map_map. apply map_ext. intros day.
  unfold onBlocks. simpl. f_equal. rewrite map_map. apply map_ext. intros b.
  change (over t d {| ScheduleDay.date := ScheduleDay.date day;
                      ScheduleDay.blocks := _ |}) with (over t d day).
  destruct (over t d day b) eqn:E; [|now rewrite E].
  now rewrite over_setCompleted, E.
Qed.

Lemma tick_eq t d prev :
  tick t d prev
  = AppState.mk (AppState.skills prev) (AppState.settings prev)
      (option_map (markOver t d) (AppState.schedule prev))
      (AppState.summary prev)
      (Some (Live.mk t d
               match AppState.schedule prev with
               | None => "Not Started"%string
               | Some schedule =>
                   if str_lt t (Settings.startTime (AppState.settings prev))
                   then "Not Started"%string
                   else stationAt t d schedule
               end)).
Proof.
  pose proof (tick_schedule_markOver t d prev) as H. unfold tick in *.
  destruct (AppState.schedule prev) as [schedule|]; [|easy].
  destruct (mapFlag _ _ _) as [newSchedule hasChanged]. simpl in *. now rewrite H.
Qed.

(** X1. After a tick of the clock the schedule is the one before with
    every work block of today that has ended ([block.end <= liveTime])
    marked completed; no other block and no other field changes, whatever
    the flag [hasChanged] was on the way. *)
Theorem X1_tick_marks_ended_work liveTime liveDate prev :
  AppState.schedule (tick liveTime liveDate prev)
  = option_map (markOver liveTime liveDate) (AppState.schedule prev).
Proof. apply tick_schedule_markOver. Qed.

Lemma stationAt_markOver t d t' d' schedule :
  stationAt t d (markOver t' d' schedule) = stationAt t d schedule.
Proof. apply stationAt_onBlocks. intros day. apply onlyCompletes_over. Qed.

(** X2. A second tick at the same instant changes nothing: the update the
    timer makes is idempotent. *)
Theorem X2_tick_idempotent liveTime liveDate prev :
  tick liveTime liveDate (tick liveTime liveDate prev) = tick liveTime liveDate prev.
Proof.
  rewrite (tick_eq _ _ (tick _ _ _)). rewrite !tick_eq. simpl.
  destruct (AppState.schedule prev) as [schedule|]; simpl; [|easy].
  now rewrite markOver_idem, stationAt_markOver.
Qed.

(** ** Ticking off a task *)

Lemma toggleDay_onBlocks d blockId day :
  toggleDay d blockId day
  = onBlocks (fun day b => if ScheduleDay.date day =? d then toggleBlock blockId b else b)
             day.
Proof.
  unfold toggleDay, onBlocks. destruct (ScheduleDay.date day =? d); [easy|].
  now rewrite map_id, day_eta.
Qed.

Lemma onlyCompletes_toggle d blockId day :
  onlyCompletes (fun b => if ScheduleDay.date day =? d then toggleBlock blockId b else b).
Proof.
  intros b. destruct (ScheduleDay.date day =? d); [|now left]. unfold toggleBlock.
  destruct (_ && _); [right; eauto|now left].
Qed.

Lemma stationAt_toggle t d d' blockId schedule :
  stationAt t d (map (toggleDay d' blockId) schedule) = stationAt t d schedule.
Proof.
  rewrite (map_ext _ _ (toggleDay_onBlocks d' blockId)).
  apply stationAt_onBlocks. intros day. apply onlyCompletes_toggle.
Qed.

Lemma markOver_toggle t d blockId schedule :
  (forall day b,
      In day schedule -> ScheduleDay.date day = d -> In b (ScheduleDay.blocks day) ->
      ScheduleBlock.id b = blockId -> isWorkBlock b = true ->
      str_le (Block.end_ (ScheduleBlock.block b)) t = true) ->
  markOver t d (map (toggleDay d blockId) schedule) = markOver t d schedule.
Proof.
  intros H. unfold markOver. rewrite map_map. apply map_ext_in. intros day Hday.
  unfold onBlocks, toggleDay. destruct (ScheduleDay.date day =? d) eqn:Hd; [|easy].
  simpl. f_equal. rewrite map_map. apply map_ext_in. intros b Hb.
  change (over t d {| ScheduleDay.date := ScheduleDay.date day;
                      ScheduleDay.blocks := _ |}) with (over t d day).
  unfold toggleBlock.
  destruct (String.eqb (ScheduleBlock.id b) blockId) eqn:Ei; simpl; [|easy].
  destruct (isWorkBlock b) eqn:Ew; [|easy].
  rewrite over_setCompleted. unfold over. rewrite Hd, Ew. simpl.
  rewrite (H day b); auto; [lia|]. now apply String.eqb_eq.
Qed.

Lemma toggleBlock_twice blockId b :
  (ScheduleBlock.id b = blockId -> isWorkBlock b = true ->
   is_Some (Block.completed (ScheduleBlock.block b))) ->
  toggleBlock blockId (toggleBlock blockId b) = b.
Proof.
  intros H. unfold toggleBlock.
  destruct (String.eqb (ScheduleBlock.id b) blockId) eqn:Ei; simpl; [|now rewrite Ei].
  destruct (isWorkBlock b) eqn:Ew; [|now rewrite Ei, Ew].
  change (ScheduleBlock.id (setCompleted _ b)) with (ScheduleBlock.id b).
  change (isWorkBlock (setCompleted (negb (isCompleted b)) b)) with (isWorkBlock b).
  rewrite Ei, Ew. simpl.
  destruct H as [c Hc]; [now apply String.eqb_eq|easy|].
  unfold isCompleted at 1. simpl. rewrite negb_involutive.
  change (setCompleted (isCompleted b) (setCompleted (negb (isCompleted b)) b))
    with (setCompleted (isCompleted b) b).
  apply setCompleted_same. unfold isCompleted. now rewrite Hc.
Qed.

Lemma state_eta s :
  AppState.mk (AppState.skills s) (AppState.settings s) (AppState.schedule s)
              (AppState.summary s) (AppState.live s) = s.
Proof. now destruct s. Qed.

(** X3. A work block of today that has ended cannot be unchecked for
    longer than a second: the tick after [toggleTaskCompletion] gives the
    state the tick would have given without it. *)
Theorem X3_tick_after_toggle liveTime liveDate blockId prev :
  (forall schedule day b,
      AppState.schedule prev = Some schedule ->
      In day schedule -> ScheduleDay.date day = liveDate ->
      In b (ScheduleDay.blocks day) ->
      ScheduleBlock.id b = blockId -> isWorkBlock b = true ->
      str_le (Block.end_ (ScheduleBlock.block b)) liveTime = true) ->
  tick liveTime liveDate (toggleTaskCompletion liveDate blockId prev)
  = tick liveTime liveDate prev.
Proof.
  intros H. rewrite !tick_eq. unfold toggleTaskCompletion.
  destruct (AppState.schedule prev) as [schedule|] eqn:E; simpl; [|now rewrite E].
  rewrite stationAt_toggle, markOver_toggle; [easy|]. intros day b. now apply H.
Qed.

(** X4. Checking a task and unchecking it again gives the state back,
    when the work blocks with that id on that day carry a [completed]
    field (as the blocks the allocator emits do). *)
Theorem X4_toggle_twice dayDate blockId prev :
  (forall schedule day b,
      AppState.schedule prev = Some schedule ->
      In day schedule -> ScheduleDay.date day = dayDate ->
      In b (ScheduleDay.blocks day) ->
      ScheduleBlock.id b = blockId -> isWorkBlock b = true ->
      is_Some (Block.completed (ScheduleBlock.block b))) ->
  toggleTaskCompletion dayDate blockId (toggleTaskCompletion dayDate blockId prev) = prev.
Proof.
  intros H. destruct prev as [skills settings [schedule|] summary live]; [|easy].
  unfold toggleTaskCompletion. simpl in *. f_equal. f_equal. rewrite map_map.
  rewrite <- (map_id schedule) at 2. apply map_ext_in. intros day Hday.
  unfold toggleDay. destruct (ScheduleDay.date day =? dayDate) eqn:Hd; simpl;
    [|now rewrite Hd].
  rewrite Hd. rewrite <- (day_eta day) at 3. f_equal. rewrite map_map.
  rewrite <- (map_id (ScheduleDay.blocks day)) at 2. apply map_ext_in.
  intros b Hb. apply toggleBlock_twice. intros Hi Hw.
  apply (H schedule day b); auto. lia.
Qed.

Lemma X3_tick_after_toggle_witness :
  tick "10:00:00" 0 (toggleTaskCompletion 0 "b1" tinyState) = tick "10:00:00" 0 tinyState.
Proof.
  apply (X3_tick_after_toggle "10:00:00" 0 "b1" tinyState).
  intros schedule day b [= <-] [<-|[]] _ [<-|[<-|[]]] Hid Hw; [reflexivity|discriminate].
Defined.

Lemma X4_toggle_twice_witness :
  toggleTaskCompletion 0 "b1" (toggleTaskCompletion 0 "b1" tinyState) = tinyState.
Proof.
  apply (X4_toggle_twice 0 "b1" tinyState).
  intros schedule day b [= <-] [<-|[]] _ [<-|[<-|[]]] Hid Hw; [by eexists|discriminate].
Defined.

(** ** What the page shows *)

(** X5. [getTaskStatus] never returns the status "Pending": its last
    [return] cannot be reached, because a time that is not before the start
    of a block and not inside the block is after its end. *)
Theorem X5_getTaskStatus_never_pending isClient appState b day :
  In (getTaskStatus isClient appState b day)
     [statusNone; statusCompleted; statusUpcoming; statusInProgress]
  /\ Status.text (getTaskStatus isClient appState b day) <> "Pending"%string.
Proof.
  assert (In (getTaskStatus isClient appState b day)
             [statusNone; statusCompleted; statusUpcoming; statusInProgress]) as H.
  { unfold getTaskStatus. destruct isClient; [|simpl; auto].
    destruct (AppState.live appState) as [live|]; [|simpl; auto].
    destruct (negb (isWorkBlock b)); [simpl; auto|].
    destruct (isCompleted b); [simpl; auto|].
    destruct (negb _); [destruct (_ <? _); simpl; auto|].
    unfold str_ge, str_le, str_gt.
    destruct (str_lt (Live.time live) (Block.start (ScheduleBlock.block b)));
      [simpl; auto|].
    destruct (str_lt (Block.end_ (ScheduleBlock.block b)) (Live.time live));
      simpl; auto. }
  split; [exact H|]. simpl in H.
  destruct H as [<-|[<-|[<-|[<-|[]]]]]; discriminate.
Qed.

(** X6. Right after a tick the fallback of [getTaskStatus] is not used:
    a block of today that is shown as "Completed" has its field [completed]
    set. *)
Theorem X6_completed_status_after_tick liveTime liveDate prev schedule day b :
  AppState.schedule (tick liveTime liveDate prev) = Some schedule ->
  In day schedule -> ScheduleDay.date day = liveDate ->
  In b (ScheduleDay.blocks day) ->
  getTaskStatus true (tick liveTime liveDate prev) b day = statusCompleted ->
  isCompleted b = true.
Proof.
  rewrite tick_eq. simpl. intros Hs Hday Hd Hb.
  destruct (AppState.schedule prev) as [schedule0|]; [|discriminate].
  simpl in Hs. injection Hs as <-. unfold markOver in Hday.
  apply in_map_iff in Hday as [day0 [<- Hday0]]. simpl in *.
  apply in_map_iff in Hb as [b0 [<- Hb0]].
  unfold getTaskStatus. simpl. intros H. revert H.
  set (b := if over liveTime liveDate day0 b0 then setCompleted true b0 else b0).
  intros H. destruct (isCompleted b) eqn:Ec; [easy|]. exfalso.
  destruct (isWorkBlock b) eqn:Ew; simpl in *; [|discriminate].
  rewrite (proj2 (Z.eqb_eq _ _) Hd) in H. simpl in H.
  destruct (str_lt liveTime _); [discriminate|].
  destruct (str_ge _ _ && str_le _ _); [discriminate|].
  destruct (str_gt liveTime (Block.end_ (ScheduleBlock.block b))) eqn:Eg; [|discriminate].
  unfold str_gt in Eg.
  assert (over liveTime liveDate day0 b0 = true) as Ho.
  { unfold over. rewrite (proj2 (Z.eqb_eq _ _) Hd). simpl.
    assert (isWorkBlock b0 = true) as ->
      by (subst b; now destruct (over _ _ _ _)).
    simpl. unfold str_le.
    assert (Block.end_ (ScheduleBlock.block b0) = Block.end_ (ScheduleBlock.block b))
      as -> by (subst b; now destruct (over _ _ _ _)).
    now rewrite (str_lt_asym _ _ Eg). }
  subst b. rewrite Ho in Ec. discriminate.
Qed.

Lemma X6_completed_status_after_tick_witness :
  isCompleted (setCompleted true
                 (ScheduleBlock.mk "b1" (workBlock (scenarioA_skill "rust" "Rust") 540 50)))
  = true.
Proof.
  apply (X6_completed_status_after_tick "10:00:00" 0
           (AppState.mk (AppState.skills tinyState) (AppState.settings tinyState)
                        (AppState.schedule tinyState) (AppState.summary tinyState)
                        (Some (Live.mk "09:00:00" 0 "Rust")))
           (markOver "10:00:00" 0 [tinyDay])
           (onBlocks (fun day b => if over "10:00:00" 0 day b then setCompleted true b else b)
                     tinyDay)).
  - reflexivity.
  - left. reflexivity.
  - reflexivity.
  - left. reflexivity.
  - reflexivity.
Defined.


(** ** The settings form *)

Lemma settingsSchema_sound values :
  settingsSchema values = true ->
  validTimes (currentSettingsOf values)
  /\ 25 <= FormValues.workBlockMins values
  /\ 0 <= FormValues.breakMins values
  /\ (forall l, Settings.lunch (currentSettingsOf values) = Some l ->
      1 <= Lunch.duration l)
  /\ (FormValues.mode values = Daily ->
      (0 < Settings.dailyHours (currentSettingsOf values))%Q)
  /\ (FormValues.mode values = Monthly ->
      Settings.startDate (currentSettingsOf values)
      <= Settings.endDate (currentSettingsOf values)).
Proof.
  unfold settingsSchema. rewrite !andb_true_iff.
  intros ((((((((Hs & He) & Hwb) & Hbr) & Hls) & Hld) & Hdaily) & Hmonthly) & Hlunch).
  apply Z.leb_le in Hwb, Hbr.
  assert (forall l, Settings.lunch (currentSettingsOf values) = Some l ->
                    wellFormedTime (Lunch.start l) = true /\ 1 <= Lunch.duration l) as Hl.
  { intros l. unfold currentSettingsOf, refineLunch in *. simpl.
    destruct (FormValues.lunchEnabled values); [|discriminate]. intros [= <-]. simpl.
    destruct (FormValues.lunchStart values) as [s|]; [|discriminate].
    destruct (FormValues.lunchDuration values) as [d|];
      [|by rewrite andb_false_r in Hlunch].
    simpl. split; [done|]. by apply Z.leb_le. }
  split; [|split; [done|split; [done|split; [intros l E; by apply Hl|split]]]].
  - constructor; simpl; [done|done|lia|]. intros l E. by apply Hl.
  - intros Hm. unfold refineDaily in Hdaily. rewrite Hm in Hdaily. simpl.
    destruct (FormValues.dailyHours values) as [h|]; [|discriminate]. simpl.
    apply negb_true_iff in Hdaily.
    destruct (Qlt_le_dec 0 h) as [H|H]; [done|]. apply Qle_bool_iff in H. congruence.
  - intros Hm. unfold refineMonthly in Hmonthly. rewrite Hm in Hmonthly. simpl.
    destruct (FormValues.startDate values) as [sd|]; [|discriminate].
    destruct (FormValues.endDate values) as [ed|]; [|discriminate]. simpl.
    apply negb_true_iff, Z.ltb_ge in Hmonthly. done.
Qed.

Lemma forDates_throws fuel skills settings dates : forall acc e,
  forDates fuel skills settings dates acc = Some (inl e) -> e = InvalidWindowError.
Proof.
  induction dates as [|date dates IH]; intros acc e; simpl; [discriminate|].
  destruct (dayBody fuel skills settings date acc) as [[e'| | |acc1]|] eqn:Eb;
    try discriminate; try apply IH.
  intros [= <-]. unfold dayBody in Eb.
  destruct (_ <=? 0); [by injection Eb as <-|].
  destruct (Qle_bool _ 0); [discriminate|].
  destruct (activeSkillsOf _ _); [discriminate|].
  destruct (_ =? 0); [discriminate|].
  destruct (whileLoop _ _ _ _ _ _); discriminate.
Qed.





Lemma settings_through_form settings :
  (forall l, Settings.lunch settings = Some l ->
             Lunch.start l <> EmptyString /\ Lunch.duration l <> 0) ->
  currentSettingsOf (formValuesOf settings) = settings.
Proof.
  intros Hl. destruct settings as [m dh sd ed st et wb bm [l|]]; [|reflexivity].
  destruct (Hl l eq_refl) as [Hs Hd]. unfold currentSettingsOf, formValuesOf. simpl.
  do 2 f_equal. destruct l as [s d]. simpl in *.
  destruct (Z.eqb_spec d 0); [done|]. by destruct s.
Qed.

Lemma wellFormedTime_nonempty s : wellFormedTime s = true -> s <> EmptyString.
Proof. by destruct s. Qed.

Lemma lunch_of_enabled values :
  FormValues.lunchEnabled values = true ->
  Settings.lunch (currentSettingsOf values)
  = Some (Lunch.mk (default EmptyString (FormValues.lunchStart values))
                   (default 0 (FormValues.lunchDuration values))).
Proof. intros E. unfold currentSettingsOf. simpl. by rewrite E. Qed.

(** X20. The settings survive the form.  When the settings form is reset
    from settings that validated form values produced, the values the form
    then holds are valid again and produce the same settings. *)
Theorem X20_settings_through_form values :
  settingsSchema values = true ->
  settingsSchema (formValuesOf (currentSettingsOf values)) = true
  /\ currentSettingsOf (formValuesOf (currentSettingsOf values)) = currentSettingsOf values.
Proof.
  intros Hschema.
  destruct (settingsSchema_sound values Hschema) as (Hv & Hwb & Hbr & Hl & Hdaily & Hmonthly).
  split.
  - unfold settingsSchema. rewrite !andb_true_iff.
    change (FormValues.startTime (formValuesOf (currentSettingsOf values)))
      with (Settings.startTime (currentSettingsOf values)).
    change (FormValues.endTime (formValuesOf (currentSettingsOf values)))
      with (Settings.endTime (currentSettingsOf values)).
    repeat split.
    + apply (valid_startTime _ Hv).
    + apply (valid_endTime _ Hv).
    + by apply Z.leb_le.
    + by apply Z.leb_le.
    + simpl. destruct (FormValues.lunchEnabled values) eqn:Een; [|reflexivity].
      pose proof (valid_lunchStart _ Hv _ (lunch_of_enabled _ Een)) as Hs. simpl in *.
      by destruct (default EmptyString (FormValues.lunchStart values)).
    + simpl. destruct (FormValues.lunchEnabled values) eqn:Een; [|reflexivity].
      specialize (Hl _ (lunch_of_enabled _ Een)). simpl in Hl.
      simpl. destruct (Z.eqb_spec (default 0 (FormValues.lunchDuration values)) 0); [lia|].
      by apply Z.leb_le.
    + unfold refineDaily. simpl. destruct (FormValues.mode values); [|reflexivity].
      specialize (Hdaily eq_refl). simpl in Hdaily. apply negb_true_iff.
      destruct (Qle_bool _ 0) eqn:E; [|reflexivity]. apply Qle_bool_iff in E. lra.
    + unfold refineMonthly. simpl. destruct (FormValues.mode values); [reflexivity|].
      specialize (Hmonthly eq_refl). simpl in Hmonthly.
      apply negb_true_iff, Z.ltb_ge. exact Hmonthly.
    + unfold refineLunch. simpl.
      destruct (FormValues.lunchEnabled values) eqn:Een; [|reflexivity].
      pose proof (valid_lunchStart _ Hv _ (lunch_of_enabled _ Een)) as Hs. simpl in Hs.
      specialize (Hl _ (lunch_of_enabled _ Een)). simpl in *.
      destruct (default EmptyString (FormValues.lunchStart values)); [discriminate|].
      simpl. destruct (Z.eqb_spec (default 0 (FormValues.lunchDuration values)) 0); [lia|].
      simpl. apply negb_true_iff. apply Z.eqb_neq. lia.
  - apply settings_through_form. intros l El. split.
    + apply wellFormedTime_nonempty. by apply (valid_lunchStart _ Hv).
    + specialize (Hl l El). lia.
Qed.

Lemma X20_settings_through_form_witness :
  settingsSchema (formValuesOf (currentSettingsOf (formValuesOf demoSettings))) = true
  /\ currentSettingsOf (formValuesOf (currentSettingsOf (formValuesOf demoSettings)))
     = currentSettingsOf (formValuesOf demoSettings).
Proof. apply (X20_settings_through_form (formValuesOf demoSettings)). reflexivity. Defined.

(** ** The skill list *)

Lemma NoDup_snoc {A} (l : list A) (x : A) :
  List.NoDup l -> ~ In x l -> List.NoDup (l ++ [x]).
Proof.
  intros Hl Hx. induction Hl as [|y l Hy Hl IH]; simpl.
  - constructor; [intros []|constructor].
  - constructor.
    + rewrite in_app_iff. simpl. intros [?|[->|[]]]; [done|]. apply Hx. by left.
    + apply IH. intros ?. apply Hx. by right.
Qed.

Lemma filter_other_ids skills id :
  ~ In id (map Skill.id skills) ->
  List.filter (fun s => negb (String.eqb (Skill.id s) id)) skills = skills.
Proof.
  induction skills as [|s skills IH]; simpl; [done|]. intros H.
  destruct (String.eqb_spec (Skill.id s) id) as [E|E]; [exfalso; apply H; by left|].
  simpl. f_equal. apply IH. intros ?. apply H. by right.
Qed.

Lemma handleGenerate_skills fuel today ids values s s' :
  handleGenerate fuel today ids values s = Some s' ->
  AppState.skills s' = AppState.skills s.
Proof.
  unfold handleGenerate. destruct (AppState.skills s) as [|s0 l] eqn:E.
  - intros [= <-]. done.
  - destruct (generateSchedule _ _ _ _) as [[e|[schedule summary]]|]; [| |discriminate].
    + intros [= <-]. done.
    + intros [= <-]. done.
Qed.

Lemma tick_skills t d s : AppState.skills (tick t d s) = AppState.skills s.
Proof. by rewrite tick_eq. Qed.

Lemma toggle_skills d blockId s :
  AppState.skills (toggleTaskCompletion d blockId s) = AppState.skills s.
Proof. unfold toggleTaskCompletion. by destruct (AppState.schedule s). Qed.

Section SkillListFacts.
Variable toLowerCase : string -> string.

#[local] Abbreviation skillsInv := (skillsInv toLowerCase).

Lemma nameTaken_false skills name :
  nameTaken toLowerCase skills name = false ->
  ~ In (toLowerCase name) (map (fun s => toLowerCase (Skill.name s)) skills).
Proof.
  unfold nameTaken. induction skills as [|s skills IH]; simpl; [tauto|].
  intros [E1 E2]%orb_false_iff. intros [H|H]; [|by apply IH].
  apply String.eqb_neq in E1. done.
Qed.

Lemma values_valid values :
  skillSchema values = true \/ In values defaultSkills ->
  SkillValues.name values <> EmptyString /\ ((1 # 10) <= SkillValues.estHours values)%Q.
Proof.
  intros [H|H].
  - unfold skillSchema in H. apply andb_prop in H as [Hn He].
    split; [|by apply Qle_bool_iff]. destruct (SkillValues.name values); [discriminate|done].
  - simpl in H. repeat (destruct H as [<-|H]; [split; [discriminate|by apply Qle_bool_iff]|]).
    destruct H.
Qed.

Lemma skillsInv_add uuid values s :
  skillSchema values = true \/ In values defaultSkills ->
  ~ In uuid (map Skill.id (AppState.skills s)) ->
  skillsInv (AppState.skills s) ->
  skillsInv (AppState.skills (addSkill toLowerCase uuid values s)).
Proof.
  intros Hv Hfresh [Hids Hnames Hvalid]. unfold addSkill. simpl.
  destruct (nameTaken _ _ _) eqn:E; [by constructor|]. simpl.
  apply nameTaken_false in E. constructor.
  - rewrite map_app. simpl. by apply NoDup_snoc.
  - rewrite map_app. simpl. by apply NoDup_snoc.
  - intros x [Hx|[<-|[]]]%in_app_iff; [by apply Hvalid|]. simpl. by apply values_valid.
Qed.

Lemma skillsInv_remove id s :
  skillsInv (AppState.skills s) -> skillsInv (AppState.skills (removeSkill id s)).
Proof.
  intros [Hids Hnames Hvalid]. simpl. constructor.
  - by apply NoDup_map_filter.
  - by apply (NoDup_map_filter (fun s => toLowerCase (Skill.name s))).
  - intros x [Hx _]%filter_In. by apply Hvalid.
Qed.

Lemma reachable_skills s : Reachable toLowerCase s -> skillsInv (AppState.skills s).
Proof.
  induction 1 as [today now|s s' _ IH Hstep].
  - simpl. constructor; [constructor|constructor|intros ? []].
  - destruct Hstep as [uuid values Hv Hfresh|id|fuel today ids values s' Hv Hgen|today now| |].
    + by apply skillsInv_add.
    + by apply skillsInv_remove.
    + by rewrite (handleGenerate_skills _ _ _ _ _ _ Hgen).
    + simpl. constructor; [constructor|constructor|intros ? []].
    + by rewrite toggle_skills.
    + by rewrite tick_skills.
Qed.

End SkillListFacts.

(** X21. Removing the skill that was just added gives the state back:
    [removeSkill] with the id of the new skill undoes [addSkill], also when
    [addSkill] refused the skill for its name. *)
Theorem X21_remove_undoes_add toLowerCase uuid values appState :
  ~ In uuid (map Skill.id (AppState.skills appState)) ->
  removeSkill uuid (addSkill toLowerCase uuid values appState) = appState.
Proof.
  intros Hfresh. unfold addSkill, removeSkill.
  destruct (nameTaken _ _ _); simpl.
  - rewrite filter_other_ids by done. apply state_eta.
  - rewrite List.filter_app, filter_other_ids by done. simpl.
    rewrite String.eqb_refl. simpl. rewrite app_nil_r. apply state_eta.
Qed.

Lemma X21_remove_undoes_add_witness :
  removeSkill "id-3"
    (addSkill (fun s => s) "id-3" (SkillValues.mk "Go" Low 3)
              (AppState.mk demoSkills demoSettings None None None))
  = AppState.mk demoSkills demoSettings None None None.
Proof.
  apply (X21_remove_undoes_add (fun s => s) "id-3" (SkillValues.mk "Go" Low 3)
           (AppState.mk demoSkills demoSettings None None None)).
  simpl. intros [H|[H|[]]]; discriminate.
Defined.

(** X22. In every state the page gets into from the default state — by
    adding validated or popular skills under new ids, removing skills,
    generating, resetting, ticking tasks off and letting the clock tick —
    the skills have pairwise different ids and pairwise different names
    (also when the case of the letters is ignored), and each has a name
    and at least 0.1 hours: what the allocator is given is what the
    statements about it assume. *)
Theorem X22_reachable_skill_list toLowerCase appState :
  Reachable toLowerCase appState ->
  List.NoDup (map Skill.id (AppState.skills appState))
  /\ List.NoDup (map (fun s => toLowerCase (Skill.name s)) (AppState.skills appState))
  /\ forall s, In s (AppState.skills appState) ->
               Skill.name s <> EmptyString /\ ((1 # 10) <= Skill.estHours s)%Q.
Proof. intros H. by destruct (reachable_skills toLowerCase appState H). Qed.

(** ** The schedule the page holds *)

Lemma completesWork_times g b :
  completesWork g ->
  bstart (ScheduleBlock.block (g b)) = bstart (ScheduleBlock.block b)
  /\ bend (ScheduleBlock.block (g b)) = bend (ScheduleBlock.block b).
Proof. intros H. destruct (H b) as [->|[_ [c ->]]]; by split. Qed.

Lemma completesWork_blockInv g b :
  completesWork g ->
  blockInv (ScheduleBlock.block b) -> blockInv (ScheduleBlock.block (g b)).
Proof.
  intros H [Hm Hc]. destruct (H b) as [->|[Hw [c ->]]]; [by split|].
  split; [exact Hm|]. simpl. split; [by eexists|]. intros _.
  unfold isWorkBlock in Hw. by destruct (Block.type (ScheduleBlock.block b)).
Qed.

Lemma covers_completes g bs : completesWork g -> forall from to,
  covers from (map ScheduleBlock.block bs) to ->
  covers from (map ScheduleBlock.block (map g bs)) to.
Proof.
  intros Hg. induction bs as [|b bs IH]; intros from to; simpl; [done|].
  destruct (completesWork_times g b Hg) as [-> ->]. intros [? ?]. split; [done|].
  by apply IH.
Qed.

Lemma sorted_completes g bs : completesWork g ->
  StronglySorted (fun a b => bstart a <= bstart b) (map ScheduleBlock.block bs) ->
  StronglySorted (fun a b => bstart a <= bstart b)
                 (map ScheduleBlock.block (map g bs)).
Proof.
  intros Hg. induction bs as [|b bs IH]; simpl; [done|].
  intros [Hs Hall]%StronglySorted_inv. constructor; [by apply IH|].
  destruct (completesWork_times g b Hg) as [-> _].
  rewrite map_map. apply Forall_forall. intros x Hx. apply list_elem_of_In in Hx.
  apply in_map_iff in Hx as (y & <- & Hy).
  destruct (completesWork_times g y Hg) as [-> _].
  rewrite Forall_forall in Hall. apply Hall. apply list_elem_of_In.
  apply in_map_iff. by exists y.
Qed.

Lemma dayInv_completes settings g bs :
  completesWork g ->
  dayInv settings (map ScheduleBlock.block bs) ->
  dayInv settings (map ScheduleBlock.block (map g bs)).
Proof.
  intros Hg [Hne Hs Hc Hb]. constructor.
  - by destruct bs.
  - by apply sorted_completes.
  - by apply covers_completes.
  - rewrite map_map. apply Forall_forall. intros x Hx. apply list_elem_of_In in Hx.
    apply in_map_iff in Hx as (y & <- & Hy). apply completesWork_blockInv; [done|].
    rewrite Forall_forall in Hb. apply Hb. apply list_elem_of_In.
    apply in_map_iff. by exists y.
Qed.

Lemma days_onBlocks settings g schedule :
  (forall day, completesWork (g day)) ->
  schedule <> []
  /\ Forall (fun day => dayInv settings (map ScheduleBlock.block (ScheduleDay.blocks day)))
            schedule ->
  map (onBlocks g) schedule <> []
  /\ Forall (fun day => dayInv settings (map ScheduleBlock.block (ScheduleDay.blocks day)))
            (map (onBlocks g) schedule).
Proof.
  intros Hg [Hne Hall]. split; [by destruct schedule|].
  apply Forall_forall. intros day' Hd. apply list_elem_of_In in Hd.
  apply in_map_iff in Hd as (day & <- & Hday). simpl.
  apply dayInv_completes; [done|]. rewrite Forall_forall in Hall.
  apply Hall. by apply list_elem_of_In.
Qed.

Lemma completesWork_over t d day :
  completesWork (fun b => if over t d day b then setCompleted true b else b).
Proof.
  intros b. unfold over. destruct (ScheduleDay.date day =? d); simpl; [|by left].
  destruct (isWorkBlock b); simpl; [|by left].
  destruct (str_le _ _); [right; split; [done|by exists true]|by left].
Qed.

Lemma completesWork_toggle d blockId day :
  completesWork (fun b => if ScheduleDay.date day =? d then toggleBlock blockId b else b).
Proof.
  intros b. destruct (ScheduleDay.date day =? d); [|by left]. unfold toggleBlock.
  destruct (String.eqb _ _); simpl; [|by left].
  destruct (isWorkBlock b); [right; split; [done|by eexists]|by left].
Qed.

Lemma scheduleInv_tick t d s : scheduleInv s -> scheduleInv (tick t d s).
Proof.
  intros [Hv Hl Hboth Hdays]. rewrite tick_eq. constructor; simpl; [done|done| |].
  - rewrite <- Hboth. by destruct (AppState.schedule s).
  - intros schedule' E. destruct (AppState.schedule s) as [schedule|]; [|discriminate].
    injection E as <-. apply days_onBlocks; [|by apply Hdays].
    intros day. apply completesWork_over.
Qed.

Lemma scheduleInv_toggle d blockId s :
  scheduleInv s -> scheduleInv (toggleTaskCompletion d blockId s).
Proof.
  intros Hinv. unfold toggleTaskCompletion.
  destruct (AppState.schedule s) as [schedule|] eqn:Es; [|done].
  destruct Hinv as [Hv Hl Hboth Hdays]. constructor; simpl; [done|done| |].
  - rewrite <- Hboth, Es. done.
  - intros schedule' [= <-]. rewrite (map_ext _ _ (toggleDay_onBlocks d blockId)).
    apply days_onBlocks; [|by apply Hdays]. intros day. apply completesWork_toggle.
Qed.

Lemma Placed_blockInv settings skills b :
  (forall l, Settings.lunch settings = Some l -> 0 < Lunch.duration l) ->
  Placed settings skills b -> blockInv b.
Proof.
  intros Hl [skill from len _ _ Hlen _ _|from Hbrk _ _|l El|from to Hft]; split; simpl;
    try done; try lia; try (split; [discriminate|by intros [? [=]]]).
  by apply Hl.
Qed.

Lemma day_dayInv settings fuel skills acc firstActive w :
  validTimes settings ->
  (forall l, Settings.lunch settings = Some l -> 1 <= Lunch.duration l) ->
  DayRun fuel skills settings acc firstActive w ->
  dayInv settings (finishDay settings (Loop.blocks w)).
Proof.
  intros Hv Hl Hrun.
  assert (forall l, Settings.lunch settings = Some l -> 0 <= Lunch.duration l) as Hl0
    by (intros l E; specialize (Hl l E); lia).
  constructor.
  - by eapply day_nonempty.
  - by eapply day_sorted.
  - by eapply day_covers.
  - eapply Forall_impl; [by eapply day_placed|]. intros b.
    apply Placed_blockInv. intros l E. specialize (Hl l E). lia.
Qed.

Lemma imap_blocks (f : nat -> string) (bs : list Block.t) :
  map ScheduleBlock.block (imap (fun i b => ScheduleBlock.mk (f i) b) bs) = bs.
Proof.
  revert f. induction bs as [|b bs IH]; intros f; simpl; [done|]. f_equal. apply IH.
Qed.

Lemma withIds_days (P : list Block.t -> Prop) ids schedule :
  Forall (fun day => P (Day.blocks day)) schedule ->
  Forall (fun day => P (map ScheduleBlock.block (ScheduleDay.blocks day)))
         (withIds ids schedule).
Proof.
  unfold withIds. revert ids. induction schedule as [|day schedule IH]; intros ids H;
    simpl; [constructor|].
  apply Forall_cons in H as [Hd Hs]. constructor.
  - simpl. by rewrite imap_blocks.
  - by apply (IH (fun d => ids (S d))).
Qed.

Lemma scheduleInv_generate fuel today ids values s s' :
  settingsSchema values = true ->
  handleGenerate fuel today ids values s = Some s' ->
  scheduleInv s -> scheduleInv s'.
Proof.
  intros Hschema Hgen Hinv. unfold handleGenerate in Hgen.
  destruct (AppState.skills s) as [|s0 l]; [by injection Hgen as <-|].
  destruct (generateSchedule _ _ _ _) as [[e|[schedule summary]]|] eqn:Hrun;
    [by injection Hgen as <-| |discriminate].
  injection Hgen as <-.
  destruct (settingsSchema_sound values Hschema) as (Hv & _ & _ & Hl & _ & _).
  constructor; simpl; [done|done|done|].
  intros schedule' [= <-]. split.
  - apply generateSchedule_returns in Hrun as (_ & _ & _ & _ & Hne & _).
    unfold withIds. by destruct schedule.
  - apply withIds_days. revert Hrun. apply schedule_Forall.
    intros acc firstActive w date Hday. simpl. by eapply day_dayInv.
Qed.

Lemma scheduleInv_default today now : scheduleInv (defaultAppState today now).
Proof.
  constructor; simpl; [|by intros l [= <-]|done|discriminate].
  constructor; simpl; try done. by intros l [= <-].
Qed.

Lemma reachable_schedule toLowerCase s : Reachable toLowerCase s -> scheduleInv s.
Proof.
  induction 1 as [today now|s s' _ IH Hstep]; [apply scheduleInv_default|].
  destruct Hstep as [uuid values Hv Hfresh|id|fuel today ids values s' Hv Hgen|today now| |].
  - unfold addSkill. destruct (nameTaken _ _ _); [done|]. by destruct IH.
  - by destruct IH.
  - by eapply scheduleInv_generate.
  - apply scheduleInv_default.
  - by apply scheduleInv_toggle.
  - by apply scheduleInv_tick.
Qed.

Lemma demoState_reachable : Reachable (fun name => name) demoState.
Proof.
  apply (ReachStep _ demoPage).
  - apply (ReachStep _ (addSkill (fun name => name) "py" (SkillValues.mk "Python" High 2)
                                 (defaultAppState 0 "08:00:00"))).
    + apply (ReachStep _ (defaultAppState 0 "08:00:00")); [apply ReachDefault|].
      apply (DoAddSkill _ _ "py" (SkillValues.mk "Python" High 2)).
      * left. reflexivity.
      * simpl. tauto.
    + apply (DoAddSkill _ _ "sql" (SkillValues.mk "SQL" Low (3 # 2))).
      * left. reflexivity.
      * simpl. intros [H|[]]. discriminate.
  - apply (DoGenerate _ _ 1443 0 (fun _ _ => EmptyString) (formValuesOf demoSettings)).
    + reflexivity.
    + vm_compute. reflexivity.
Defined.

Lemma X22_reachable_skill_list_witness :
  List.NoDup (map Skill.id (AppState.skills demoState))
  /\ List.NoDup (map (fun s => Skill.name s) (AppState.skills demoState))
  /\ forall s, In s (AppState.skills demoState) ->
               Skill.name s <> EmptyString /\ ((1 # 10) <= Skill.estHours s)%Q.
Proof. exact (X22_reachable_skill_list (fun name => name) demoState demoState_reachable). Defined.

(** X23. In every state the page gets into from the default state the
    settings are well formed, the schedule and the summary are there
    together or not at all, and a schedule that is there fits the settings
    held with it: it has a day, and in every day the blocks are in the
    order of their start times, leave no minute of the window of the
    settings out, last a positive time, and carry a field [completed]
    exactly when they are work blocks.  Ticking tasks off and the ticks of
    the clock do not disturb this. *)
Theorem X23_reachable_schedule toLowerCase appState :
  Reachable toLowerCase appState ->
  validTimes (AppState.settings appState)
  /\ (AppState.schedule appState = None <-> AppState.summary appState = None)
  /\ forall schedule,
       AppState.schedule appState = Some schedule ->
       schedule <> []
       /\ Forall (fun day =>
                    let blocks := map ScheduleBlock.block (ScheduleDay.blocks day) in
                    blocks <> []
                    /\ StronglySorted
                         (fun a b => timeToMinutes (Block.start a)
                                     <= timeToMinutes (Block.start b)) blocks
                    /\ covers (timeToMinutes (Settings.startTime (AppState.settings appState)))
                              blocks
                              (timeToMinutes (Settings.endTime (AppState.settings appState)))
                    /\ Forall (fun b =>
                                 0 < Block.minutes b
                                 /\ (Block.type b = work <-> is_Some (Block.completed b)))
                              blocks)
                 schedule.
Proof.
  intros H. apply reachable_schedule in H as [Hv Hl Hboth Hdays].
  split; [done|]. split; [done|]. intros schedule E.
  destruct (Hdays schedule E) as [Hne Hall]. split; [done|].
  eapply Forall_impl; [exact Hall|]. intros day [H1 H2 H3 H4]. simpl. done.
Qed.

Lemma X23_reachable_schedule_witness :
  validTimes (AppState.settings demoState)
  /\ (AppState.schedule demoState = None <-> AppState.summary demoState = None)
  /\ forall schedule,
       AppState.schedule demoState = Some schedule ->
       schedule <> []
       /\ Forall (fun day =>
                    let blocks := map ScheduleBlock.block (ScheduleDay.blocks day) in
                    blocks <> []
                    /\ StronglySorted
                         (fun a b => timeToMinutes (Block.start a)
                                     <= timeToMinutes (Block.start b)) blocks
                    /\ covers (timeToMinutes (Settings.startTime (AppState.settings demoState)))
                              blocks
                              (timeToMinutes (Settings.endTime (AppState.settings demoState)))
                    /\ Forall (fun b =>
                                 0 < Block.minutes b
                                 /\ (Block.type b = work <-> is_Some (Block.completed b)))
                              blocks)
                 schedule.
Proof. exact (X23_reachable_schedule (fun name => name) demoState demoState_reachable). Defined.
